(** * stock_app: data merger and back-test engine

    A shallow embedding of [get_data], [run_backtest] and the summary
    metrics of [stock_app.py], with the properties of the specification
    stated and proved (or refuted) against it.

    Modelling conventions.
    - A float64 cell is [float64]: not-a-number, the two infinities, or an
      exact rational.  NaN, the infinities and division by zero follow
      IEEE 754; rounding, overflow and the sign of zero are outside the
      model, so a property that needs the absence of overflow says so, as
      a hypothesis on the cells of the table.
    - An int64 cell is a [Z]; the difference and the sum of share volumes
      wrap around as int64 arithmetic does (the 0/1 flags of the signal
      are summed in [Z]).
    - pandas is taken at its 2.x behaviour: [pct_change] forward-fills
      missing cells first.
    - A pandas Series is the list of its cells; a DataFrame is its date
      index with a finite map from column names to columns.  The order of
      the columns is not modelled.
    - A timestamp is the [Z] wall-clock reading of its calendar date; the
      time zone is carried by the index, as in a [DatetimeIndex].
    - The providers and the clock are arguments of [get_data]; the cache
      decorator, which returns what the function returns, and the page
      layout are not modelled.
    - Python exceptions are values of [exn]; a call that may raise returns
      an [outcome].  [run_backtest] is written in a state-and-exception
      monad over a heap of frames, since it copies and then assigns
      columns in place. *)

From Stdlib Require Import ZArith QArith Qcanon Lia Lqa.
From stdpp Require Import base option list gmap strings numbers sorting.

Local Open Scope Z_scope.

(** ** float64 cells *)

Inductive float64 : Type :=
  | NaN
  | PInf
  | NInf
  | Fin (q : Qc).

#[global] Instance float64_eq_dec : EqDecision float64.
Proof. solve_decision. Defined.

Definition of_Z (z : Z) : float64 := Fin (Q2Qc (inject_Z z)).

Definition is_nan (x : float64) : bool :=
  match x with NaN => true | _ => false end.

Definition fneg (x : float64) : float64 :=
  match x with
  | NaN => NaN
  | PInf => NInf
  | NInf => PInf
  | Fin q => Fin (- q)%Qc
  end.

Definition fadd (x y : float64) : float64 :=
  match x, y with
  | NaN, _ | _, NaN => NaN
  | PInf, NInf | NInf, PInf => NaN
  | PInf, _ | _, PInf => PInf
  | NInf, _ | _, NInf => NInf
  | Fin a, Fin b => Fin (a + b)%Qc
  end.

Definition fsub (x y : float64) : float64 := fadd x (fneg y).

(** The infinity with the sign of [q] times the sign of the infinity
    [neg] (true for minus infinity); NaN when [q] is zero. *)
Definition inf_times (neg : bool) (q : Qc) : float64 :=
  match (q ?= 0)%Qc with
  | Eq => NaN
  | Gt => if neg then NInf else PInf
  | Lt => if neg then PInf else NInf
  end.

Definition fmul (x y : float64) : float64 :=
  match x, y with
  | NaN, _ | _, NaN => NaN
  | PInf, PInf | NInf, NInf => PInf
  | PInf, NInf | NInf, PInf => NInf
  | PInf, Fin q | Fin q, PInf => inf_times false q
  | NInf, Fin q | Fin q, NInf => inf_times true q
  | Fin a, Fin b => Fin (a * b)%Qc
  end.

Definition fdiv (x y : float64) : float64 :=
  match x, y with
  | NaN, _ | _, NaN => NaN
  | (PInf | NInf), (PInf | NInf) => NaN
  | Fin _, (PInf | NInf) => Fin 0%Qc
  | PInf, Fin b => match (b ?= 0)%Qc with Lt => NInf | _ => PInf end
  | NInf, Fin b => match (b ?= 0)%Qc with Lt => PInf | _ => NInf end
  | Fin a, Fin b =>
      match (b ?= 0)%Qc with
      | Eq => inf_times false a
      | _ => Fin (a / b)%Qc
      end
  end.

(** [fgt x y] is the comparison [x > y]; false as soon as one side is NaN. *)
Definition fgt (x y : float64) : bool :=
  match x, y with
  | NaN, _ | _, NaN => false
  | NInf, _ | _, PInf => false
  | PInf, _ | _, NInf => true
  | Fin a, Fin b => bool_decide (b < a)%Qc
  end.

Definition finite (x : float64) : Prop := ∃ q, x = Fin q.

(** ** Series operations (pandas / numpy) *)

(** [Series.shift(1)]: every cell moves one row down, row 0 becomes NaN and
    the last cell is dropped. *)
Definition shift (xs : list float64) : list float64 :=
  take (length xs) (NaN :: xs).

(** [Series.ffill()]: a missing cell takes the last value before it that is
    not missing; the missing cells at the head of the series stay. *)
Fixpoint ffill_from (prev : float64) (xs : list float64) : list float64 :=
  match xs with
  | [] => []
  | x :: xs' =>
      let y := if is_nan x then prev else x in
      y :: ffill_from y xs'
  end.

Definition ffill (xs : list float64) : list float64 := ffill_from NaN xs.

(** [Series.pct_change()] with its defaults [periods=1, fill_method='pad']:
    the series is forward-filled, then [data / data.shift(1) - 1]. *)
Definition pct_change (xs : list float64) : list float64 :=
  let data := ffill xs in
  zip_with (λ x p, fsub (fdiv x p) (Fin 1%Qc)) data (shift data).

Definition fsum (xs : list float64) : float64 := foldl fadd (Fin 0%Qc) xs.

(** The mean of one window of [rolling(window=w)]: [prefix] holds the rows
    up to and including the current one.  With the default [min_periods]
    (the window size) the result is NaN unless the window holds [w]
    observations that are not NaN.  The mean is the exact one; pandas
    accumulates the window in float64, so its last digits can differ. *)
Definition window_mean (w : nat) (prefix : list float64) : float64 :=
  if decide (length prefix < w)%nat then NaN
  else
    let win := drop (length prefix - w) prefix in
    if existsb is_nan win then NaN
    else fdiv (fsum win) (of_Z (Z.of_nat (length win))).

(** [Series.rolling(window=w).mean()]. *)
Definition rolling_mean (w : nat) (xs : list float64) : list float64 :=
  (λ i, window_mean w (take (S i) xs)) <$> seq 0 (length xs).

(** [numpy.cumprod]: the running product, from the first cell. *)
Fixpoint cumprod_from (acc : float64) (xs : list float64) : list float64 :=
  match xs with
  | [] => []
  | x :: r => let a := fmul acc x in a :: cumprod_from a r
  end.

Definition np_cumprod (xs : list float64) : list float64 :=
  match xs with
  | [] => []
  | x :: r => x :: cumprod_from x r
  end.

(** [Series.cumprod()] with the default [skipna=True]: NaN cells count as
    1 in the running product and are NaN again in the result. *)
Definition cumprod (xs : list float64) : list float64 :=
  zip_with (λ x c, if is_nan x then NaN else c) xs
    (np_cumprod ((λ x, if is_nan x then Fin 1%Qc else x) <$> xs)).

(** [Series.fillna(0)]. *)
Definition fillna0 (xs : list float64) : list float64 :=
  (λ x, if is_nan x then Fin 0%Qc else x) <$> xs.

(** ** Exceptions and outcomes *)

Inductive exn : Type :=
  | KeyError (key : string)
  | ValueError (msg : string)
  | TypeError (msg : string)
  | IndexError
  | NameError
  | ProviderError (code : Z).

Inductive outcome (A : Type) : Type :=
  | Returned (a : A)
  | Raised (e : exn).
Arguments Returned {A} a.
Arguments Raised {A} e.

#[global] Instance outcome_ret : MRet outcome := λ A a, Returned a.
#[global] Instance outcome_bind : MBind outcome := λ A B f c,
  match c with
  | Returned a => f a
  | Raised e => Raised e
  end.

(** ** Columns, indexes and frames *)

Inductive column : Type :=
  | FloatCol (xs : list float64)
  | IntCol (zs : list Z).

#[global] Instance column_eq_dec : EqDecision column.
Proof. solve_decision. Defined.

Record DatetimeIndex : Type := mkIndex {
  tz : option string;
  stamps : list Z
}.

Record DataFrame : Type := mkFrame {
  index : DatetimeIndex;
  columns : gmap string column
}.

Definition col_length (c : column) : nat :=
  match c with
  | FloatCol xs => length xs
  | IntCol zs => length zs
  end.

(** The cells of a column read as float64 (exact for int64 cells). *)
Definition as_float (c : column) : list float64 :=
  match c with
  | FloatCol xs => xs
  | IntCol zs => of_Z <$> zs
  end.

(** [DataFrame.empty]: no rows or no columns. *)
Definition df_empty (df : DataFrame) : bool :=
  bool_decide (stamps (index df) = []) || bool_decide (columns df = ∅).

Definition col_fillna0 (c : column) : column :=
  match c with
  | FloatCol xs => FloatCol (fillna0 xs)
  | IntCol zs => IntCol zs
  end.

(** [DataFrame.fillna(0)]. *)
Definition df_fillna0 (df : DataFrame) : DataFrame :=
  mkFrame (index df) (col_fillna0 <$> columns df).

(** [df[name] = 0]: a new (or replaced) int64 column of zeros. *)
Definition df_set_zero (df : DataFrame) (name : string) : DataFrame :=
  mkFrame (index df)
    (<[name := IntCol (replicate (length (stamps (index df))) 0)]> (columns df)).

(** [index.tz_localize(None)]: the zone goes, the wall-clock readings stay. *)
Definition tz_localize_none (df : DataFrame) : DataFrame :=
  mkFrame (mkIndex None (stamps (index df))) (columns df).

(** Every column is as long as the index. *)
Definition wf_frame (df : DataFrame) : Prop :=
  map_Forall (λ _ c, col_length c = length (stamps (index df))) (columns df).

(** No cell of the column is missing. *)
Definition col_no_nan (c : column) : Prop :=
  match c with
  | FloatCol xs => Forall (λ x, x ≠ NaN) xs
  | IntCol _ => True
  end.

(** ** The institutional-investor records and their pivot *)

(** One record of [taiwan_stock_institutional_investors]: the date (already
    read as a calendar date, which is what [pd.to_datetime] makes of the
    provider's ISO strings), the investor category and the two volumes. *)
Record ChipRow : Type := mkChip {
  date : Z;
  name : string;
  buy : Z;
  sell : Z
}.

(** int64 arithmetic wraps around: the value of [z] in the range
    [-2^63, 2^63). *)
Definition wrap64 (z : Z) : Z :=
  (z + 9223372036854775808) mod 18446744073709551616 - 9223372036854775808.

Definition add64 (a b : Z) : Z := wrap64 (a + b).

(** [df_chip['net'] = df_chip['buy'] - df_chip['sell']], on int64 columns. *)
Definition net (r : ChipRow) : Z := wrap64 (buy r - sell r).

Definition chip_empty (df_chip : list ChipRow) : bool :=
  match df_chip with [] => true | _ => false end.

(** The cell of the pivot at date [d] and category [n]: the int64 sum of
    the net volumes of the records with that date and name, missing when
    there is no such record. *)
Definition pivot_cell (df_chip : list ChipRow) (d : Z) (n : string) : option Z :=
  let rows := filter (λ r, date r = d ∧ name r = n) df_chip in
  match rows with
  | [] => None
  | _ => Some (foldr add64 0 (net <$> rows))
  end.

(** A column of possibly missing int64 cells keeps the int64 type when no
    cell is missing and becomes float64 with NaN otherwise. *)
Definition col_of_cells (cells : list (option Z)) : column :=
  match mapM id cells with
  | Some zs => IntCol zs
  | None => FloatCol ((λ c, from_option of_Z NaN c) <$> cells)
  end.

(** [pivot_table(index='date', columns='name', values='net', aggfunc='sum')]. *)
Definition pivot_table (df_chip : list ChipRow) : DataFrame :=
  let dates := merge_sort Z.le (remove_dups (date <$> df_chip)) in
  let names := remove_dups (name <$> df_chip) in
  mkFrame (mkIndex None dates)
    (list_to_map
       ((λ n, (n, col_of_cells ((λ d, pivot_cell df_chip d n) <$> dates))) <$> names)).

(** ** The left join on the date index *)

(** The row of [right] that carries stamp [d], if any. *)
Definition row_of (right : list Z) (d : Z) : option nat :=
  fst <$> list_find (λ x, x = d) right.

(** A column of the right frame re-indexed on the rows [pos] of the left
    frame; rows without a partner are missing. *)
Definition reindex (pos : list (option nat)) (c : column) : column :=
  match c with
  | IntCol zs => col_of_cells ((λ p, p ≫= (zs !!.)) <$> pos)
  | FloatCol xs => FloatCol ((λ p, default NaN (p ≫= (xs !!.))) <$> pos)
  end.

(** [left.join(right, how='left')] for a right frame whose index is
    tz-naive and has no duplicate: the rows and the order of [left] are
    kept.  pandas refuses to join a tz-aware index with a tz-naive one,
    and to join frames that share a column name. *)
Definition join_left (left right : DataFrame) : outcome DataFrame :=
  match tz (index left) with
  | Some _ => Raised (TypeError "Cannot join tz-naive with tz-aware DatetimeIndex")
  | None =>
      if decide (columns left ##ₘ columns right) then
        let pos := row_of (stamps (index right)) <$> stamps (index left) in
        Returned (mkFrame (index left)
                    (columns left ∪ (reindex pos <$> columns right)))
      else Raised (ValueError "columns overlap but no suffix specified")
  end.

(** ** get_data *)

Section get_data.
(** The two readings of [datetime.now()], as calendar days, and the two
    providers: [yf.download(ticker, start=...)] and
    [DataLoader().taiwan_stock_institutional_investors(...)].  The price
    frame is taken with its column labels at level 0 (lines 31-32 only
    relabel the columns of a MultiIndex frame). *)
Variables now_start now_end : Z.
Variable download : string → Z → outcome DataFrame.
Variable taiwan_stock_institutional_investors :
  string → Z → Z → outcome (list ChipRow).

Definition get_data (symbol : string) (days : Z) : outcome (option DataFrame) :=
  let start_date := now_start - days in
  let ticker := symbol +:+ ".TW" in
  df_price ← download ticker start_date;
  if df_empty df_price then mret None
  else
    df_chip ← taiwan_stock_institutional_investors symbol start_date now_end;
    if negb (chip_empty df_chip) then
      let df_chip_pivot := df_fillna0 (pivot_table df_chip) in
      let df_price := tz_localize_none df_price in
      df ← join_left df_price df_chip_pivot;
      mret (Some (df_fillna0 df))
    else
      let df := df_price in
      mret (Some (df_set_zero df "Foreign_Investor")).
End get_data.

(** ** Frames on the heap *)

(** Python frames are objects: a variable holds a reference, and
    [df[name] = ...] updates the object behind it. *)
Definition loc : Type := positive.

Definition M (A : Type) : Type := gmap loc DataFrame → outcome A * gmap loc DataFrame.

#[global] Instance M_ret : MRet M := λ A a h, (Returned a, h).
#[global] Instance M_bind : MBind M := λ A B f c h,
  match c h with
  | (Returned a, h') => f a h'
  | (Raised e, h') => (Raised e, h')
  end.

Definition raise {A : Type} (e : exn) : M A := λ h, (Raised e, h).

(** [df.copy()]: a new object with the same index and columns. *)
Definition copy (l : loc) : M loc := λ h,
  match h !! l with
  | Some df => let l' := fresh (dom h) in (Returned l', <[l' := df]> h)
  | None => (Raised NameError, h)
  end.

(** [df[key]] *)
Definition getitem (l : loc) (key : string) : M column := λ h,
  match h !! l with
  | Some df =>
      match columns df !! key with
      | Some c => (Returned c, h)
      | None => (Raised (KeyError key), h)
      end
  | None => (Raised NameError, h)
  end.

(** [df[key] = c] *)
Definition setitem (l : loc) (key : string) (c : column) : M unit := λ h,
  match h !! l with
  | Some df => (Returned (), <[l := mkFrame (index df) (<[key := c]> (columns df))]> h)
  | None => (Raised NameError, h)
  end.

(** [series > 0] *)
Definition gt0 (c : column) : list bool :=
  match c with
  | FloatCol xs => (λ x, fgt x (Fin 0%Qc)) <$> xs
  | IntCol zs => (λ z, bool_decide (0 < z)) <$> zs
  end.

(** [series.astype(int)] of a boolean series. *)
Definition astype_int (bs : list bool) : list Z :=
  (λ b : bool, if b then 1 else 0) <$> bs.

(** A computation that never changes the object at [k]. *)
Definition preserves {A : Type} (k : loc) (c : M A) : Prop :=
  ∀ h, (c h).2 !! k = h !! k.

(** ** run_backtest *)

Definition run_backtest (df : loc) (ma_window : nat) : M loc :=
  data ← copy df;
  close ← getitem data "Close";
  setitem data "MA" (FloatCol (rolling_mean ma_window (as_float close)));;
  close ← getitem data "Close";
  setitem data "Daily_Return" (FloatCol (pct_change (as_float close)));;
  close ← getitem data "Close";
  ma ← getitem data "MA";
  let condition_tech := zip_with fgt (as_float close) (as_float ma) in
  fi ← getitem data "Foreign_Investor";
  let condition_chip := gt0 fi in
  setitem data "Signal"
    (IntCol (astype_int (zip_with andb condition_tech condition_chip)));;
  signal ← getitem data "Signal";
  daily ← getitem data "Daily_Return";
  setitem data "Strategy_Return"
    (FloatCol (zip_with fmul (shift (as_float signal)) (as_float daily)));;
  daily ← getitem data "Daily_Return";
  setitem data "Cum_Market" (FloatCol (cumprod (fadd (Fin 1%Qc) <$> as_float daily)));;
  strat ← getitem data "Strategy_Return";
  setitem data "Cum_Strategy" (FloatCol (cumprod (fadd (Fin 1%Qc) <$> as_float strat)));;
  mret data.

(** ** The summary metrics (module level, lines 133-146) *)

Record Metrics : Type := mkMetrics {
  total_return : float64;
  market_return : float64;
  excess_return : float64;
  trade_days : float64;
  win_rate : float64
}.

(** [series.iloc[-1]] *)
Definition iloc_last (c : column) : M float64 :=
  match last (as_float c) with
  | Some x => mret x
  | None => raise IndexError
  end.

(** [series.sum()] (NaN cells are skipped). *)
Definition col_sum (c : column) : float64 :=
  match c with
  | FloatCol xs => fsum (filter (λ x, x ≠ NaN) xs)
  | IntCol zs => of_Z (foldr Z.add 0 zs)
  end.

(** [series == 1] *)
Definition eq1 (xs : list float64) : list bool :=
  (λ x, bool_decide (x = Fin 1%Qc)) <$> xs.

(** The number of rows a boolean mask selects: [res[mask].shape[0]]. *)
Definition count_true (bs : list bool) : Z :=
  Z.of_nat (length (filter (λ b : bool, b = true) bs)).

Definition hundred : float64 := of_Z 100.

Definition summary (df : loc) : M Metrics :=
  res ← run_backtest df 20;
  cum_strategy ← getitem res "Cum_Strategy";
  last_strategy ← iloc_last cum_strategy;
  let total_return := fmul (fsub last_strategy (Fin 1%Qc)) hundred in
  cum_market ← getitem res "Cum_Market";
  last_market ← iloc_last cum_market;
  let market_return := fmul (fsub last_market (Fin 1%Qc)) hundred in
  signal ← getitem res "Signal";
  let trade_days := col_sum signal in
  win_rate ←
    (if fgt trade_days (Fin 0%Qc) then
       signal ← getitem res "Signal";
       strat ← getitem res "Strategy_Return";
       let win_days :=
         count_true (zip_with andb (eq1 (shift (as_float signal))) (gt0 strat)) in
       mret (fmul (fdiv (of_Z win_days) trade_days) hundred)
     else mret (Fin 0%Qc));
  mret (mkMetrics total_return market_return
          (fsub total_return market_return) trade_days win_rate).

(** A frame run through [run_backtest] on a heap of its own. *)
Definition backtest (df : DataFrame) (ma_window : nat) : outcome DataFrame :=
  let '(r, h) := run_backtest 1%positive ma_window {[1%positive := df]} in
  l ← r;
  match h !! l with
  | Some res => mret res
  | None => Raised NameError
  end.

(** The metrics of a merged frame. *)
Definition metrics_of (df : DataFrame) : outcome Metrics :=
  fst (summary 1%positive {[1%positive := df]}).

(** Column [key] of a frame as a float64 series. *)
Definition series (df : DataFrame) (key : string) : option (list float64) :=
  as_float <$> columns df !! key.

(** What the page shows for the outcome of [get_data] (lines 92-153): the
    not-found message, or, once the chart tab has read the four price
    columns, the metric panel. *)
Inductive page : Type :=
  | NotFound
  | Report (m : Metrics).

Definition read_column (df : DataFrame) (key : string) : outcome column :=
  match columns df !! key with
  | Some c => Returned c
  | None => Raised (KeyError key)
  end.

Definition render (r : option DataFrame) : outcome page :=
  match r with
  | None => mret NotFound
  | Some df =>
      if df_empty df then mret NotFound
      else
        read_column df "Open";;
        read_column df "High";;
        read_column df "Low";;
        read_column df "Close";;
        m ← metrics_of df;
        mret (Report m)
  end.

(** The columns [run_backtest] leaves in its copy of a frame whose close
    column is [cc] and whose foreign-investor column is [fc]. *)
Definition backtest_columns (ma_window : nat) (cc fc : column)
    (cols : gmap string column) : gmap string column :=
  let close := as_float cc in
  let ma := rolling_mean ma_window close in
  let daily := pct_change close in
  let signal := astype_int (zip_with andb (zip_with fgt close ma) (gt0 fc)) in
  let strat := zip_with fmul (shift (of_Z <$> signal)) daily in
  <["Cum_Strategy" := FloatCol (cumprod (fadd (Fin 1%Qc) <$> strat))]>
    (<["Cum_Market" := FloatCol (cumprod (fadd (Fin 1%Qc) <$> daily))]>
       (<["Strategy_Return" := FloatCol strat]>
          (<["Signal" := IntCol signal]>
             (<["Daily_Return" := FloatCol daily]>
                (<["MA" := FloatCol ma]> cols))))).

(** ** The specification's formulas *)

(** The growth factor [1 + r] of one row, an undefined return counting as
    a return of 0. *)
Definition growth (r : float64) : float64 :=
  if is_nan r then Fin 1%Qc else fadd (Fin 1%Qc) r.

(** The product of [f 0], ..., [f t]. *)
Fixpoint running_product (f : nat → float64) (t : nat) : float64 :=
  match t with
  | O => f O
  | S t' => fmul (running_product f t') (f t)
  end.

(** The equity the specification gives row [t] of a return series. *)
Definition equity (returns : list float64) (t : nat) : float64 :=
  running_product (λ i, growth (default NaN (returns !! i))) t.

(** The win rate as the specification words it: of the rows whose previous
    day's signal was 1, the percentage whose strategy return was positive. *)
Definition held_rows (signal : list Z) : list bool :=
  eq1 (shift (of_Z <$> signal)).

Definition win_rate_among_held (signal : list Z) (strat : list float64) : float64 :=
  fmul (fdiv (of_Z (count_true (zip_with andb (held_rows signal) (gt0 (FloatCol strat)))))
          (of_Z (count_true (held_rows signal))))
    hundred.

(** The number of rows whose signal is 1. *)
Definition signal_ones (signal : list Z) : Z :=
  count_true ((λ s, bool_decide (s = 1)) <$> signal).

(** The win rate of the specification's wording on a back-test table. *)
Definition claimed_win_rate (res : DataFrame) : option float64 :=
  match columns res !! "Signal", columns res !! "Strategy_Return" with
  | Some (IntCol signal), Some (FloatCol strat) =>
      Some (win_rate_among_held signal strat)
  | _, _ => None
  end.

(** One metric of a summary that was computed. *)
Definition metric (f : Metrics → float64) (o : outcome Metrics) : option float64 :=
  match o with
  | Returned m => Some (f m)
  | Raised _ => None
  end.

(** A close that is a positive number (not NaN, not infinite). *)
Definition positive_finite (x : float64) : bool :=
  match x with
  | Fin q => bool_decide (0 < q)%Qc
  | _ => false
  end.

Definition positive_closes (c : column) : Prop :=
  Forall (λ x, positive_finite x = true) (as_float c).

(** [fle x y] is the comparison [x <= y]; false as soon as one side is NaN. *)
Definition fle (x y : float64) : bool :=
  match x, y with
  | NaN, _ | _, NaN => false
  | NInf, _ | _, PInf => true
  | PInf, _ | _, NInf => false
  | Fin a, Fin b => bool_decide (a ≤ b)%Qc
  end.

(** A price series that never falls from one row to the next. *)
Definition never_falls (xs : list float64) : bool :=
  forallb (λ px : float64 * float64, fle px.1 px.2) (zip xs (drop 1 xs)).

(** An infinite cell: what an overflow or a division by zero leaves. *)
Definition infinite (x : float64) : bool :=
  match x with
  | PInf | NInf => true
  | _ => false
  end.

(** No cell of column [key] of the table is infinite. *)
Definition no_infinite_cell (res : DataFrame) (key : string) : bool :=
  match series res key with
  | Some xs => forallb (λ x, negb (infinite x)) xs
  | None => true
  end.

(** The net volume of category [n] on date [d]: the int64 sum over the
    records of that date and name, 0 when there is none. *)
Definition net_flow_on (df_chip : list ChipRow) (d : Z) (n : string) : Z :=
  foldr add64 0 (net <$> filter (λ r, date r = d ∧ name r = n) df_chip).

(** The frame [get_data] returns for the price frame [p] and the non-empty
    record set [df_chip] when the join goes through. *)
Definition joined (p : DataFrame) (df_chip : list ChipRow) : DataFrame :=
  let df_chip_pivot := df_fillna0 (pivot_table df_chip) in
  let pos := row_of (stamps (index df_chip_pivot)) <$> stamps (index p) in
  df_fillna0
    (mkFrame (mkIndex None (stamps (index p)))
       (columns p ∪ (reindex pos <$> columns df_chip_pivot))).

(** ** The rest of the page (lines 88-164) *)

(** The colours of the bars of the foreign-investor chart (lines 114-116):
    red for a net purchase, green otherwise; no chart without the column. *)
Inductive color : Type :=
  | Red
  | Green.

Definition bar_colors (df : DataFrame) : option (list color) :=
  match columns df !! "Foreign_Investor" with
  | Some fi => Some ((λ b : bool, if b then Red else Green) <$> gt0 fi)
  | None => None
  end.

(** [df[keys]] for a list of keys: the frame of the listed columns; KeyError
    when one is missing (here: with the first missing key). *)
Definition select (df : DataFrame) (keys : list string) : outcome DataFrame :=
  cols ← mapM (λ k, c ← read_column df k; mret (k, c)) keys;
  mret (mkFrame (index df) (list_to_map cols)).

(** The order of [sort_index(ascending=False)] on the rows, each with its
    position: the later stamp first.  Among rows of the same stamp pandas
    promises no order; the merge sort used here keeps some. *)
Definition later_first (a b : Z * nat) : Prop := b.1 ≤ a.1.

#[global] Instance later_first_dec : RelDecision later_first.
Proof. intros a b. unfold later_first. apply _. Defined.

(** The cells of a column at the positions [rows], in that order. *)
Definition take_rows (rows : list nat) (c : column) : column :=
  match c with
  | FloatCol xs => FloatCol (omap (xs !!.) rows)
  | IntCol zs => IntCol (omap (zs !!.) rows)
  end.

Definition sort_index_desc (df : DataFrame) : DataFrame :=
  let n := length (stamps (index df)) in
  let order := merge_sort later_first (zip (stamps (index df)) (seq 0 n)) in
  mkFrame (mkIndex (tz (index df)) (order.*1)) (take_rows (order.*2) <$> columns df).

(** The columns of the table of daily results. *)
Definition detail_columns : list string :=
  ["Close"; "Foreign_Investor"; "Signal"; "Strategy_Return"; "Cum_Strategy"].

(** The table of daily results under the equity chart (line 164). *)
Definition detail_table (res : DataFrame) : outcome DataFrame :=
  shown ← select res detail_columns;
  mret (sort_index_desc shown).

(** What one run of the script puts on the screen: nothing while the
    stock code is empty (line 88), else the page of [render]. *)
Inductive screen : Type :=
  | Blank
  | Shown (p : page).

Section app.
Variables now_start now_end : Z.
Variable download : string → Z → outcome DataFrame.
Variable taiwan_stock_institutional_investors :
  string → Z → Z → outcome (list ChipRow).

Definition app (stock_id : string) (days_to_look : Z) : outcome screen :=
  if decide (stock_id = "") then mret Blank
  else
    df ← get_data now_start now_end download taiwan_stock_institutional_investors
           stock_id days_to_look;
    p ← render df;
    mret (Shown p).
End app.

(** The columns [run_backtest] writes (lines 66-83). *)
Definition derived_columns : list string :=
  ["MA"; "Daily_Return"; "Signal"; "Strategy_Return"; "Cum_Market"; "Cum_Strategy"].

(** ** Sample data *)

(** A price frame with one row per close, on consecutive days, in the
    exchange's time zone; each day opens and closes at the same price. *)
Definition price_frame (closes : list Z) : DataFrame :=
  mkFrame (mkIndex (Some "Asia/Taipei") (Z.of_nat <$> seq 0 (length closes)))
    (<["Open" := FloatCol (of_Z <$> closes)]>
       (<["High" := FloatCol (of_Z <$> closes)]>
          (<["Low" := FloatCol (of_Z <$> closes)]>
             (<["Close" := FloatCol (of_Z <$> closes)]>
                {[ "Volume" := IntCol (replicate (length closes) 1000) ]})))).

Definition serve_prices (closes : list Z) : string → Z → outcome DataFrame :=
  λ _ _, Returned (price_frame closes).

Definition serve_flows (rows : list ChipRow) : string → Z → Z → outcome (list ChipRow) :=
  λ _ _ _, Returned rows.

Definition provider_down {A : Type} : outcome A := Raised (ProviderError 503).

(** The merged frame of a query that succeeds (the empty frame otherwise). *)
Definition merged (r : outcome (option DataFrame)) : DataFrame :=
  match r with
  | Returned (Some df) => df
  | _ => mkFrame (mkIndex None []) ∅
  end.

(** Scenario A: five closes and no institutional record at all. *)
Definition scenario_A : DataFrame :=
  merged (get_data 20000 20000 (serve_prices [100; 102; 101; 105; 104])
            (serve_flows []) "2330" 730).

(** A single trading day. *)
Definition one_day : DataFrame :=
  merged (get_data 20000 20000 (serve_prices [100]) (serve_flows []) "2330" 730).

(** Twenty-two rising closes with a foreign net purchase every day. *)
Definition foreign_buys (n : nat) : list ChipRow :=
  (λ i, mkChip (Z.of_nat i) "Foreign_Investor" 5 2) <$> seq 0 n.

Definition rising : DataFrame :=
  merged (get_data 20000 20000 (serve_prices (Z.of_nat <$> seq 1 22))
            (serve_flows (foreign_buys 22)) "2330" 730).

(** Scenario B: twenty-five rising closes, a foreign net purchase from row
    21 on. *)
Definition scenario_B : DataFrame :=
  merged (get_data 20000 20000 (serve_prices (Z.of_nat <$> seq 1 25))
            (serve_flows ((λ i, mkChip (Z.of_nat i) "Foreign_Investor" 1 0) <$> seq 21 4))
            "2330" 730).

(** Scenario C: twenty-one flat closes, so that the close equals its
    20-day average, with a foreign net purchase every day. *)
Definition scenario_C : DataFrame :=
  merged (get_data 20000 20000 (serve_prices (replicate 21 50))
            (serve_flows (foreign_buys 21)) "2330" 730).

(** Records of two other categories only, one of them on a day without
    trading (day 7) and one category reported twice on day 0. *)
Definition dealer_rows : list ChipRow :=
  [ mkChip 0 "Dealer_self" 5 2; mkChip 7 "Dealer_self" 1 0;
    mkChip 0 "Dealer_self" 1 0; mkChip 1 "Investment_Trust" 1 3 ].

Definition dealers_only : DataFrame :=
  merged (get_data 20000 20000 (serve_prices [100; 101; 102])
            (serve_flows dealer_rows) "2330" 730).

(** The close column of scenario A. *)
Definition scenario_A_closes : column :=
  FloatCol (of_Z <$> [100; 102; 101; 105; 104]).

(** Records of three categories on trading days only, the foreign
    investors among them. *)
Definition mixed_rows : list ChipRow :=
  [ mkChip 0 "Foreign_Investor" 9 4; mkChip 1 "Dealer_self" 2 5;
    mkChip 2 "Foreign_Investor" 1 6; mkChip 2 "Investment_Trust" 3 3 ].

Definition dealers_flows : DataFrame :=
  merged (get_data 20000 20000 (serve_prices [100; 101; 102])
            (serve_flows mixed_rows) "2330" 730).

(** Records naming a price column as their category. *)
Definition volume_rows : list ChipRow :=
  [ mkChip 0 "Foreign_Investor" 9 4; mkChip 1 "Volume" 2 5 ].

(** Three trading days, the close of the second one missing. *)
Definition gapped_prices : DataFrame :=
  mkFrame (mkIndex (Some "Asia/Taipei") [0; 1; 2])
    (<["Close" := FloatCol [of_Z 100; NaN; of_Z 102]]>
       {[ "Volume" := IntCol [1000; 0; 1000] ]}).

(** The result of a back-test that succeeds (the input otherwise). *)
Definition backtested (df : DataFrame) (ma_window : nat) : DataFrame :=
  match backtest df ma_window with
  | Returned res => res
  | Raised _ => df
  end.

(** The metrics of a summary that succeeds (all NaN otherwise). *)
Definition computed_metrics (df : DataFrame) : Metrics :=
  match metrics_of df with
  | Returned m => m
  | Raised _ => mkMetrics NaN NaN NaN NaN NaN
  end.

(** * Properties *)

(** ** Stepping through the heap monad *)

Section heap_steps.
Context {A : Type}.
Implicit Types (f : loc → M A) (h : gmap loc DataFrame).

Lemma bind_copy l df f h :
  h !! l = Some df →
  (copy l ≫= f) h = f (fresh (dom h)) (<[fresh (dom h) := df]> h).
Proof. intros Hl. unfold mbind, M_bind, copy. by rewrite Hl. Qed.

Lemma bind_getitem l key df c (g : column → M A) h :
  h !! l = Some df → columns df !! key = Some c →
  (getitem l key ≫= g) h = g c h.
Proof. intros Hl Hk. unfold mbind, M_bind, getitem. by rewrite Hl, Hk. Qed.

Lemma bind_getitem_missing l key df (g : column → M A) h :
  h !! l = Some df → columns df !! key = None →
  (getitem l key ≫= g) h = (Raised (KeyError key), h).
Proof. intros Hl Hk. unfold mbind, M_bind, getitem. by rewrite Hl, Hk. Qed.

Lemma bind_setitem l key df c (g : unit → M A) h :
  h !! l = Some df →
  (setitem l key c ≫= g) h
  = g () (<[l := mkFrame (index df) (<[key := c]> (columns df))]> h).
Proof. intros Hl. unfold mbind, M_bind, setitem. by rewrite Hl. Qed.
End heap_steps.

Lemma fresh_loc_new (h : gmap loc DataFrame) : h !! fresh (dom h) = None.
Proof. apply not_elem_of_dom, is_fresh. Qed.

(** One assignment or one read of the copy, as a rewriting step. *)
Ltac heap_step :=
  first
    [ erewrite bind_setitem by apply lookup_insert_eq
    | erewrite bind_getitem
        by (first [ apply lookup_insert_eq
                  | cbn [columns]; repeat (rewrite lookup_insert_ne by done);
                    rewrite ?lookup_insert_eq;
                    first [ reflexivity | eassumption ] ]) ];
  rewrite ?insert_insert_eq; cbn [index columns].

Lemma run_backtest_returns l w h df cc fc :
  h !! l = Some df →
  columns df !! "Close" = Some cc →
  columns df !! "Foreign_Investor" = Some fc →
  run_backtest l w h
  = (Returned (fresh (dom h)),
     <[fresh (dom h) := mkFrame (index df) (backtest_columns w cc fc (columns df))]> h).
Proof.
  intros Hl Hc Hf. unfold run_backtest.
  rewrite (bind_copy _ _ _ _ Hl).
  repeat heap_step.
  reflexivity.
Qed.

Lemma run_backtest_no_close l w h df :
  h !! l = Some df →
  columns df !! "Close" = None →
  (run_backtest l w h).1 = Raised (KeyError "Close").
Proof.
  intros Hl Hc. unfold run_backtest.
  rewrite (bind_copy _ _ _ _ Hl).
  by erewrite bind_getitem_missing by (first [ apply lookup_insert_eq | done ]).
Qed.

Lemma run_backtest_no_flow l w h df cc :
  h !! l = Some df →
  columns df !! "Close" = Some cc →
  columns df !! "Foreign_Investor" = None →
  (run_backtest l w h).1 = Raised (KeyError "Foreign_Investor").
Proof.
  intros Hl Hc Hf. unfold run_backtest.
  rewrite (bind_copy _ _ _ _ Hl).
  repeat heap_step.
  erewrite bind_getitem_missing; [ done | apply lookup_insert_eq | ].
  cbn [columns]. by repeat (rewrite lookup_insert_ne by done).
Qed.

Lemma backtest_returns df w cc fc :
  columns df !! "Close" = Some cc →
  columns df !! "Foreign_Investor" = Some fc →
  backtest df w
  = Returned (mkFrame (index df) (backtest_columns w cc fc (columns df))).
Proof.
  intros Hc Hf. unfold backtest.
  rewrite (run_backtest_returns _ _ _ df cc fc) by (done || apply lookup_singleton_eq).
  cbn. by rewrite lookup_insert_eq.
Qed.

Lemma backtest_inv df w res :
  backtest df w = Returned res →
  ∃ cc fc,
    columns df !! "Close" = Some cc
    ∧ columns df !! "Foreign_Investor" = Some fc
    ∧ res = mkFrame (index df) (backtest_columns w cc fc (columns df)).
Proof.
  intros Hres.
  destruct (columns df !! "Close") as [cc|] eqn:Hc.
  - destruct (columns df !! "Foreign_Investor") as [fc|] eqn:Hf.
    + exists cc, fc. rewrite (backtest_returns df w cc fc Hc Hf) in Hres.
      by injection Hres as <-.
    + exfalso. unfold backtest in Hres.
      pose proof (run_backtest_no_flow 1%positive w {[1%positive := df]} df cc
                    (lookup_singleton_eq _ _) Hc Hf) as Hraise.
      destruct (run_backtest _ _ _) as [r h']. cbn in Hraise. by subst r.
  - exfalso. unfold backtest in Hres.
    pose proof (run_backtest_no_close 1%positive w {[1%positive := df]} df
                  (lookup_singleton_eq _ _) Hc) as Hraise.
    destruct (run_backtest _ _ _) as [r h']. cbn in Hraise. by subst r.
Qed.

(** The series [run_backtest] derives, read off its result. *)
Lemma backtest_series df w cc fc res :
  columns df !! "Close" = Some cc →
  columns df !! "Foreign_Investor" = Some fc →
  res = mkFrame (index df) (backtest_columns w cc fc (columns df)) →
  let close := as_float cc in
  let ma := rolling_mean w close in
  let daily := pct_change close in
  let signal := astype_int (zip_with andb (zip_with fgt close ma) (gt0 fc)) in
  let strat := zip_with fmul (shift (of_Z <$> signal)) daily in
  columns res !! "Close" = Some cc
  ∧ columns res !! "Foreign_Investor" = Some fc
  ∧ columns res !! "MA" = Some (FloatCol ma)
  ∧ columns res !! "Daily_Return" = Some (FloatCol daily)
  ∧ columns res !! "Signal" = Some (IntCol signal)
  ∧ columns res !! "Strategy_Return" = Some (FloatCol strat)
  ∧ columns res !! "Cum_Market" = Some (FloatCol (cumprod (fadd (Fin 1%Qc) <$> daily)))
  ∧ columns res !! "Cum_Strategy" = Some (FloatCol (cumprod (fadd (Fin 1%Qc) <$> strat))).
Proof.
  intros Hc Hf -> close ma daily signal strat.
  unfold backtest_columns; cbn [columns].
  repeat split;
    repeat (rewrite lookup_insert_ne by done); rewrite ?lookup_insert_eq; done.
Qed.

(** ** Series *)

Section series_facts.
Implicit Types (xs ys : list float64) (x y : float64) (t w : nat).

Lemma fdiv_nan_r x : fdiv x NaN = NaN.
Proof. by destruct x. Qed.

Lemma fgt_irrefl x : fgt x x = false.
Proof.
  destruct x; try done. cbn.
  apply bool_decide_eq_false. apply (irreflexivity Qclt).
Qed.

Lemma fgt_nan_r x : fgt x NaN = false.
Proof. by destruct x. Qed.

Lemma is_nan_succ x : is_nan (fadd (Fin 1%Qc) x) = is_nan x.
Proof. by destruct x. Qed.

Lemma length_shift xs : length (shift xs) = length xs.
Proof. unfold shift. rewrite length_take. cbn. lia. Qed.

Lemma lookup_shift_0 xs x : xs !! 0%nat = Some x → shift xs !! 0%nat = Some NaN.
Proof. destruct xs; [done|]. done. Qed.

Lemma lookup_shift_S xs t :
  (S t < length xs)%nat → shift xs !! S t = xs !! t.
Proof. intros Ht. unfold shift. by rewrite lookup_take_lt. Qed.

Lemma length_ffill_from prev xs : length (ffill_from prev xs) = length xs.
Proof. revert prev. induction xs as [|x xs IH]; intros prev; cbn; [done|]. by rewrite IH. Qed.

Lemma length_ffill xs : length (ffill xs) = length xs.
Proof. apply length_ffill_from. Qed.

(** Forward fill changes nothing in a series without a missing cell. *)
Lemma ffill_from_no_nan prev xs :
  Forall (λ x, is_nan x = false) xs → ffill_from prev xs = xs.
Proof.
  intros Hxs. revert prev.
  induction Hxs as [|x xs Hx _ IH]; intros prev; cbn; [done|].
  by rewrite Hx, IH.
Qed.

Lemma ffill_no_nan xs : Forall (λ x, is_nan x = false) xs → ffill xs = xs.
Proof. apply ffill_from_no_nan. Qed.

(** A missing close in the middle of a series takes the close before it:
    the return of that row is 0 and the next one is taken from the last
    close that was there. *)
Example pct_change_pads_missing_close :
  pct_change [of_Z 100; NaN; of_Z 102]
  = [NaN; Fin 0%Qc; Fin (Q2Qc (2 # 100))].
Proof. apply (bool_decide_unpack _). vm_compute. exact I. Qed.

Lemma length_pct_change xs : length (pct_change xs) = length xs.
Proof. unfold pct_change. rewrite length_zip_with, length_shift, length_ffill. lia. Qed.

Lemma lookup_pct_change_0 xs x :
  xs !! 0%nat = Some x → pct_change xs !! 0%nat = Some NaN.
Proof.
  intros Hx. unfold pct_change.
  destruct (lookup_lt_is_Some_2 (ffill xs) 0) as [y Hy].
  { rewrite length_ffill. by apply lookup_lt_Some in Hx. }
  rewrite lookup_zip_with, Hy, (lookup_shift_0 _ _ Hy). cbn.
  by rewrite fdiv_nan_r.
Qed.

Lemma lookup_pct_change_S xs t x p :
  ffill xs !! t = Some p → ffill xs !! S t = Some x →
  pct_change xs !! S t = Some (fsub (fdiv x p) (Fin 1%Qc)).
Proof.
  intros Hp Hx. unfold pct_change.
  rewrite lookup_zip_with, Hx, lookup_shift_S, Hp; [done|].
  by apply lookup_lt_Some in Hx.
Qed.

Lemma length_rolling_mean w xs : length (rolling_mean w xs) = length xs.
Proof. unfold rolling_mean. by rewrite length_fmap, length_seq. Qed.

Lemma lookup_rolling_mean w xs t :
  (t < length xs)%nat →
  rolling_mean w xs !! t = Some (window_mean w (take (S t) xs)).
Proof.
  intros Ht. unfold rolling_mean.
  by rewrite list_lookup_fmap, lookup_seq_lt.
Qed.

(** The first [w - 1] rows of a rolling mean are undefined. *)
Lemma rolling_mean_warm_up w xs t :
  (t < length xs)%nat → (S t < w)%nat → rolling_mean w xs !! t = Some NaN.
Proof.
  intros Ht Hw. rewrite lookup_rolling_mean by done.
  unfold window_mean. rewrite length_take.
  by rewrite decide_True by lia.
Qed.

Lemma length_cumprod_from x xs : length (cumprod_from x xs) = length xs.
Proof. revert x. induction xs as [|y r IH]; intros x; cbn; [done|]. by rewrite IH. Qed.

Lemma length_np_cumprod xs : length (np_cumprod xs) = length xs.
Proof. destruct xs; cbn; [done|]. by rewrite length_cumprod_from. Qed.

Lemma length_cumprod xs : length (cumprod xs) = length xs.
Proof.
  unfold cumprod. rewrite length_zip_with, length_np_cumprod, length_fmap. lia.
Qed.

Lemma cumprod_from_lookup x xs t y :
  xs !! t = Some y →
  cumprod_from x xs !! t = Some (foldl fmul x (take (S t) xs)).
Proof.
  revert x t. induction xs as [|z r IH]; intros x t Hy; [done|].
  destruct t as [|t]; cbn; [done|]. by apply IH.
Qed.

Lemma running_product_ext (f g : nat → float64) t :
  (∀ i, (i ≤ t)%nat → f i = g i) → running_product f t = running_product g t.
Proof.
  induction t as [|t IH]; intros Hfg; cbn.
  - by apply Hfg.
  - rewrite IH, (Hfg (S t)) by (done || intros; apply Hfg; lia). done.
Qed.

Lemma np_cumprod_lookup xs t y :
  xs !! t = Some y →
  np_cumprod xs !! t = Some (running_product (λ i, default NaN (xs !! i)) t).
Proof.
  destruct xs as [|x r]; [done|]. revert y.
  induction t as [|t IH]; intros y Hy; [done|].
  cbn in Hy. cbn [np_cumprod lookup list_lookup].
  rewrite (cumprod_from_lookup _ _ _ _ Hy).
  rewrite (take_S_r _ _ _ Hy), foldl_app. cbn [foldl running_product].
  cbn [lookup list_lookup]. rewrite Hy. cbn [default].
  f_equal. f_equal.
  destruct t as [|t]; [done|].
  assert (is_Some (r !! t)) as [z Hz].
  { apply lookup_lt_is_Some. apply lookup_lt_Some in Hy. lia. }
  specialize (IH z Hz). cbn [np_cumprod lookup list_lookup] in IH.
  rewrite (cumprod_from_lookup _ _ _ _ Hz) in IH. by injection IH.
Qed.

(** The cumulative product of the growth factors of a return series. *)
Lemma cumprod_growth (returns : list float64) t r :
  returns !! t = Some r →
  cumprod (fadd (Fin 1%Qc) <$> returns) !! t
  = Some (if is_nan r then NaN else equity returns t).
Proof.
  intros Hr. unfold cumprod.
  rewrite lookup_zip_with, list_lookup_fmap, Hr. cbn [fmap option_fmap option_map mbind option_bind].
  erewrite np_cumprod_lookup
    by (rewrite !list_lookup_fmap, Hr; reflexivity).
  cbn [mbind option_bind]. rewrite is_nan_succ. f_equal.
  destruct (is_nan r); [done|].
  unfold equity. apply running_product_ext. intros i Hi.
  assert (is_Some (returns !! i)) as [ri Hri].
  { apply lookup_lt_is_Some. apply lookup_lt_Some in Hr. lia. }
  rewrite !list_lookup_fmap, Hri. cbn [fmap option_fmap option_map default].
  unfold growth. by rewrite is_nan_succ.
Qed.
End series_facts.

(** ** The back-test table *)

Lemma length_gt0 c : length (gt0 c) = col_length c.
Proof. destruct c; cbn; by rewrite length_fmap. Qed.

Lemma length_as_float c : length (as_float c) = col_length c.
Proof. destruct c; cbn; [done|]. by rewrite length_fmap. Qed.

Lemma length_astype_int bs : length (astype_int bs) = length bs.
Proof. unfold astype_int. by rewrite length_fmap. Qed.

Lemma length_signal w (close : list float64) fc n :
  length close = n → col_length fc = n →
  length (astype_int (zip_with andb (zip_with fgt close (rolling_mean w close)) (gt0 fc))) = n.
Proof.
  intros Hc Hf.
  rewrite length_astype_int, !length_zip_with, length_rolling_mean, length_gt0. lia.
Qed.

Lemma lookup_astype_int bs t :
  astype_int bs !! t = (λ b : bool, if b then 1 else 0) <$> bs !! t.
Proof. unfold astype_int. by rewrite list_lookup_fmap. Qed.

Lemma gated_return_row0 (sig daily : list float64) x :
  zip_with fmul (shift sig) daily !! 0%nat = Some x → x = NaN.
Proof.
  rewrite lookup_zip_with. destruct sig as [|s0 ss]; [done|]. cbn.
  destruct (daily !! 0%nat); cbn; [|done]. by intros [= <-].
Qed.

Lemma pct_change_row0 (close : list float64) x :
  pct_change close !! 0%nat = Some x → x = NaN.
Proof.
  intros Hx.
  assert (is_Some (close !! 0%nat)) as [c Hc].
  { apply lookup_lt_is_Some. rewrite <- length_pct_change. by apply lookup_lt_Some in Hx. }
  rewrite (lookup_pct_change_0 _ _ Hc) in Hx. by injection Hx.
Qed.

Lemma cumprod_growth_row0 (returns : list float64) x :
  (∀ r, returns !! 0%nat = Some r → r = NaN) →
  cumprod (fadd (Fin 1%Qc) <$> returns) !! 0%nat = Some x → x = NaN.
Proof.
  intros Hnan Hx.
  assert (is_Some (returns !! 0%nat)) as [r Hr].
  { apply lookup_lt_is_Some. apply lookup_lt_Some in Hx.
    by rewrite length_cumprod, length_fmap in Hx. }
  rewrite (cumprod_growth _ _ _ Hr), (Hnan _ Hr) in Hx. by injection Hx.
Qed.

(** C1: for every merged table on which the back-test runs, the strategy
    return of row t >= 1 is the signal of row t-1 times the daily return
    of row t; the strategy return of row 0 is undefined (NaN); and
    recomputing the strategy return after altering the signal of row t
    alone leaves the strategy return of row t as it was. *)
Theorem strategy_return_uses_previous_signal (df : DataFrame) (w : nat) (res : DataFrame) :
  wf_frame df →
  backtest df w = Returned res →
  ∃ signal daily strat,
    columns res !! "Signal" = Some (IntCol signal)
    ∧ columns res !! "Daily_Return" = Some (FloatCol daily)
    ∧ columns res !! "Strategy_Return" = Some (FloatCol strat)
    ∧ length signal = length (stamps (index df))
    ∧ length daily = length (stamps (index df))
    ∧ length strat = length (stamps (index df))
    ∧ (∀ t s r, signal !! t = Some s → daily !! S t = Some r →
         strat !! S t = Some (fmul (of_Z s) r))
    ∧ (∀ x, strat !! 0%nat = Some x → x = NaN)
    ∧ (∀ t v, zip_with fmul (shift (of_Z <$> <[t := v]> signal)) daily !! t
              = strat !! t).
Proof.
  intros Hwf Hres.
  destruct (backtest_inv _ _ _ Hres) as (cc & fc & Hc & Hf & Hfr).
  destruct (backtest_series df w cc fc res Hc Hf Hfr)
    as (_ & _ & _ & Hd & Hs & Hsr & _).
  set (n := length (stamps (index df))).
  assert (length (as_float cc) = n) as Hlc.
  { rewrite length_as_float. by apply (Hwf "Close"). }
  assert (col_length fc = n) as Hlf by by apply (Hwf "Foreign_Investor").
  pose proof (length_signal w _ fc n Hlc Hlf) as Hls.
  pose proof (length_pct_change (as_float cc)) as Hld. rewrite Hlc in Hld.
  eexists _, _, _. split; [exact Hs|]. split; [exact Hd|]. split; [exact Hsr|].
  set (signal := astype_int _) in *. set (daily := pct_change _) in *.
  split; [done|]. split; [done|].
  split; [by rewrite length_zip_with, length_shift, length_fmap, Hls, Hld, Nat.min_id|].
  split; [|split].
  - intros t s r Hts Htr.
    rewrite lookup_zip_with, lookup_shift_S, list_lookup_fmap, Hts, Htr; [done|].
    rewrite length_fmap, Hls, <- Hld. by apply lookup_lt_Some in Htr.
  - intros x. apply gated_return_row0.
  - intros t v. rewrite !lookup_zip_with.
    destruct t as [|t].
    + destruct signal as [|s0 ss]; done.
    + destruct (decide (S t < length signal)%nat) as [Hlt|Hge].
      * rewrite !lookup_shift_S by (by rewrite length_fmap, ?length_insert).
        by rewrite !list_lookup_fmap, list_lookup_insert_ne by lia.
      * rewrite !(lookup_ge_None_2 (shift _))
          by (rewrite length_shift, length_fmap, ?length_insert; lia).
        done.
Qed.

Lemma strategy_return_uses_previous_signal_witness :
  ∃ signal daily strat,
    columns (backtested rising 20) !! "Signal" = Some (IntCol signal)
    ∧ columns (backtested rising 20) !! "Daily_Return" = Some (FloatCol daily)
    ∧ columns (backtested rising 20) !! "Strategy_Return" = Some (FloatCol strat)
    ∧ length signal = length (stamps (index rising))
    ∧ length daily = length (stamps (index rising))
    ∧ length strat = length (stamps (index rising))
    ∧ (∀ t s r, signal !! t = Some s → daily !! S t = Some r →
         strat !! S t = Some (fmul (of_Z s) r))
    ∧ (∀ x, strat !! 0%nat = Some x → x = NaN)
    ∧ (∀ t v, zip_with fmul (shift (of_Z <$> <[t := v]> signal)) daily !! t
              = strat !! t).
Proof.
  apply (strategy_return_uses_previous_signal rising 20 (backtested rising 20)).
  - apply (bool_decide_unpack _). vm_compute. exact I.
  - vm_compute. reflexivity.
Defined.

(** C2, as the code has it.  On the 5-day series of scenario A with no flow
    record the cumulative strategy equity is [NaN, 1, 1, 1, 1], not
    [1, 1, 1, 1, 1]: row 0 is not 1. *)
Lemma scenario_A_equity_starts_undefined :
  backtest scenario_A 20 = Returned (backtested scenario_A 20)
  ∧ series (backtested scenario_A 20) "Cum_Strategy"
    = Some [NaN; Fin 1%Qc; Fin 1%Qc; Fin 1%Qc; Fin 1%Qc]
  ∧ series (backtested scenario_A 20) "Cum_Strategy"
    ≠ Some [Fin 1%Qc; Fin 1%Qc; Fin 1%Qc; Fin 1%Qc; Fin 1%Qc]
  ∧ series (backtested scenario_A 20) "Cum_Market" ≫= (.!! 0%nat) = Some NaN.
Proof.
  split; [by vm_compute|].
  repeat split; apply (bool_decide_unpack _); vm_compute; exact I.
Qed.

(** C2 (amended): for every merged table on which the back-test runs, at
    each row t whose daily return is defined CumMarket[t] is the product
    over i = 0..t of (1 + DailyReturn[i]) with the undefined returns
    counted as 0, and at each row whose strategy return is defined
    CumStrategy[t] is the same product of (1 + StrategyReturn[i]); at a row
    whose return is undefined the cumulative value is undefined too, and
    row 0 is always such a row.  For the 5-day series of scenario A with
    an empty flow series CumStrategy is [NaN, 1, 1, 1, 1]. *)
Theorem equity_is_running_product :
  (∀ (df : DataFrame) (w : nat) (res : DataFrame),
     backtest df w = Returned res →
     ∃ daily strat cum_market cum_strategy,
       columns res !! "Daily_Return" = Some (FloatCol daily)
       ∧ columns res !! "Strategy_Return" = Some (FloatCol strat)
       ∧ columns res !! "Cum_Market" = Some (FloatCol cum_market)
       ∧ columns res !! "Cum_Strategy" = Some (FloatCol cum_strategy)
       ∧ length cum_market = length daily
       ∧ length cum_strategy = length strat
       ∧ (∀ t r, daily !! t = Some r →
            cum_market !! t = Some (if is_nan r then NaN else equity daily t))
       ∧ (∀ t r, strat !! t = Some r →
            cum_strategy !! t = Some (if is_nan r then NaN else equity strat t))
       ∧ (∀ x, cum_market !! 0%nat = Some x → x = NaN)
       ∧ (∀ x, cum_strategy !! 0%nat = Some x → x = NaN))
  ∧ series (backtested scenario_A 20) "Cum_Strategy"
    = Some [NaN; Fin 1%Qc; Fin 1%Qc; Fin 1%Qc; Fin 1%Qc].
Proof.
  split; [|apply (bool_decide_unpack _); vm_compute; exact I].
  intros df w res Hres.
  destruct (backtest_inv _ _ _ Hres) as (cc & fc & Hc & Hf & Hfr).
  destruct (backtest_series df w cc fc res Hc Hf Hfr)
    as (_ & _ & _ & Hd & _ & Hsr & Hcm & Hcs).
  eexists _, _, _, _.
  split; [exact Hd|]. split; [exact Hsr|]. split; [exact Hcm|]. split; [exact Hcs|].
  split; [by rewrite length_cumprod, length_fmap|].
  split; [by rewrite length_cumprod, length_fmap|].
  split; [intros t r; apply cumprod_growth|].
  split; [intros t r; apply cumprod_growth|].
  split; intros x; apply cumprod_growth_row0; intros r.
  - apply pct_change_row0.
  - apply gated_return_row0.
Qed.

Lemma equity_is_running_product_witness :
  ∃ daily strat cum_market cum_strategy,
    columns (backtested scenario_A 20) !! "Daily_Return" = Some (FloatCol daily)
    ∧ columns (backtested scenario_A 20) !! "Strategy_Return" = Some (FloatCol strat)
    ∧ columns (backtested scenario_A 20) !! "Cum_Market" = Some (FloatCol cum_market)
    ∧ columns (backtested scenario_A 20) !! "Cum_Strategy" = Some (FloatCol cum_strategy)
    ∧ length cum_market = length daily
    ∧ length cum_strategy = length strat
    ∧ (∀ t r, daily !! t = Some r →
         cum_market !! t = Some (if is_nan r then NaN else equity daily t))
    ∧ (∀ t r, strat !! t = Some r →
         cum_strategy !! t = Some (if is_nan r then NaN else equity strat t))
    ∧ (∀ x, cum_market !! 0%nat = Some x → x = NaN)
    ∧ (∀ x, cum_strategy !! 0%nat = Some x → x = NaN).
Proof.
  apply (proj1 equity_is_running_product scenario_A 20%nat (backtested scenario_A 20)).
  vm_compute. reflexivity.
Defined.

Lemma of_Z_pos (z : Z) : fgt (of_Z z) (Fin 0%Qc) = bool_decide (0 < z).
Proof.
  unfold of_Z, fgt. apply bool_decide_ext.
  unfold Qclt. cbn [this Q2Qc]. rewrite !Qred_correct.
  change 0%Q with (inject_Z 0). by rewrite <- Zlt_Qlt.
Qed.

(** [series > 0] reads the same on an int64 and on a float64 column. *)
Lemma gt0_as_float c : gt0 c = (λ x, fgt x (Fin 0%Qc)) <$> as_float c.
Proof.
  destruct c as [xs|zs]; cbn; [done|].
  rewrite <- list_fmap_compose. apply list_fmap_ext. intros i z _.
  unfold compose. by rewrite of_Z_pos.
Qed.

(** C6: for every merged table on which the back-test runs, Signal[t] is 0
    or 1, and it is 1 exactly when close[t] > MA[t] and net_flow[t] > 0 on
    the same row t, both strictly: a close equal to its moving average
    gives 0.  MA is the rolling mean of the close; on the first window-1
    rows (so on every row of a table shorter than the window) it is
    undefined and the signal is 0. *)
Theorem signal_rule (df : DataFrame) (w : nat) (res : DataFrame) :
  wf_frame df →
  backtest df w = Returned res →
  ∃ close flow ma signal,
    series res "Close" = Some close
    ∧ series res "Foreign_Investor" = Some flow
    ∧ columns res !! "MA" = Some (FloatCol ma)
    ∧ columns res !! "Signal" = Some (IntCol signal)
    ∧ ma = rolling_mean w close
    ∧ length close = length (stamps (index df))
    ∧ length flow = length (stamps (index df))
    ∧ length ma = length (stamps (index df))
    ∧ length signal = length (stamps (index df))
    ∧ (∀ t c f m s,
         close !! t = Some c → flow !! t = Some f →
         ma !! t = Some m → signal !! t = Some s →
         (s = 0 ∨ s = 1)
         ∧ (s = 1 ↔ fgt c m = true ∧ fgt f (Fin 0%Qc) = true)
         ∧ (c = m → s = 0)
         ∧ ((S t < w)%nat → m = NaN ∧ s = 0))
    ∧ ((length (stamps (index df)) < w)%nat → Forall (λ s, s = 0) signal).
Proof.
  intros Hwf Hres.
  destruct (backtest_inv _ _ _ Hres) as (cc & fc & Hc & Hf & Hfr).
  destruct (backtest_series df w cc fc res Hc Hf Hfr)
    as (Hrc & Hrf & Hma & _ & Hs & _).
  set (n := length (stamps (index df))).
  assert (length (as_float cc) = n) as Hlc.
  { rewrite length_as_float. by apply (Hwf "Close"). }
  assert (col_length fc = n) as Hlf by by apply (Hwf "Foreign_Investor").
  pose proof (length_signal w _ fc n Hlc Hlf) as Hls.
  exists (as_float cc), (as_float fc), (rolling_mean w (as_float cc)).
  eexists. unfold series. rewrite Hrc, Hrf.
  split; [done|]. split; [done|]. split; [exact Hma|]. split; [exact Hs|].
  split; [done|]. split; [done|]. split; [by rewrite length_as_float|].
  split; [by rewrite length_rolling_mean|]. split; [done|].
  assert (∀ t c f m s,
    as_float cc !! t = Some c → as_float fc !! t = Some f →
    rolling_mean w (as_float cc) !! t = Some m →
    astype_int (zip_with andb (zip_with fgt (as_float cc)
                                 (rolling_mean w (as_float cc))) (gt0 fc)) !! t
    = Some s →
    s = if fgt c m && fgt f (Fin 0%Qc) then 1 else 0) as Hrow.
  { intros t c f m s Htc Htf Htm.
    rewrite lookup_astype_int, !lookup_zip_with, Htc, Htm, gt0_as_float.
    rewrite list_lookup_fmap, Htf. cbn. by intros [= <-]. }
  split.
  - intros t c f m s Htc Htf Htm Hts.
    pose proof (Hrow t c f m s Htc Htf Htm Hts) as ->.
    split; [destruct (fgt c m && fgt f (Fin 0%Qc)); auto|].
    split; [|split].
    + destruct (fgt c m), (fgt f (Fin 0%Qc)); cbn; split; (done || by intros [? ?]).
    + intros ->. by rewrite fgt_irrefl.
    + intros Hw.
      assert (m = NaN) as ->.
      { rewrite rolling_mean_warm_up in Htm; [by injection Htm|by apply lookup_lt_Some in Htc|done]. }
      by rewrite fgt_nan_r.
  - intros Hshort. apply Forall_lookup. intros t s Hts.
    assert (t < n)%nat as Ht by (rewrite <- Hls; by apply lookup_lt_Some in Hts).
    destruct (lookup_lt_is_Some_2 (as_float cc) t) as [c Htc]; [by rewrite Hlc|].
    destruct (lookup_lt_is_Some_2 (as_float fc) t) as [f Htf];
      [by rewrite length_as_float, Hlf|].
    pose proof (rolling_mean_warm_up w (as_float cc) t) as Htm.
    rewrite (Hrow t c f NaN s Htc Htf) by (done || (apply Htm; lia)).
    by rewrite fgt_nan_r.
Qed.

Lemma signal_rule_witness :
  ∃ close flow ma signal,
    series (backtested rising 20) "Close" = Some close
    ∧ series (backtested rising 20) "Foreign_Investor" = Some flow
    ∧ columns (backtested rising 20) !! "MA" = Some (FloatCol ma)
    ∧ columns (backtested rising 20) !! "Signal" = Some (IntCol signal)
    ∧ ma = rolling_mean 20 close
    ∧ length close = length (stamps (index rising))
    ∧ length flow = length (stamps (index rising))
    ∧ length ma = length (stamps (index rising))
    ∧ length signal = length (stamps (index rising))
    ∧ (∀ t c f m s,
         close !! t = Some c → flow !! t = Some f →
         ma !! t = Some m → signal !! t = Some s →
         (s = 0 ∨ s = 1)
         ∧ (s = 1 ↔ fgt c m = true ∧ fgt f (Fin 0%Qc) = true)
         ∧ (c = m → s = 0)
         ∧ ((S t < 20)%nat → m = NaN ∧ s = 0))
    ∧ ((length (stamps (index rising)) < 20)%nat → Forall (λ s, s = 0) signal).
Proof.
  apply (signal_rule rising 20 (backtested rising 20)).
  - apply (bool_decide_unpack _). vm_compute. exact I.
  - vm_compute. reflexivity.
Defined.

(** Scenario B: the signal is 1 from row 21 on, and the strategy return of
    row 22 is the daily return of row 22. *)
Example scenario_B_gated_by_previous_signal :
  columns (backtested scenario_B 20) !! "Signal"
  = Some (IntCol (replicate 21 0 ++ replicate 4 1))
  ∧ series (backtested scenario_B 20) "Strategy_Return" ≫= (.!! 22%nat)
    = series (backtested scenario_B 20) "Daily_Return" ≫= (.!! 22%nat).
Proof. split; apply (bool_decide_unpack _); vm_compute; exact I. Qed.

(** Scenario C: a close equal to its moving average gives no signal. *)
Example scenario_C_flat_close_no_signal :
  series (backtested scenario_C 20) "MA" ≫= (.!! 20%nat) = Some (of_Z 50)
  ∧ series (backtested scenario_C 20) "Close" ≫= (.!! 20%nat) = Some (of_Z 50)
  ∧ columns (backtested scenario_C 20) !! "Signal" = Some (IntCol (replicate 21 0)).
Proof. repeat split; apply (bool_decide_unpack _); vm_compute; exact I. Qed.

(** ** Frame: what run_backtest leaves alone *)

Section preserves.
Context {A B : Type}.

Lemma preserves_ret k (a : A) : preserves k (mret a).
Proof. by intros h. Qed.

Lemma preserves_bind k (c : M A) (f : A → M B) :
  preserves k c → (∀ a, preserves k (f a)) → preserves k (c ≫= f).
Proof.
  intros Hc Hf h. unfold mbind, M_bind.
  specialize (Hc h). destruct (c h) as [[a|e] h']; cbn in *; [|done].
  by rewrite Hf.
Qed.
End preserves.

Lemma preserves_getitem k l key : preserves k (getitem l key).
Proof.
  intros h. unfold getitem.
  destruct (h !! l) as [df|]; [|done]. by destruct (columns df !! key).
Qed.

Lemma preserves_setitem k l key c : l ≠ k → preserves k (setitem l key c).
Proof.
  intros Hne h. unfold setitem.
  destruct (h !! l) as [df|]; [|done]. cbn. by rewrite lookup_insert_ne.
Qed.

Ltac preserves_steps :=
  repeat (apply preserves_bind;
          [ first [ apply preserves_getitem | by apply preserves_setitem ]
          | intros ? ]);
  apply preserves_ret.

Lemma run_backtest_preserves l w h k :
  is_Some (h !! k) → (run_backtest l w h).2 !! k = h !! k.
Proof.
  intros Hk. unfold run_backtest.
  destruct (h !! l) as [df|] eqn:Hl.
  - rewrite (bind_copy _ _ _ _ Hl).
    assert (fresh (dom h) ≠ k) as Hne.
    { intros <-. rewrite fresh_loc_new in Hk. by destruct Hk. }
    match goal with
    | |- (?c _).2 !! _ = _ =>
        assert (preserves k c) as Hp by preserves_steps
    end.
    rewrite Hp. by rewrite lookup_insert_ne.
  - unfold mbind, M_bind, copy. by rewrite Hl.
Qed.

(** C9: run_backtest never mutates its input.  Whatever the heap, the
    frame passed in and the window, the frame behind the reference passed
    in is the same after the call as before, and so is every other frame
    that existed before the call: the call only adds its own copy. *)
Theorem run_backtest_leaves_input (h : gmap loc DataFrame) (df : loc) (ma_window : nat) :
  (run_backtest df ma_window h).2 !! df = h !! df
  ∧ h ⊆ (run_backtest df ma_window h).2.
Proof.
  split.
  - destruct (h !! df) as [d|] eqn:Hl.
    + rewrite run_backtest_preserves by (by rewrite Hl). done.
    + unfold run_backtest, mbind, M_bind, copy. by rewrite Hl.
  - apply map_subseteq_spec. intros k d Hk.
    rewrite run_backtest_preserves by (by rewrite Hk). done.
Qed.

(** ** The summary metrics *)

Lemma bind_assoc {A B C : Type} (c : M A) (f : A → M B) (g : B → M C) h :
  ((c ≫= f) ≫= g) h = (c ≫= λ a, f a ≫= g) h.
Proof.
  unfold mbind, M_bind. destruct (c h) as [[a|e] h']; [|done].
  by destruct (f a h') as [[b|e] h''].
Qed.

Lemma bind_iloc_last {B : Type} (c : column) x (f : float64 → M B) h :
  last (as_float c) = Some x → (iloc_last c ≫= f) h = f x h.
Proof. intros Hx. unfold iloc_last. by rewrite Hx. Qed.

Lemma bind_iloc_last_empty {B : Type} (c : column) (f : float64 → M B) h :
  last (as_float c) = None → (iloc_last c ≫= f) h = (Raised IndexError, h).
Proof. intros Hx. unfold iloc_last. by rewrite Hx. Qed.

Lemma bind_run_backtest {B : Type} l w h df cc fc (f : loc → M B) :
  h !! l = Some df →
  columns df !! "Close" = Some cc →
  columns df !! "Foreign_Investor" = Some fc →
  (run_backtest l w ≫= f) h
  = f (fresh (dom h))
      (<[fresh (dom h) := mkFrame (index df) (backtest_columns w cc fc (columns df))]> h).
Proof.
  intros Hl Hc Hf. unfold mbind at 1. unfold M_bind at 1.
  by rewrite (run_backtest_returns l w h df cc fc Hl Hc Hf).
Qed.

Lemma bind_run_backtest_raises {B : Type} l w h e (f : loc → M B) :
  (run_backtest l w h).1 = Raised e →
  ((run_backtest l w ≫= f) h).1 = Raised e.
Proof.
  intros He. unfold mbind at 1. unfold M_bind at 1.
  destruct (run_backtest l w h) as [r h']. cbn in He. by subst r.
Qed.

(** The metrics the page computes from the derived series. *)
Lemma metrics_of_returns df cc fc last_strategy last_market :
  columns df !! "Close" = Some cc →
  columns df !! "Foreign_Investor" = Some fc →
  let close := as_float cc in
  let daily := pct_change close in
  let signal :=
    astype_int (zip_with andb (zip_with fgt close (rolling_mean 20 close)) (gt0 fc)) in
  let strat := zip_with fmul (shift (of_Z <$> signal)) daily in
  last (cumprod (fadd (Fin 1%Qc) <$> strat)) = Some last_strategy →
  last (cumprod (fadd (Fin 1%Qc) <$> daily)) = Some last_market →
  metrics_of df
  = Returned
      (let total := fmul (fsub last_strategy (Fin 1%Qc)) hundred in
       let market := fmul (fsub last_market (Fin 1%Qc)) hundred in
       let days := of_Z (foldr Z.add 0 signal) in
       mkMetrics total market (fsub total market) days
         (if fgt days (Fin 0%Qc) then
            fmul (fdiv (of_Z (count_true
                                (zip_with andb (held_rows signal) (gt0 (FloatCol strat)))))
                    days) hundred
          else Fin 0%Qc)).
Proof.
  intros Hc Hf close daily signal strat Hls Hlm.
  unfold metrics_of, summary.
  rewrite (bind_run_backtest _ _ _ df cc fc) by (done || apply lookup_singleton_eq).
  unfold backtest_columns.
  heap_step. rewrite (bind_iloc_last _ last_strategy) by exact Hls.
  heap_step. rewrite (bind_iloc_last _ last_market) by exact Hlm.
  heap_step. cbn [col_sum].
  fold close daily signal strat.
  destruct (fgt (of_Z (foldr Z.add 0 signal)) (Fin 0%Qc)).
  - repeat (rewrite bind_assoc; heap_step). done.
  - done.
Qed.

Lemma metrics_of_inv df m :
  metrics_of df = Returned m →
  ∃ cc fc last_strategy last_market,
    columns df !! "Close" = Some cc
    ∧ columns df !! "Foreign_Investor" = Some fc
    ∧ let close := as_float cc in
      let daily := pct_change close in
      let signal :=
        astype_int (zip_with andb (zip_with fgt close (rolling_mean 20 close)) (gt0 fc)) in
      let strat := zip_with fmul (shift (of_Z <$> signal)) daily in
      last (cumprod (fadd (Fin 1%Qc) <$> strat)) = Some last_strategy
      ∧ last (cumprod (fadd (Fin 1%Qc) <$> daily)) = Some last_market
      ∧ m = (let total := fmul (fsub last_strategy (Fin 1%Qc)) hundred in
             let market := fmul (fsub last_market (Fin 1%Qc)) hundred in
             let days := of_Z (foldr Z.add 0 signal) in
             mkMetrics total market (fsub total market) days
               (if fgt days (Fin 0%Qc) then
                  fmul (fdiv (of_Z (count_true
                                      (zip_with andb (held_rows signal)
                                         (gt0 (FloatCol strat)))))
                          days) hundred
                else Fin 0%Qc)).
Proof.
  intros Hm.
  destruct (columns df !! "Close") as [cc|] eqn:Hc; cycle 1.
  { exfalso. unfold metrics_of, summary in Hm.
    rewrite (bind_run_backtest_raises _ _ _ (KeyError "Close")) in Hm; [done|].
    by apply (run_backtest_no_close _ _ _ df), Hc; apply lookup_singleton_eq. }
  destruct (columns df !! "Foreign_Investor") as [fc|] eqn:Hf; cycle 1.
  { exfalso. unfold metrics_of, summary in Hm.
    rewrite (bind_run_backtest_raises _ _ _ (KeyError "Foreign_Investor")) in Hm; [done|].
    by apply (run_backtest_no_flow _ _ _ df cc), Hf; [apply lookup_singleton_eq|]. }
  exists cc, fc.
  set (close := as_float cc). set (daily := pct_change close).
  set (signal := astype_int (zip_with andb (zip_with fgt close (rolling_mean 20 close)) (gt0 fc))).
  set (strat := zip_with fmul (shift (of_Z <$> signal)) daily).
  destruct (last (cumprod (fadd (Fin 1%Qc) <$> strat))) as [ls|] eqn:Hls; cycle 1.
  { exfalso. unfold metrics_of, summary in Hm.
    rewrite (bind_run_backtest _ _ _ df cc fc) in Hm by (done || apply lookup_singleton_eq).
    unfold backtest_columns in Hm. revert Hm.
    heap_step. by rewrite bind_iloc_last_empty by exact Hls. }
  destruct (last (cumprod (fadd (Fin 1%Qc) <$> daily))) as [lm|] eqn:Hlm; cycle 1.
  { exfalso. unfold metrics_of, summary in Hm.
    rewrite (bind_run_backtest _ _ _ df cc fc) in Hm by (done || apply lookup_singleton_eq).
    unfold backtest_columns in Hm. revert Hm.
    heap_step. rewrite (bind_iloc_last _ ls) by exact Hls.
    heap_step. by rewrite bind_iloc_last_empty by exact Hlm. }
  exists ls, lm. split; [done|]. split; [done|]. split; [done|]. split; [done|].
  rewrite (metrics_of_returns df cc fc ls lm Hc Hf Hls Hlm) in Hm.
  by injection Hm as <-.
Qed.

Lemma count_true_cons (b : bool) bs :
  count_true (b :: bs) = (if b then 1 else 0) + count_true bs.
Proof.
  unfold count_true. rewrite filter_cons. destruct b.
  - rewrite decide_True by done. cbn [length]. lia.
  - rewrite decide_False by done. lia.
Qed.

Lemma sum_astype_int bs : foldr Z.add 0 (astype_int bs) = count_true bs.
Proof.
  induction bs as [|b bs IH]; [done|].
  rewrite count_true_cons. cbn. by rewrite <- IH.
Qed.

Lemma signal_ones_astype_int bs : signal_ones (astype_int bs) = count_true bs.
Proof.
  unfold signal_ones, astype_int. rewrite <- list_fmap_compose.
  f_equal. transitivity (id <$> bs); [|by rewrite list_fmap_id].
  apply list_fmap_ext. intros i b _. by destruct b.
Qed.

Lemma count_true_nonneg bs : 0 ≤ count_true bs.
Proof. unfold count_true. lia. Qed.

(** C4, as the code has it.  With twenty-two rising closes and a foreign
    net purchase every day the signal is 1 on the last three rows: two
    rows follow a held day and both gain, so the win rate of the wording
    is 100 %, while the page divides the two winning rows by the three
    trade-days and shows 200/3 %. *)
Lemma win_rate_divides_by_trade_days :
  metric trade_days (metrics_of rising) = Some (of_Z 3)
  ∧ metric win_rate (metrics_of rising) = Some (Fin (Q2Qc (200 # 3)))
  ∧ claimed_win_rate (backtested rising 20) = Some hundred
  ∧ metric win_rate (metrics_of rising) ≠ claimed_win_rate (backtested rising 20).
Proof.
  repeat split; apply (bool_decide_unpack _); vm_compute; exact I.
Qed.

(** C4 (amended): for every merged table whose metrics are computed,
    trade-days is the number of rows whose own signal is 1; when
    trade-days is positive the win rate is 100 times the number of rows
    whose previous day's signal was 1 and whose strategy return is
    positive, divided by trade-days (not by the number of rows whose
    previous day's signal was 1); when trade-days is 0 the win rate is
    exactly 0 and nothing is divided. *)
Theorem win_rate_formula (df : DataFrame) (m : Metrics) :
  metrics_of df = Returned m →
  ∃ res signal strat,
    backtest df 20 = Returned res
    ∧ columns res !! "Signal" = Some (IntCol signal)
    ∧ columns res !! "Strategy_Return" = Some (FloatCol strat)
    ∧ trade_days m = of_Z (signal_ones signal)
    ∧ 0 ≤ signal_ones signal
    ∧ (0 < signal_ones signal →
         win_rate m
         = fmul (fdiv (of_Z (count_true
                               (zip_with andb (held_rows signal) (gt0 (FloatCol strat)))))
                   (of_Z (signal_ones signal)))
             hundred)
    ∧ (signal_ones signal = 0 → win_rate m = Fin 0%Qc).
Proof.
  intros Hm.
  destruct (metrics_of_inv _ _ Hm) as (cc & fc & ls & lm & Hc & Hf & _ & _ & ->).
  pose proof (backtest_returns df 20 cc fc Hc Hf) as Hres.
  destruct (backtest_series df 20 cc fc _ Hc Hf eq_refl)
    as (_ & _ & _ & _ & Hs & Hsr & _).
  eexists _, _, _. split; [exact Hres|]. split; [exact Hs|]. split; [exact Hsr|].
  cbn [trade_days win_rate].
  rewrite sum_astype_int, signal_ones_astype_int, of_Z_pos.
  split; [done|]. split; [apply count_true_nonneg|].
  split.
  - intros Hpos. by rewrite bool_decide_eq_true_2.
  - intros Hzero. rewrite bool_decide_eq_false_2; [done|lia].
Qed.

Lemma win_rate_formula_witness :
  ∃ res signal strat,
    backtest rising 20 = Returned res
    ∧ columns res !! "Signal" = Some (IntCol signal)
    ∧ columns res !! "Strategy_Return" = Some (FloatCol strat)
    ∧ trade_days (computed_metrics rising)
      = of_Z (signal_ones signal)
    ∧ 0 ≤ signal_ones signal
    ∧ (0 < signal_ones signal →
         win_rate (computed_metrics rising)
         = fmul (fdiv (of_Z (count_true
                               (zip_with andb (held_rows signal) (gt0 (FloatCol strat)))))
                   (of_Z (signal_ones signal)))
             hundred)
    ∧ (signal_ones signal = 0 →
         win_rate (computed_metrics rising)
         = Fin 0%Qc).
Proof.
  apply (win_rate_formula rising).
  vm_compute. reflexivity.
Defined.

(** ** Cells that are numbers *)

(** The facts about the arithmetic used below hold of IEEE 754 operations
    as well: they say when a result is NaN, and use exact results only for
    a product by 0 or 1, a sum with 1 and a ratio of counts. *)

Lemma finite_Fin q : finite (Fin q).
Proof. by exists q. Qed.

Lemma finite_iff x : finite x ↔ is_nan x = false ∧ infinite x = false.
Proof.
  split.
  - by intros [q ->].
  - destruct x as [| | |q]; intros [? ?]; try done. apply finite_Fin.
Qed.

Lemma fadd_not_nan x y :
  is_nan x = false → is_nan y = false →
  infinite x = false ∨ infinite y = false →
  is_nan (fadd x y) = false.
Proof. destruct x, y; cbn; intros ? ? [?|?]; done. Qed.

Lemma fneg_not_nan x : is_nan x = false → is_nan (fneg x) = false.
Proof. by destruct x. Qed.

Lemma infinite_fneg x : infinite (fneg x) = infinite x.
Proof. by destruct x. Qed.

Lemma fsub_not_nan x y :
  is_nan x = false → is_nan y = false →
  infinite x = false ∨ infinite y = false →
  is_nan (fsub x y) = false.
Proof.
  intros Hx Hy Hinf. unfold fsub.
  apply fadd_not_nan; [done|by apply fneg_not_nan|by rewrite infinite_fneg].
Qed.

Lemma fmul_finite_not_nan x y : finite x → finite y → is_nan (fmul x y) = false.
Proof. by intros [a ->] [b ->]. Qed.

Lemma fmul_hundred_not_nan x : is_nan x = false → is_nan (fmul x hundred) = false.
Proof. by destruct x. Qed.

Lemma fdiv_positive_not_nan a b :
  positive_finite a = true → positive_finite b = true → is_nan (fdiv a b) = false.
Proof.
  destruct a as [| | |a], b as [| | |b]; try done. cbn.
  intros _ Hb%bool_decide_eq_true.
  destruct (b ?= 0)%Qc eqn:Hcmp; try done.
  apply Qceq_alt in Hcmp. subst b. by apply (irreflexivity Qclt) in Hb.
Qed.

Lemma positive_finite_not_nan x : positive_finite x = true → is_nan x = false.
Proof. by destruct x. Qed.

Lemma forallb_lookup {A} (f : A → bool) (l : list A) i x :
  forallb f l = true → l !! i = Some x → f x = true.
Proof.
  revert i. induction l as [|y l IH]; intros i; [done|]. cbn.
  intros [Hy Hl]%andb_true_iff. destruct i as [|i]; cbn.
  - by intros [= <-].
  - by apply IH.
Qed.

Lemma no_infinite_cell_lookup res key xs t x :
  no_infinite_cell res key = true → series res key = Some xs →
  xs !! t = Some x → infinite x = false.
Proof.
  unfold no_infinite_cell. intros Hall Hs Hx. rewrite Hs in Hall.
  apply negb_true_iff. exact (forallb_lookup _ _ _ _ Hall Hx).
Qed.

(** The daily return of positive closes is a number from row 1 on, short
    of an overflow of the ratio. *)
Lemma daily_return_finite (close : list float64) t r :
  Forall (λ x, positive_finite x = true) close →
  pct_change close !! S t = Some r → infinite r = false → finite r.
Proof.
  intros Hpos Hr Hinf.
  assert (S t < length close)%nat as Hlt.
  { rewrite <- length_pct_change. by apply lookup_lt_Some in Hr. }
  assert (ffill close = close) as Hfill.
  { apply ffill_no_nan. eapply Forall_impl; [exact Hpos|].
    intros x. apply positive_finite_not_nan. }
  destruct (lookup_lt_is_Some_2 close t) as [p Hp]; [lia|].
  destruct (lookup_lt_is_Some_2 close (S t)) as [x Hx]; [lia|].
  rewrite (lookup_pct_change_S close t x p) in Hr by by rewrite Hfill.
  injection Hr as <-.
  pose proof (proj1 (Forall_lookup _ _) Hpos _ _ Hp) as Hpp.
  pose proof (proj1 (Forall_lookup _ _) Hpos _ _ Hx) as Hxp.
  apply finite_iff. split; [|done].
  apply fsub_not_nan; [by apply fdiv_positive_not_nan|done|by right].
Qed.

(** The strategy return of a row whose daily return is a number: that
    number or 0, since the signal is 0 or 1. *)
Lemma gated_return_finite (bs : list bool) (daily : list float64) t r :
  (∀ d, daily !! S t = Some d → finite d) →
  zip_with fmul (shift (of_Z <$> astype_int bs)) daily !! S t = Some r → finite r.
Proof.
  intros Hd. rewrite lookup_zip_with.
  destruct (shift (of_Z <$> astype_int bs) !! S t) as [s|] eqn:Hs; [|done].
  destruct (daily !! S t) as [d|] eqn:Hdt; [|done]. cbn. intros [= <-].
  destruct (Hd d eq_refl) as [q ->].
  rewrite lookup_shift_S in Hs
    by (rewrite <- (length_shift (of_Z <$> astype_int bs)); by apply lookup_lt_Some in Hs).
  rewrite list_lookup_fmap, lookup_astype_int in Hs.
  destruct (bs !! t) as [[|]|]; [| |done]; injection Hs as <-.
  - change (of_Z 1) with (Fin 1%Qc). cbn. rewrite Qcmult_1_l. apply finite_Fin.
  - change (of_Z 0) with (Fin 0%Qc). cbn. rewrite Qcmult_0_l. apply finite_Fin.
Qed.

Lemma equity_step (returns : list float64) t :
  equity returns (S t)
  = fmul (equity returns t) (growth (default NaN (returns !! S t))).
Proof. done. Qed.

(** An equity curve whose returns are numbers from row 1 on stays a number
    as long as the running product does not overflow. *)
Lemma equity_finite (returns : list float64) t :
  (∀ r, returns !! 0%nat = Some r → r = NaN) →
  (∀ i r, returns !! S i = Some r → finite r) →
  (∀ i x, cumprod (fadd (Fin 1%Qc) <$> returns) !! i = Some x → infinite x = false) →
  (S t < length returns)%nat →
  finite (equity returns (S t)).
Proof.
  intros H0 HS Hcum. induction t as [|t IH]; intros Hlt.
  - destruct (lookup_lt_is_Some_2 returns 0) as [r0 Hr0]; [lia|].
    destruct (lookup_lt_is_Some_2 returns 1) as [r1 Hr1]; [lia|].
    pose proof (cumprod_growth _ _ _ Hr1) as Hcell.
    destruct (HS _ _ Hr1) as [q ->]. cbn [is_nan] in Hcell.
    apply finite_iff. split; [|exact (Hcum _ _ Hcell)].
    rewrite equity_step, Hr1. unfold equity. cbn [running_product].
    rewrite Hr0, (H0 _ Hr0). by apply fmul_finite_not_nan; eexists.
  - destruct (lookup_lt_is_Some_2 returns (S (S t))) as [r Hr]; [lia|].
    pose proof (cumprod_growth _ _ _ Hr) as Hcell.
    destruct (HS _ _ Hr) as [q ->]. cbn [is_nan] in Hcell.
    apply finite_iff. split; [|exact (Hcum _ _ Hcell)].
    rewrite equity_step, Hr.
    apply fmul_finite_not_nan; [apply IH; lia|by eexists].
Qed.

(** The last cell of such an equity curve with at least two rows. *)
Lemma finite_last_equity (returns : list float64) :
  (2 ≤ length returns)%nat →
  (∀ r, returns !! 0%nat = Some r → r = NaN) →
  (∀ t r, returns !! S t = Some r → finite r) →
  (∀ i x, cumprod (fadd (Fin 1%Qc) <$> returns) !! i = Some x → infinite x = false) →
  ∃ x, last (cumprod (fadd (Fin 1%Qc) <$> returns)) = Some x ∧ finite x.
Proof.
  intros Hlen H0 HS Hcum.
  rewrite last_lookup, length_cumprod, length_fmap.
  destruct (length returns) as [|[|k]] eqn:Hn; [lia|lia|]. cbn [pred].
  destruct (lookup_lt_is_Some_2 returns (S k)) as [r Hr]; [lia|].
  destruct (HS _ _ Hr) as [q ->].
  rewrite (cumprod_growth _ _ _ Hr). cbn [is_nan].
  eexists. split; [done|]. apply equity_finite; try done. lia.
Qed.

Lemma last_cumprod_is_Some (returns : list float64) :
  (1 ≤ length returns)%nat →
  ∃ x, last (cumprod (fadd (Fin 1%Qc) <$> returns)) = Some x.
Proof.
  intros Hlen. rewrite last_lookup.
  apply lookup_lt_is_Some_2. rewrite length_cumprod, length_fmap. lia.
Qed.

(** The columns of the table [run_backtest] builds with the window of the
    page. *)
Lemma backtested_series df cc fc :
  columns df !! "Close" = Some cc →
  columns df !! "Foreign_Investor" = Some fc →
  let close := as_float cc in
  let daily := pct_change close in
  let signal :=
    astype_int (zip_with andb (zip_with fgt close (rolling_mean 20 close)) (gt0 fc)) in
  let strat := zip_with fmul (shift (of_Z <$> signal)) daily in
  series (backtested df 20) "Daily_Return" = Some daily
  ∧ series (backtested df 20) "Cum_Market" = Some (cumprod (fadd (Fin 1%Qc) <$> daily))
  ∧ series (backtested df 20) "Cum_Strategy" = Some (cumprod (fadd (Fin 1%Qc) <$> strat)).
Proof.
  intros Hc Hf. unfold backtested. rewrite (backtest_returns df 20 cc fc Hc Hf).
  destruct (backtest_series df 20 cc fc _ Hc Hf eq_refl)
    as (_ & _ & _ & Hd & _ & _ & Hcm & Hcs).
  unfold series. by rewrite Hd, Hcm, Hcs.
Qed.

(** The win rate is a number whatever the table. *)
Lemma fdiv_pos a b :
  bool_decide (0 < b)%Qc = true → fdiv (Fin a) (Fin b) = Fin (a / b)%Qc.
Proof.
  intros Hb%bool_decide_eq_true. cbn.
  destruct (b ?= 0)%Qc eqn:Hcmp; try done.
  apply Qceq_alt in Hcmp. subst b. by apply (irreflexivity Qclt) in Hb.
Qed.

Lemma win_rate_not_nan (won days : Z) :
  is_nan (if fgt (of_Z days) (Fin 0%Qc)
          then fmul (fdiv (of_Z won) (of_Z days)) hundred
          else Fin 0%Qc) = false.
Proof.
  destruct (fgt (of_Z days) (Fin 0%Qc)) eqn:Hdays; [|done].
  unfold of_Z in *. cbn [fgt] in Hdays. by rewrite (fdiv_pos _ _ Hdays).
Qed.

(** C8, as the code has it.  The merged table of a query that returns a
    single trading day is not empty, so the page reports its metrics; but
    it has no defined return at all: its cumulative series end in NaN, and
    the three return percentages the page shows are NaN. *)
Lemma single_day_percentages_are_nan :
  get_data 20000 20000 (serve_prices [100]) (serve_flows []) "2330" 730
  = Returned (Some one_day)
  ∧ render (Some one_day) = Returned (Report (computed_metrics one_day))
  ∧ total_return (computed_metrics one_day) = NaN
  ∧ market_return (computed_metrics one_day) = NaN
  ∧ excess_return (computed_metrics one_day) = NaN.
Proof.
  split; [by vm_compute|]. split; [by vm_compute|].
  repeat split; apply (bool_decide_unpack _); vm_compute; exact I.
Qed.

(** Two rows are not enough when a close is not a positive number: with
    two closes of 0 the daily return of row 1 is 0/0. *)
Lemma zero_closes_percentages_are_nan :
  metric total_return
    (metrics_of (merged (get_data 20000 20000 (serve_prices [0; 0]) (serve_flows [])
                           "2330" 730)))
  = Some NaN.
Proof. apply (bool_decide_unpack _). vm_compute. exact I. Qed.

(** C8 (amended): for every merged table with at least two rows, a
    foreign-investor column and closes that are positive numbers,
    including tables shorter than the moving-average window and tables
    with no trade-day, the summary metrics are computed without an
    exception and the win rate is a number, not NaN.  When moreover the
    arithmetic of the back-test did not overflow (no cell of Daily_Return,
    Cum_Market or Cum_Strategy is infinite), the strategy return and the
    benchmark return are not NaN, and neither is the excess return unless
    both returns are infinite. *)
Theorem percentages_are_numbers (df : DataFrame) (cc fc : column) :
  wf_frame df →
  (2 ≤ length (stamps (index df)))%nat →
  columns df !! "Close" = Some cc →
  positive_closes cc →
  columns df !! "Foreign_Investor" = Some fc →
  ∃ m, metrics_of df = Returned m
       ∧ is_nan (win_rate m) = false
       ∧ (no_infinite_cell (backtested df 20) "Daily_Return" = true →
          no_infinite_cell (backtested df 20) "Cum_Market" = true →
          no_infinite_cell (backtested df 20) "Cum_Strategy" = true →
          is_nan (total_return m) = false
          ∧ is_nan (market_return m) = false
          ∧ (infinite (total_return m) = false ∨ infinite (market_return m) = false →
             is_nan (excess_return m) = false)).
Proof.
  intros Hwf Hrows Hc Hpos Hf.
  set (n := length (stamps (index df))) in *.
  assert (length (as_float cc) = n) as Hlc.
  { rewrite length_as_float. by apply (Hwf "Close"). }
  assert (col_length fc = n) as Hlf by by apply (Hwf "Foreign_Investor").
  pose proof (length_signal 20 _ fc n Hlc Hlf) as Hls.
  pose proof (length_pct_change (as_float cc)) as Hld. rewrite Hlc in Hld.
  destruct (backtested_series df cc fc Hc Hf) as (Hsd & Hsm & Hss).
  set (close := as_float cc) in *. set (daily := pct_change close) in *.
  set (bs := zip_with andb (zip_with fgt close (rolling_mean 20 close)) (gt0 fc)) in *.
  set (signal := astype_int bs) in *.
  set (strat := zip_with fmul (shift (of_Z <$> signal)) daily) in *.
  assert (length strat = n) as Hlst.
  { unfold strat. rewrite length_zip_with, length_shift, length_fmap, Hls, Hld. lia. }
  destruct (last_cumprod_is_Some strat) as [ls Hlast_s]; [lia|].
  destruct (last_cumprod_is_Some daily) as [lm Hlast_m]; [lia|].
  eexists. split; [exact (metrics_of_returns df cc fc ls lm Hc Hf Hlast_s Hlast_m)|].
  cbn [total_return market_return excess_return win_rate].
  fold close daily bs signal strat.
  split; [apply win_rate_not_nan|].
  intros Hnd Hnm Hns.
  assert (∀ t r, daily !! S t = Some r → finite r) as Hdaily.
  { intros t r Hr. apply (daily_return_finite close t r Hpos Hr).
    exact (no_infinite_cell_lookup _ _ _ _ _ Hnd Hsd Hr). }
  destruct (finite_last_equity strat) as (ls' & Hlast_s' & Hfin_s).
  { lia. }
  { intros r. apply gated_return_row0. }
  { intros t r. apply gated_return_finite. intros d Hd. by apply (Hdaily t). }
  { intros i x. exact (no_infinite_cell_lookup _ _ _ _ _ Hns Hss). }
  destruct (finite_last_equity daily) as (lm' & Hlast_m' & Hfin_m).
  { lia. }
  { intros r. apply pct_change_row0. }
  { done. }
  { intros i x. exact (no_infinite_cell_lookup _ _ _ _ _ Hnm Hsm). }
  rewrite Hlast_s in Hlast_s'. injection Hlast_s' as <-.
  rewrite Hlast_m in Hlast_m'. injection Hlast_m' as <-.
  apply finite_iff in Hfin_s as [Hs1 Hs2]. apply finite_iff in Hfin_m as [Hm1 Hm2].
  assert (is_nan (fmul (fsub ls (Fin 1%Qc)) hundred) = false) as Htotal.
  { apply fmul_hundred_not_nan, fsub_not_nan; [done|done|by left]. }
  assert (is_nan (fmul (fsub lm (Fin 1%Qc)) hundred) = false) as Hmarket.
  { apply fmul_hundred_not_nan, fsub_not_nan; [done|done|by left]. }
  split; [done|]. split; [done|]. intros Hinf. by apply fsub_not_nan.
Qed.

Lemma percentages_are_numbers_witness :
  ∃ m, metrics_of scenario_A = Returned m
       ∧ is_nan (win_rate m) = false
       ∧ is_nan (total_return m) = false
       ∧ is_nan (market_return m) = false
       ∧ is_nan (excess_return m) = false.
Proof.
  destruct (percentages_are_numbers scenario_A
              (FloatCol (of_Z <$> [100; 102; 101; 105; 104]))
              (IntCol [0; 0; 0; 0; 0]))
    as (m & Hm & Hwin & Hreturns).
  - apply (bool_decide_unpack _). vm_compute. exact I.
  - vm_compute. lia.
  - vm_compute. reflexivity.
  - apply (bool_decide_unpack _). vm_compute. exact I.
  - vm_compute. reflexivity.
  - destruct Hreturns as (Htotal & Hmarket & Hexcess);
      [vm_compute; reflexivity..|].
    exists m. split; [done|]. split; [done|]. split; [done|]. split; [done|].
    apply Hexcess. left.
    assert (metrics_of scenario_A = Returned (computed_metrics scenario_A)) as Hc
      by (vm_compute; reflexivity).
    rewrite Hc in Hm. injection Hm as <-. vm_compute. reflexivity.
Defined.

(** ** Columns through pivot, re-index and fill *)

Lemma as_float_col_of_cells cells :
  as_float (col_of_cells cells) = from_option of_Z NaN <$> cells.
Proof.
  unfold col_of_cells. destruct (mapM id cells) as [zs|] eqn:Hm; [|done].
  apply mapM_Some in Hm. cbn.
  induction Hm as [|c z cells zs Hc _ IH]; [done|].
  cbn in Hc. subst c. cbn. by rewrite IH.
Qed.

Lemma fillna0_of_Z zs : fillna0 (of_Z <$> zs) = of_Z <$> zs.
Proof. unfold fillna0. rewrite <- list_fmap_compose. by apply list_fmap_ext. Qed.

Lemma as_float_fillna0 c : as_float (col_fillna0 c) = fillna0 (as_float c).
Proof. destruct c; cbn; [done|]. by rewrite fillna0_of_Z. Qed.

Lemma col_length_fillna0 c : col_length (col_fillna0 c) = col_length c.
Proof. destruct c; cbn; [|done]. unfold fillna0. by rewrite length_fmap. Qed.

Lemma col_fillna0_no_nan c : col_no_nan (col_fillna0 c).
Proof.
  destruct c as [xs|zs]; cbn; [|done].
  unfold fillna0. apply Forall_fmap, Forall_forall. intros x _. by destruct x.
Qed.

Lemma as_float_reindex pos c :
  as_float (reindex pos c) = (λ p, default NaN (p ≫= (as_float c !!.))) <$> pos.
Proof.
  destruct c as [xs|zs]; cbn; [done|].
  rewrite as_float_col_of_cells, <- list_fmap_compose.
  apply list_fmap_ext. intros i [j|] _; cbn; [|done].
  rewrite list_lookup_fmap. by destruct (zs !! j).
Qed.

Lemma col_length_reindex pos c : col_length (reindex pos c) = length pos.
Proof. by rewrite <- length_as_float, as_float_reindex, length_fmap. Qed.

Lemma row_of_Some dates d :
  d ∈ dates → ∃ j, row_of dates d = Some j ∧ dates !! j = Some d.
Proof.
  intros Hd. unfold row_of.
  destruct (list_find_elem_of (λ x, x = d) dates d Hd eq_refl) as [[j x] Hfind].
  rewrite Hfind. exists j. split; [done|].
  apply list_find_Some in Hfind as (Hj & -> & _). done.
Qed.

Lemma row_of_None dates d : d ∉ dates → row_of dates d = None.
Proof.
  intros Hd. unfold row_of.
  rewrite (proj2 (list_find_None (λ x, x = d) dates)); [done|].
  apply Forall_forall. by intros x Hx ->.
Qed.

(** ** The pivot *)

Lemma pivot_dates df_chip d :
  d ∈ stamps (index (pivot_table df_chip)) ↔ d ∈ date <$> df_chip.
Proof. cbn. by rewrite merge_sort_Permutation, elem_of_remove_dups. Qed.

Lemma pivot_column df_chip n :
  n ∈ name <$> df_chip →
  columns (pivot_table df_chip) !! n
  = Some (col_of_cells ((λ d, pivot_cell df_chip d n)
                          <$> stamps (index (pivot_table df_chip)))).
Proof.
  intros Hn. cbn. apply elem_of_list_to_map_1.
  - rewrite <- list_fmap_compose. cbn. rewrite list_fmap_id. apply NoDup_remove_dups.
  - apply list_elem_of_fmap. exists n. split; [done|]. by apply elem_of_remove_dups.
Qed.

Lemma pivot_no_column df_chip n :
  n ∉ name <$> df_chip → columns (pivot_table df_chip) !! n = None.
Proof.
  intros Hn. cbn. apply not_elem_of_list_to_map_1.
  rewrite <- list_fmap_compose. cbn. rewrite list_fmap_id.
  by rewrite elem_of_remove_dups.
Qed.

(** Two purchases of 6e18 shares on one day add up past the int64 range. *)
Example pivot_sum_wraps :
  pivot_cell [ mkChip 0 "Foreign_Investor" 6000000000000000000 0;
               mkChip 0 "Foreign_Investor" 6000000000000000000 0 ]
    0 "Foreign_Investor"
  = Some (-6446744073709551616).
Proof. vm_compute. reflexivity. Qed.

Lemma net_flow_on_absent df_chip d n :
  d ∉ date <$> df_chip → net_flow_on df_chip d n = 0.
Proof.
  intros Hd. unfold net_flow_on.
  assert (filter (λ r, date r = d ∧ name r = n) df_chip = []) as ->; [|done].
  induction df_chip as [|r rows IH]; [done|].
  rewrite fmap_cons, not_elem_of_cons in Hd. destruct Hd as [Hr Hrows].
  rewrite filter_cons, decide_False by (intros [? _]; congruence).
  by apply IH.
Qed.

(** A cell of the pivot, filled with 0 where no record exists, is the net
    volume of its date and category. *)
Lemma pivot_cell_filled df_chip d n :
  (if is_nan (from_option of_Z NaN (pivot_cell df_chip d n)) then Fin 0%Qc
   else from_option of_Z NaN (pivot_cell df_chip d n))
  = of_Z (net_flow_on df_chip d n).
Proof.
  unfold pivot_cell, net_flow_on.
  by destruct (filter (λ r, date r = d ∧ name r = n) df_chip).
Qed.

(** ** get_data, case by case *)

Section merger.
Variables (now_start now_end : Z).
Variable download : string → Z → outcome DataFrame.
Variable investors : string → Z → Z → outcome (list ChipRow).
Variables (symbol : string) (days : Z).

Lemma get_data_price_raises e :
  download (symbol +:+ ".TW") (now_start - days) = Raised e →
  get_data now_start now_end download investors symbol days = Raised e.
Proof. intros Hp. unfold get_data. by rewrite Hp. Qed.

Lemma get_data_no_data p :
  download (symbol +:+ ".TW") (now_start - days) = Returned p →
  df_empty p = true →
  get_data now_start now_end download investors symbol days = Returned None.
Proof. intros Hp He. unfold get_data. rewrite Hp. cbn. by rewrite He. Qed.

Lemma get_data_flow_raises p e :
  download (symbol +:+ ".TW") (now_start - days) = Returned p →
  df_empty p = false →
  investors symbol (now_start - days) now_end = Raised e →
  get_data now_start now_end download investors symbol days = Raised e.
Proof. intros Hp He Hc. unfold get_data. rewrite Hp. cbn. by rewrite He, Hc. Qed.

Lemma get_data_no_flow p :
  download (symbol +:+ ".TW") (now_start - days) = Returned p →
  df_empty p = false →
  investors symbol (now_start - days) now_end = Returned [] →
  get_data now_start now_end download investors symbol days
  = Returned (Some (df_set_zero p "Foreign_Investor")).
Proof. intros Hp He Hc. unfold get_data. rewrite Hp. cbn. by rewrite He, Hc. Qed.

Lemma get_data_joins p df_chip :
  download (symbol +:+ ".TW") (now_start - days) = Returned p →
  df_empty p = false →
  investors symbol (now_start - days) now_end = Returned df_chip →
  df_chip ≠ [] →
  get_data now_start now_end download investors symbol days
  = if decide (columns p ##ₘ columns (df_fillna0 (pivot_table df_chip)))
    then Returned (Some (joined p df_chip))
    else Raised (ValueError "columns overlap but no suffix specified").
Proof.
  intros Hp He Hc Hne. unfold get_data. rewrite Hp. cbn. rewrite He, Hc. cbn.
  destruct df_chip as [|r rows]; [done|]. cbn [chip_empty negb].
  unfold join_left. cbn [tz_localize_none index tz columns stamps].
  by case_decide.
Qed.

(** Whatever the providers answer, a frame that [get_data] returns is one
    of the two merged frames. *)
Lemma get_data_inv df :
  get_data now_start now_end download investors symbol days = Returned (Some df) →
  ∃ p df_chip,
    download (symbol +:+ ".TW") (now_start - days) = Returned p
    ∧ df_empty p = false
    ∧ investors symbol (now_start - days) now_end = Returned df_chip
    ∧ ((df_chip = [] ∧ df = df_set_zero p "Foreign_Investor")
       ∨ (df_chip ≠ []
          ∧ columns p ##ₘ columns (df_fillna0 (pivot_table df_chip))
          ∧ df = joined p df_chip)).
Proof.
  intros Hq.
  destruct (download (symbol +:+ ".TW") (now_start - days)) as [p|e] eqn:Hp;
    [|by rewrite (get_data_price_raises e Hp) in Hq].
  destruct (df_empty p) eqn:He; [by rewrite (get_data_no_data p Hp He) in Hq|].
  destruct (investors symbol (now_start - days) now_end) as [df_chip|e] eqn:Hc;
    [|by rewrite (get_data_flow_raises p e Hp He Hc) in Hq].
  exists p, df_chip. split; [done|]. split; [done|]. split; [done|].
  destruct (decide (df_chip = [])) as [->|Hne].
  - left. rewrite (get_data_no_flow p Hp He Hc) in Hq. by injection Hq as <-.
  - right. rewrite (get_data_joins p df_chip Hp He Hc Hne) in Hq.
    case_decide; [|done]. by injection Hq as <-.
Qed.
End merger.

(** ** The merged frame *)

Lemma joined_column_of_price p df_chip n c :
  columns p !! n = Some c →
  columns (joined p df_chip) !! n = Some (col_fillna0 c).
Proof.
  intros Hn. unfold joined. cbn [df_fillna0 columns index].
  rewrite lookup_fmap, (lookup_union_l' _ _ _ (mk_is_Some _ _ Hn)), Hn. done.
Qed.

Lemma joined_column_of_flow p df_chip n :
  columns p ##ₘ columns (df_fillna0 (pivot_table df_chip)) →
  n ∈ name <$> df_chip →
  ∃ c, columns (joined p df_chip) !! n = Some c
       ∧ col_no_nan c
       ∧ as_float c
         = (λ d, of_Z (net_flow_on df_chip d n)) <$> stamps (index p).
Proof.
  intros Hdisj Hn.
  pose proof (pivot_column df_chip n Hn) as Hpiv.
  set (dates := stamps (index (pivot_table df_chip))) in *.
  set (cells := (λ d, pivot_cell df_chip d n) <$> dates) in *.
  assert (columns (df_fillna0 (pivot_table df_chip)) !! n
          = Some (col_fillna0 (col_of_cells cells))) as Hfilled.
  { cbn [df_fillna0 columns]. by rewrite lookup_fmap, Hpiv. }
  assert (columns p !! n = None) as Hnone.
  { destruct (columns p !! n) as [c|] eqn:Hpn; [|done].
    by destruct (proj1 (map_disjoint_spec _ _) Hdisj n _ _ Hpn Hfilled). }
  eexists. split.
  { unfold joined. cbn [df_fillna0 columns index stamps].
    rewrite lookup_fmap, lookup_union_r by done.
    rewrite lookup_fmap. cbn [df_fillna0 columns] in Hfilled. rewrite Hfilled.
    reflexivity. }
  split; [apply col_fillna0_no_nan|].
  rewrite as_float_fillna0, as_float_reindex, as_float_fillna0, as_float_col_of_cells.
  unfold fillna0. rewrite <- !list_fmap_compose.
  apply list_fmap_ext. intros i d _. unfold compose. fold dates.
  destruct (decide (d ∈ dates)) as [Hd|Hd].
  - destruct (row_of_Some dates d Hd) as (j & -> & Hj). cbn [mbind option_bind].
    unfold cells. rewrite !list_lookup_fmap, Hj.
    cbn [fmap option_fmap option_map default].
    rewrite pivot_cell_filled. by destruct (net_flow_on df_chip d n).
  - rewrite (row_of_None dates d Hd). cbn.
    rewrite net_flow_on_absent; [done|]. by rewrite <- pivot_dates.
Qed.

Lemma joined_no_column p df_chip n :
  columns p !! n = None → n ∉ name <$> df_chip →
  columns (joined p df_chip) !! n = None.
Proof.
  intros Hp Hn. unfold joined. cbn [df_fillna0 columns index stamps].
  rewrite lookup_fmap, lookup_union_r by done.
  by rewrite !lookup_fmap, (pivot_no_column df_chip n Hn).
Qed.

Lemma joined_no_nan p df_chip n c :
  columns (joined p df_chip) !! n = Some c → col_no_nan c.
Proof.
  unfold joined. cbn [df_fillna0 columns]. rewrite lookup_fmap.
  destruct (_ !! n) as [c'|]; [|done]. cbn. intros [= <-]. apply col_fillna0_no_nan.
Qed.

(** A merged frame is as well formed as the price frame it comes from, and
    it is never empty. *)
Lemma joined_wf p df_chip : wf_frame p → wf_frame (joined p df_chip).
Proof.
  intros Hwf n c. unfold joined. cbn [df_fillna0 columns index stamps].
  rewrite lookup_fmap. intros Hn.
  apply fmap_Some in Hn as (c' & Hc' & ->). rewrite col_length_fillna0.
  apply lookup_union_Some_raw in Hc' as [Hp|[_ Hr]].
  - by apply (Hwf n).
  - rewrite lookup_fmap in Hr. apply fmap_Some in Hr as (c'' & _ & ->).
    by rewrite col_length_reindex, length_fmap.
Qed.

Lemma df_set_zero_wf p n : wf_frame p → wf_frame (df_set_zero p n).
Proof.
  intros Hwf k c. cbn [df_set_zero columns index].
  destruct (decide (n = k)) as [->|Hne].
  - rewrite lookup_insert_eq. intros [= <-]. cbn. by rewrite length_replicate.
  - rewrite lookup_insert_ne by done. apply (Hwf k).
Qed.

Lemma get_data_wf now_start now_end download investors symbol days df :
  (∀ p, download (symbol +:+ ".TW") (now_start - days) = Returned p → wf_frame p) →
  get_data now_start now_end download investors symbol days = Returned (Some df) →
  wf_frame df ∧ df_empty df = false.
Proof.
  intros Hwf Hq.
  destruct (get_data_inv _ _ _ _ _ _ _ Hq)
    as (p & df_chip & Hp & He & _ & [[_ ->]|(_ & _ & ->)]).
  - split; [by apply df_set_zero_wf, Hwf|].
    unfold df_empty in *. apply orb_false_iff in He as [He _].
    apply orb_false_iff. split; [done|].
    apply bool_decide_eq_false. cbn. apply insert_non_empty.
  - split; [by apply joined_wf, Hwf|].
    unfold df_empty in *. apply orb_false_iff in He as [He Hcols].
    apply orb_false_iff. split; [done|].
    apply bool_decide_eq_false in Hcols. apply bool_decide_eq_false.
    unfold joined. cbn [df_fillna0 columns]. intros Hempty.
    by apply fmap_empty_inv, map_positive_l in Hempty.
Qed.

Lemma backtest_raises df w e :
  (run_backtest 1%positive w {[1%positive := df]}).1 = Raised e →
  backtest df w = Raised e.
Proof.
  intros He. unfold backtest.
  destruct (run_backtest _ _ _) as [r h']. cbn in He. by subst r.
Qed.

Lemma backtest_needs_flow df w :
  columns df !! "Foreign_Investor" = None →
  ∃ e, backtest df w = Raised e
       ∧ (is_Some (columns df !! "Close") → e = KeyError "Foreign_Investor").
Proof.
  intros Hf. destruct (columns df !! "Close") as [cc|] eqn:Hc.
  - exists (KeyError "Foreign_Investor"). split; [|done].
    apply backtest_raises.
    by apply (run_backtest_no_flow _ _ _ df cc); [apply lookup_singleton_eq| |].
  - exists (KeyError "Close"). split; [|by intros [? ?]].
    apply backtest_raises.
    by apply (run_backtest_no_close _ _ _ df); [apply lookup_singleton_eq|].
Qed.

(** ** The data merger *)

(** C3: for every merged table get_data returns, the merged date axis is
    the date axis of the price series, row for row: no date is added and
    no price date is dropped, so a flow date that is not a price date
    leaves no row.  When flow records are joined the time zone of the
    price axis is stripped first (the flow axis has none) and the dates
    are matched on their wall-clock reading: the cell of a category on a
    row is the net volume of the records of that date and category, 0
    when there is none.  Every net-flow cell of the merged table is a
    number, never missing: that of each category when there are records,
    that of Foreign_Investor when there is none. *)
Theorem merged_axis_is_price_axis
    (now_start now_end : Z) (download : string → Z → outcome DataFrame)
    (investors : string → Z → Z → outcome (list ChipRow))
    (symbol : string) (days : Z) (df : DataFrame) :
  get_data now_start now_end download investors symbol days = Returned (Some df) →
  ∃ p df_chip,
    download (symbol +:+ ".TW") (now_start - days) = Returned p
    ∧ investors symbol (now_start - days) now_end = Returned df_chip
    ∧ stamps (index df) = stamps (index p)
    ∧ (∀ d, d ∈ date <$> df_chip → d ∉ stamps (index p) → d ∉ stamps (index df))
    ∧ (df_chip ≠ [] →
         tz (index df) = None ∧ tz (index (pivot_table df_chip)) = None)
    ∧ (∀ n, n ∈ name <$> df_chip →
         ∃ c, columns df !! n = Some c
              ∧ col_no_nan c
              ∧ as_float c
                = (λ d, of_Z (net_flow_on df_chip d n)) <$> stamps (index df))
    ∧ (df_chip = [] →
         columns df !! "Foreign_Investor"
         = Some (IntCol (replicate (length (stamps (index df))) 0)))
    ∧ (∃ n c, (n ∈ name <$> df_chip ∨ df_chip = [] ∧ n = "Foreign_Investor")
              ∧ columns df !! n = Some c
              ∧ col_no_nan c
              ∧ col_length c = length (stamps (index df))).
Proof.
  intros Hq.
  destruct (get_data_inv _ _ _ _ _ _ _ Hq)
    as (p & df_chip & Hp & He & Hc & [[-> ->]|(Hne & Hdisj & ->)]);
    exists p; eexists; (split; [exact Hp|]); (split; [exact Hc|]).
  - split; [done|]. split; [done|]. split; [done|]. split; [|split].
    + intros n Hn. by apply elem_of_nil in Hn.
    + intros _. cbn. apply lookup_insert_eq.
    + exists "Foreign_Investor". eexists. split; [by right|].
      split; [cbn; apply lookup_insert_eq|]. split; [done|].
      cbn. by rewrite length_replicate.
  - split; [done|]. split; [done|]. split; [done|]. split; [|split; [done|]].
    + intros n Hn. exact (joined_column_of_flow p df_chip n Hdisj Hn).
    + destruct df_chip as [|r rows]; [done|].
      destruct (joined_column_of_flow p (r :: rows) (name r) Hdisj)
        as (c & Hcol & Hnum & Hval); [by left|].
      exists (name r), c. split; [left; by left|]. split; [done|]. split; [done|].
      by rewrite <- length_as_float, Hval, length_fmap.
Qed.

Lemma merged_axis_is_price_axis_witness :
  ∃ p df_chip,
    serve_prices [100; 101; 102] ("2330" +:+ ".TW") (20000 - 730) = Returned p
    ∧ serve_flows dealer_rows "2330" (20000 - 730) 20000 = Returned df_chip
    ∧ stamps (index dealers_only) = stamps (index p)
    ∧ (∀ d, d ∈ date <$> df_chip → d ∉ stamps (index p) →
            d ∉ stamps (index dealers_only))
    ∧ (df_chip ≠ [] →
         tz (index dealers_only) = None ∧ tz (index (pivot_table df_chip)) = None)
    ∧ (∀ n, n ∈ name <$> df_chip →
         ∃ c, columns dealers_only !! n = Some c
              ∧ col_no_nan c
              ∧ as_float c
                = (λ d, of_Z (net_flow_on df_chip d n)) <$> stamps (index dealers_only))
    ∧ (df_chip = [] →
         columns dealers_only !! "Foreign_Investor"
         = Some (IntCol (replicate (length (stamps (index dealers_only))) 0)))
    ∧ (∃ n c, (n ∈ name <$> df_chip ∨ df_chip = [] ∧ n = "Foreign_Investor")
              ∧ columns dealers_only !! n = Some c
              ∧ col_no_nan c
              ∧ col_length c = length (stamps (index dealers_only))).
Proof.
  apply (merged_axis_is_price_axis 20000 20000 (serve_prices [100; 101; 102])
           (serve_flows dealer_rows) "2330" 730 dealers_only).
  vm_compute. reflexivity.
Defined.

(** C7: for every non-empty price series, when the flow source returns no
    row get_data returns the price frame with a Foreign_Investor column
    that is 0 on every row and as long as the price series; the date axis
    and the other columns are those of the price frame. *)
Theorem empty_flow_is_zero_filled
    (now_start now_end : Z) (download : string → Z → outcome DataFrame)
    (investors : string → Z → Z → outcome (list ChipRow))
    (symbol : string) (days : Z) (p : DataFrame) :
  download (symbol +:+ ".TW") (now_start - days) = Returned p →
  df_empty p = false →
  investors symbol (now_start - days) now_end = Returned [] →
  ∃ df,
    get_data now_start now_end download investors symbol days = Returned (Some df)
    ∧ columns df !! "Foreign_Investor"
      = Some (IntCol (replicate (length (stamps (index p))) 0))
    ∧ series df "Foreign_Investor"
      = Some (replicate (length (stamps (index p))) (Fin 0%Qc))
    ∧ index df = index p
    ∧ (∀ n, n ≠ "Foreign_Investor" → columns df !! n = columns p !! n).
Proof.
  intros Hp He Hc. eexists. split; [by apply get_data_no_flow|].
  unfold series. cbn [df_set_zero columns index].
  rewrite lookup_insert_eq. split; [done|]. split.
  - cbn. by rewrite fmap_replicate.
  - split; [done|]. intros n Hn. by rewrite lookup_insert_ne.
Qed.

Lemma empty_flow_is_zero_filled_witness :
  ∃ df,
    get_data 20000 20000 (serve_prices [100; 102; 101; 105; 104]) (serve_flows [])
      "2330" 730 = Returned (Some df)
    ∧ columns df !! "Foreign_Investor"
      = Some (IntCol (replicate
                        (length (stamps (index (price_frame [100; 102; 101; 105; 104])))) 0))
    ∧ series df "Foreign_Investor"
      = Some (replicate
                (length (stamps (index (price_frame [100; 102; 101; 105; 104]))))
                (Fin 0%Qc))
    ∧ index df = index (price_frame [100; 102; 101; 105; 104])
    ∧ (∀ n, n ≠ "Foreign_Investor" →
         columns df !! n = columns (price_frame [100; 102; 101; 105; 104]) !! n).
Proof.
  apply (empty_flow_is_zero_filled 20000 20000 (serve_prices [100; 102; 101; 105; 104])
           (serve_flows []) "2330" 730 (price_frame [100; 102; 101; 105; 104])).
  - reflexivity.
  - vm_compute. reflexivity.
  - reflexivity.
Defined.

(** C5: get_data returns the no-data signal (None) exactly when the price
    fetch returns an empty series.  An exception of the price source, and
    an exception of the flow source once the prices are there, reaches the
    caller as it was raised; a fetch that fails never gives the no-data
    signal. *)
Theorem no_data_iff_prices_empty
    (now_start now_end : Z) (download : string → Z → outcome DataFrame)
    (investors : string → Z → Z → outcome (list ChipRow))
    (symbol : string) (days : Z) :
  (get_data now_start now_end download investors symbol days = Returned None
   ↔ ∃ p, download (symbol +:+ ".TW") (now_start - days) = Returned p
          ∧ df_empty p = true)
  ∧ (∀ e, download (symbol +:+ ".TW") (now_start - days) = Raised e →
          get_data now_start now_end download investors symbol days = Raised e)
  ∧ (∀ p e, download (symbol +:+ ".TW") (now_start - days) = Returned p →
            df_empty p = false →
            investors symbol (now_start - days) now_end = Raised e →
            get_data now_start now_end download investors symbol days = Raised e).
Proof.
  split; [|split].
  - split.
    + intros Hq.
      destruct (download (symbol +:+ ".TW") (now_start - days)) as [p|e] eqn:Hp;
        [|by rewrite (get_data_price_raises _ _ _ _ _ _ e Hp) in Hq].
      exists p. split; [done|].
      destruct (df_empty p) eqn:He; [done|]. exfalso.
      destruct (investors symbol (now_start - days) now_end) as [df_chip|e] eqn:Hc;
        [|by rewrite (get_data_flow_raises _ _ _ _ _ _ p e Hp He Hc) in Hq].
      destruct (decide (df_chip = [])) as [->|Hne].
      * by rewrite (get_data_no_flow _ _ _ _ _ _ p Hp He Hc) in Hq.
      * rewrite (get_data_joins _ _ _ _ _ _ p df_chip Hp He Hc Hne) in Hq.
        by case_decide.
    + intros (p & Hp & He). by apply (get_data_no_data _ _ _ _ _ _ p).
  - intros e. apply get_data_price_raises.
  - intros p e. apply get_data_flow_raises.
Qed.

(** Scenario D: the flow source is down while prices exist; the failure
    reaches the caller and is not the no-data signal. *)
Lemma no_data_iff_prices_empty_witness :
  get_data 20000 20000 (serve_prices [100; 101; 102]) (λ _ _ _, provider_down)
    "2330" 730
  = Raised (ProviderError 503).
Proof.
  apply (proj2 (proj2 (no_data_iff_prices_empty 20000 20000
                         (serve_prices [100; 101; 102]) (λ _ _ _, provider_down)
                         "2330" 730))
           (price_frame [100; 101; 102]) (ProviderError 503)).
  - reflexivity.
  - vm_compute. reflexivity.
  - reflexivity.
Defined.

(** C10: run_backtest returns only for a table that has a Foreign_Investor
    column.  get_data puts that column in whenever the flow source returns
    no row; but when the flow source returns records none of which is
    named Foreign_Investor (and the price frame has no such column), the
    merged table has no Foreign_Investor column and run_backtest raises:
    KeyError 'Foreign_Investor' once the close column is found.  The net
    flow is not taken as 0. *)
Theorem foreign_investor_column_required
    (now_start now_end : Z) (download : string → Z → outcome DataFrame)
    (investors : string → Z → Z → outcome (list ChipRow))
    (symbol : string) (days : Z) :
  (∀ df w res, backtest df w = Returned res →
     is_Some (columns df !! "Foreign_Investor"))
  ∧ (∀ p, download (symbol +:+ ".TW") (now_start - days) = Returned p →
          df_empty p = false →
          investors symbol (now_start - days) now_end = Returned [] →
          ∃ df, get_data now_start now_end download investors symbol days
                = Returned (Some df)
                ∧ is_Some (columns df !! "Foreign_Investor"))
  ∧ (∀ p df_chip df w,
       download (symbol +:+ ".TW") (now_start - days) = Returned p →
       investors symbol (now_start - days) now_end = Returned df_chip →
       df_chip ≠ [] →
       "Foreign_Investor" ∉ name <$> df_chip →
       columns p !! "Foreign_Investor" = None →
       get_data now_start now_end download investors symbol days = Returned (Some df) →
       columns df !! "Foreign_Investor" = None
       ∧ ∃ e, backtest df w = Raised e
              ∧ (is_Some (columns df !! "Close") → e = KeyError "Foreign_Investor")).
Proof.
  split; [|split].
  - intros df w res Hres.
    destruct (backtest_inv _ _ _ Hres) as (cc & fc & _ & Hf & _). by rewrite Hf.
  - intros p Hp He Hc. eexists. split; [by apply get_data_no_flow|].
    cbn. by rewrite lookup_insert_eq.
  - intros p df_chip df w Hp Hc Hne Hnames Hpf Hq.
    destruct (get_data_inv _ _ _ _ _ _ _ Hq)
      as (p' & df_chip' & Hp' & He & Hc' & Hcases).
    rewrite Hp in Hp'. injection Hp' as <-.
    rewrite Hc in Hc'. injection Hc' as <-.
    destruct Hcases as [[-> _]|(_ & Hdisj & ->)]; [done|].
    pose proof (joined_no_column p df_chip _ Hpf Hnames) as Hnone.
    split; [done|]. by apply backtest_needs_flow.
Qed.

Lemma foreign_investor_column_required_witness :
  columns dealers_only !! "Foreign_Investor" = None
  ∧ ∃ e, backtest dealers_only 20 = Raised e
         ∧ (is_Some (columns dealers_only !! "Close") → e = KeyError "Foreign_Investor").
Proof.
  apply (proj2 (proj2 (foreign_investor_column_required 20000 20000
                         (serve_prices [100; 101; 102]) (serve_flows dealer_rows)
                         "2330" 730))
           (price_frame [100; 101; 102]) dealer_rows dealers_only 20%nat).
  - reflexivity.
  - reflexivity.
  - done.
  - apply (bool_decide_unpack _). vm_compute. exact I.
  - vm_compute. reflexivity.
  - vm_compute. reflexivity.
Defined.

(** * Further properties of the code *)

(** ** run_backtest as an operation on frames *)

Lemma backtest_columns_other w cc fc cols k :
  k ∉ derived_columns →
  backtest_columns w cc fc cols !! k = cols !! k.
Proof.
  intros Hk. unfold derived_columns in Hk.
  repeat (apply not_elem_of_cons in Hk as [? Hk]).
  unfold backtest_columns. by repeat (rewrite lookup_insert_ne by done).
Qed.

Lemma inputs_not_derived :
  ("Close" ∉ derived_columns) ∧ ("Foreign_Investor" ∉ derived_columns).
Proof. split; apply (bool_decide_unpack _); by vm_compute. Qed.

Lemma backtest_columns_derived w cc fc cols k :
  k ∈ derived_columns →
  ∃ c, backtest_columns w cc fc cols !! k = Some c
       ∧ (col_length fc = length (as_float cc) →
          col_length c = length (as_float cc))
       ∧ ∀ cols', backtest_columns w cc fc cols' !! k = Some c.
Proof.
  intros Hk. unfold derived_columns in Hk.
  repeat (apply elem_of_cons in Hk as [->|Hk]); [..|by apply elem_of_nil in Hk];
    unfold backtest_columns;
    (eexists; split;
     [repeat (rewrite lookup_insert_ne by done); apply lookup_insert_eq|]);
    (split;
     [|by intros cols'; repeat (rewrite lookup_insert_ne by done);
          rewrite lookup_insert_eq]);
    intros Hlen; cbn [col_length];
    rewrite ?length_cumprod, ?length_fmap, ?length_zip_with, ?length_shift,
      ?length_fmap, ?length_astype_int, ?length_zip_with, ?length_zip_with,
      ?length_rolling_mean, ?length_pct_change, ?length_gt0, ?length_rolling_mean;
    lia.
Qed.

Lemma backtest_columns_wf df w cc fc :
  columns df !! "Close" = Some cc →
  columns df !! "Foreign_Investor" = Some fc →
  wf_frame df →
  wf_frame (mkFrame (index df) (backtest_columns w cc fc (columns df))).
Proof.
  intros Hc Hf Hwf k c. cbn [index columns].
  destruct (decide (k ∈ derived_columns)) as [Hk|Hk].
  - destruct (backtest_columns_derived w cc fc (columns df) k Hk)
      as (c' & -> & Hlen & _).
    intros [= <-]. rewrite Hlen.
    + rewrite length_as_float. by apply (Hwf "Close").
    + rewrite length_as_float, (Hwf "Close" cc Hc). by apply (Hwf "Foreign_Investor").
  - rewrite backtest_columns_other by done. apply (Hwf k).
Qed.

(** X1: run_backtest returns a reference that did not exist before the
    call, so never its argument; the heap after the call is the heap before
    it with the new frame at that reference; and that frame depends only on
    the frame passed in and the window, not on the rest of the heap. *)
Theorem run_backtest_returns_new_frame
    (h h' : gmap loc DataFrame) (l l' : loc) (w : nat) :
  run_backtest l w h = (Returned l', h') →
  h !! l' = None
  ∧ l' ≠ l
  ∧ ∃ df res, h !! l = Some df
              ∧ h' = <[l' := res]> h
              ∧ backtest df w = Returned res.
Proof.
  intros Hrun.
  destruct (h !! l) as [df|] eqn:Hl; cycle 1.
  { unfold run_backtest, mbind, M_bind, copy in Hrun. by rewrite Hl in Hrun. }
  destruct (columns df !! "Close") as [cc|] eqn:Hc; cycle 1.
  { pose proof (run_backtest_no_close l w h df Hl Hc) as Hr.
    by rewrite Hrun in Hr. }
  destruct (columns df !! "Foreign_Investor") as [fc|] eqn:Hf; cycle 1.
  { pose proof (run_backtest_no_flow l w h df cc Hl Hc Hf) as Hr.
    by rewrite Hrun in Hr. }
  rewrite (run_backtest_returns l w h df cc fc Hl Hc Hf) in Hrun.
  injection Hrun as <- <-.
  split; [apply fresh_loc_new|]. split.
  - intros Heq. pose proof (fresh_loc_new h) as Hnew. rewrite Heq, Hl in Hnew. done.
  - exists df. eexists. split; [done|]. split; [done|].
    by apply backtest_returns.
Qed.

Lemma run_backtest_returns_new_frame_witness :
  ({[1%positive := rising]} : gmap loc DataFrame)
    !! fresh (dom ({[1%positive := rising]} : gmap loc DataFrame)) = None
  ∧ fresh (dom ({[1%positive := rising]} : gmap loc DataFrame)) ≠ 1%positive
  ∧ ∃ df res, ({[1%positive := rising]} : gmap loc DataFrame) !! 1%positive = Some df
              ∧ (run_backtest 1%positive 20 {[1%positive := rising]}).2
                = <[fresh (dom ({[1%positive := rising]} : gmap loc DataFrame)) := res]>
                    {[1%positive := rising]}
              ∧ backtest df 20 = Returned res.
Proof.
  apply (run_backtest_returns_new_frame {[1%positive := rising]}
           (run_backtest 1%positive 20 {[1%positive := rising]}).2
           1%positive
           (fresh (dom ({[1%positive := rising]} : gmap loc DataFrame))) 20).
  vm_compute. reflexivity.
Defined.

(** X2: on the frame it returns, run_backtest has written the six derived
    columns and nothing else: the index and every other column (the price
    columns and every flow category) are those of the input, and a
    well-formed input gives a well-formed table. *)
Theorem run_backtest_adds_derived_columns (df : DataFrame) (w : nat) (res : DataFrame) :
  backtest df w = Returned res →
  index res = index df
  ∧ (∀ k, k ∉ derived_columns → columns res !! k = columns df !! k)
  ∧ (∀ k, k ∈ derived_columns → is_Some (columns res !! k))
  ∧ (wf_frame df → wf_frame res).
Proof.
  intros Hres.
  destruct (backtest_inv _ _ _ Hres) as (cc & fc & Hc & Hf & ->).
  cbn [index columns].
  split; [done|]. split; [intros k; apply backtest_columns_other|]. split.
  - intros k Hk.
    destruct (backtest_columns_derived w cc fc (columns df) k Hk) as (c & -> & _).
    done.
  - intros Hwf. by apply (backtest_columns_wf df w cc fc).
Qed.

Lemma run_backtest_adds_derived_columns_witness :
  index (backtested dealers_flows 20) = index dealers_flows
  ∧ (∀ k, k ∉ derived_columns →
          columns (backtested dealers_flows 20) !! k = columns dealers_flows !! k)
  ∧ (∀ k, k ∈ derived_columns → is_Some (columns (backtested dealers_flows 20) !! k))
  ∧ (wf_frame dealers_flows → wf_frame (backtested dealers_flows 20)).
Proof.
  apply (run_backtest_adds_derived_columns dealers_flows 20).
  vm_compute. reflexivity.
Defined.

(** X3: running run_backtest on a table it returned, with any window,
    gives what running it on the original table with that window gives;
    with the same window it gives the table back. *)
Theorem run_backtest_again (df : DataFrame) (w : nat) (res : DataFrame) :
  backtest df w = Returned res →
  (∀ w', backtest res w' = backtest df w')
  ∧ backtest res w = Returned res.
Proof.
  intros Hres.
  assert (∀ w', backtest res w' = backtest df w') as Hagain.
  { intros w'.
    destruct (backtest_inv _ _ _ Hres) as (cc & fc & Hc & Hf & ->).
    rewrite (backtest_returns df w' cc fc Hc Hf).
    rewrite (backtest_returns _ w' cc fc)
      by (cbn [columns]; by rewrite backtest_columns_other
            by apply inputs_not_derived).
    cbn [index columns]. do 2 f_equal. apply map_eq. intros k.
    destruct (decide (k ∈ derived_columns)) as [Hk|Hk].
    - destruct (backtest_columns_derived w' cc fc (columns df) k Hk)
        as (c & Hcol & _ & Hany).
      by rewrite Hcol, Hany.
    - by rewrite !backtest_columns_other. }
  split; [done|]. by rewrite Hagain.
Qed.

Lemma run_backtest_again_witness :
  (∀ w', backtest (backtested rising 20) w' = backtest rising w')
  ∧ backtest (backtested rising 20) 20 = Returned (backtested rising 20).
Proof.
  apply (run_backtest_again rising 20 (backtested rising 20)).
  vm_compute. reflexivity.
Defined.

(** ** The equity curves *)

Lemma fmul_one_r x : fmul x (Fin 1%Qc) = x.
Proof. destruct x as [| | |q]; try done. cbn. by rewrite Qcmult_1_r. Qed.

Lemma fmul_one_l x : fmul (of_Z 1) x = x.
Proof.
  change (of_Z 1) with (Fin 1%Qc).
  destruct x as [| | |q]; try done. cbn. by rewrite Qcmult_1_l.
Qed.

Lemma fmul_zero_l q : fmul (of_Z 0) (Fin q) = Fin 0%Qc.
Proof. change (of_Z 0) with (Fin 0%Qc). cbn. by rewrite Qcmult_0_l. Qed.

Lemma growth_zero : growth (Fin 0%Qc) = Fin 1%Qc.
Proof. cbn. by rewrite Qcplus_0_r. Qed.

(** *** Prices that never fall *)

Lemma Qc_growth_bounds (es em a b : Qc) :
  (1 ≤ es)%Qc → (es ≤ em)%Qc → (0 ≤ a)%Qc → (a ≤ b)%Qc →
  (1 ≤ es * (1 + a))%Qc ∧ (es ≤ es * (1 + a))%Qc
  ∧ (em ≤ em * (1 + b))%Qc ∧ (es * (1 + a) ≤ em * (1 + b))%Qc.
Proof.
  unfold Qcle. cbn [this Qcmult Qcplus Q2Qc]. rewrite !Qred_correct.
  intros H1 H2 H3 H4. repeat split; nra.
Qed.

Lemma Qc_ratio_bounds (p x : Qc) :
  (0 < p)%Qc → (p ≤ x)%Qc → (0 ≤ x / p + - 1)%Qc.
Proof.
  unfold Qcle, Qclt. cbn [this Qcmult Qcdiv Qcinv Qcplus Qcopp Q2Qc].
  rewrite !Qred_correct. intros Hp Hx.
  assert (1 <= this x * / this p)%Q as H.
  { apply Qle_shift_div_l; [done|]. by rewrite Qmult_1_l. }
  lra.
Qed.

Lemma Qc_percent_bounds (es em : Qc) :
  (1 ≤ es)%Qc → (es ≤ em)%Qc →
  (0 ≤ (es + - 1) * Q2Qc (inject_Z 100))%Qc
  ∧ ((es + - 1) * Q2Qc (inject_Z 100) ≤ (em + - 1) * Q2Qc (inject_Z 100))%Qc
  ∧ ¬ (0 < (es + - 1) * Q2Qc (inject_Z 100)
           + - ((em + - 1) * Q2Qc (inject_Z 100)))%Qc.
Proof.
  unfold Qcle, Qclt. cbn [this Qcmult Qcplus Qcopp Q2Qc]. rewrite !Qred_correct.
  change (inject_Z 100) with (100 # 1)%Q.
  intros H1 H2. repeat split; lra.
Qed.

Lemma never_falls_lookup xs t p x :
  never_falls xs = true → xs !! t = Some p → xs !! S t = Some x → fle p x = true.
Proof.
  intros Hall Hp Hx.
  apply (forallb_lookup (λ px : float64 * float64, fle px.1 px.2)
           (zip xs (drop 1 xs)) t (p, x) Hall).
  rewrite lookup_zip_with, Hp, lookup_drop. change (1 + t)%nat with (S t).
  by rewrite Hx.
Qed.

(** The daily return of positive closes that never fall. *)
Lemma daily_return_rising (close : list float64) t r :
  Forall (λ x, positive_finite x = true) close →
  never_falls close = true →
  pct_change close !! S t = Some r →
  ∃ b, r = Fin b ∧ (0 ≤ b)%Qc.
Proof.
  intros Hpos Hrise Hr.
  assert (S t < length close)%nat as Hlt.
  { rewrite <- length_pct_change. by apply lookup_lt_Some in Hr. }
  assert (ffill close = close) as Hfill.
  { apply ffill_no_nan. eapply Forall_impl; [exact Hpos|].
    intros x. apply positive_finite_not_nan. }
  destruct (lookup_lt_is_Some_2 close t) as [p Hp]; [lia|].
  destruct (lookup_lt_is_Some_2 close (S t)) as [x Hx]; [lia|].
  rewrite (lookup_pct_change_S close t x p) in Hr by by rewrite Hfill.
  injection Hr as <-.
  pose proof (proj1 (Forall_lookup _ _) Hpos _ _ Hp) as Hpp.
  pose proof (proj1 (Forall_lookup _ _) Hpos _ _ Hx) as Hxp.
  pose proof (never_falls_lookup _ _ _ _ Hrise Hp Hx) as Hle.
  destruct p as [| | |p]; try done. destruct x as [| | |x]; try done.
  cbn in Hpp, Hle. rewrite (fdiv_pos _ _ Hpp).
  eexists. split; [reflexivity|].
  apply Qc_ratio_bounds.
  - exact (proj1 (bool_decide_eq_true _) Hpp).
  - exact (proj1 (bool_decide_eq_true _) Hle).
Qed.

(** The strategy return of such a row: 0 or the daily return. *)
Lemma gated_return_rising (bs : list bool) (daily : list float64) t r b :
  daily !! S t = Some (Fin b) → (0 ≤ b)%Qc →
  zip_with fmul (shift (of_Z <$> astype_int bs)) daily !! S t = Some r →
  ∃ a, r = Fin a ∧ (0 ≤ a)%Qc ∧ (a ≤ b)%Qc.
Proof.
  intros Hd Hb. rewrite lookup_zip_with.
  destruct (shift (of_Z <$> astype_int bs) !! S t) as [s|] eqn:Hs; [|done].
  rewrite Hd. cbn. intros [= <-].
  rewrite lookup_shift_S in Hs
    by (rewrite <- (length_shift (of_Z <$> astype_int bs)); by apply lookup_lt_Some in Hs).
  rewrite list_lookup_fmap, lookup_astype_int in Hs.
  destruct (bs !! t) as [[|]|]; [| |done]; injection Hs as <-.
  - change (of_Z 1) with (Fin 1%Qc). cbn. rewrite Qcmult_1_l.
    exists b. split; [done|]. split; [done|]. apply Qcle_refl.
  - change (of_Z 0) with (Fin 0%Qc). cbn. rewrite Qcmult_0_l.
    exists 0%Qc. split; [done|]. split; [apply Qcle_refl|done].
Qed.

(** One row further on two equity curves, the returns of the first
    between 0 and those of the second. *)
Lemma equity_rising_step (strat daily : list float64) t es em a b :
  equity strat t = Fin es → equity daily t = Fin em →
  (1 ≤ es)%Qc → (es ≤ em)%Qc →
  strat !! S t = Some (Fin a) → daily !! S t = Some (Fin b) →
  (0 ≤ a)%Qc → (a ≤ b)%Qc →
  ∃ es' em',
    equity strat (S t) = Fin es' ∧ equity daily (S t) = Fin em'
    ∧ (1 ≤ es')%Qc ∧ (es' ≤ em')%Qc ∧ (es ≤ es')%Qc ∧ (em ≤ em')%Qc.
Proof.
  intros Hes Hem H1 H2 Ha Hb H3 H4.
  destruct (Qc_growth_bounds es em a b H1 H2 H3 H4) as (? & ? & ? & ?).
  exists (es * (1 + a))%Qc, (em * (1 + b))%Qc.
  rewrite !equity_step, Hes, Hem, Ha, Hb. done.
Qed.

Lemma equity_rising (strat daily : list float64) t :
  length strat = length daily →
  (∀ r, strat !! 0%nat = Some r → r = NaN) →
  (∀ r, daily !! 0%nat = Some r → r = NaN) →
  (∀ i r, daily !! S i = Some r → ∃ b, r = Fin b ∧ (0 ≤ b)%Qc) →
  (∀ i r b, daily !! S i = Some (Fin b) → (0 ≤ b)%Qc → strat !! S i = Some r →
            ∃ a, r = Fin a ∧ (0 ≤ a)%Qc ∧ (a ≤ b)%Qc) →
  (t < length daily)%nat →
  ∃ es em,
    equity strat t = Fin es ∧ equity daily t = Fin em
    ∧ (1 ≤ es)%Qc ∧ (es ≤ em)%Qc.
Proof.
  intros Hlen Hs0 Hd0 Hd Hs. induction t as [|t IH]; intros Hlt.
  - destruct (lookup_lt_is_Some_2 strat 0) as [s0 Hs0']; [lia|].
    destruct (lookup_lt_is_Some_2 daily 0) as [d0 Hd0']; [lia|].
    exists 1%Qc, 1%Qc. unfold equity. cbn [running_product].
    rewrite Hs0', Hd0', (Hs0 _ Hs0'), (Hd0 _ Hd0'). done.
  - destruct IH as (es & em & Hes & Hem & H1 & H2); [lia|].
    destruct (lookup_lt_is_Some_2 daily (S t)) as [d Hdt]; [lia|].
    destruct (lookup_lt_is_Some_2 strat (S t)) as [s Hst]; [lia|].
    destruct (Hd _ _ Hdt) as (b & -> & Hb).
    destruct (Hs _ _ _ Hdt Hb Hst) as (a & -> & Ha & Hab).
    destruct (equity_rising_step strat daily t es em a b)
      as (es' & em' & ? & ? & ? & ? & _); try done.
    by exists es', em'.
Qed.

(** X4: buy and hold against the strategy when the price never falls.  On
    a table whose closes are positive numbers and never fall from one row
    to the next, and whose daily returns did not overflow (no cell of
    Daily_Return is infinite), from row 1 on the strategy equity is at
    least 1 and at most the benchmark equity, and neither curve ever
    falls; so the page shows a strategy return that is not negative, a
    benchmark return that is at least the strategy return, and an excess
    return that is never positive. *)
Theorem strategy_trails_rising_market (df : DataFrame) (cc : column) :
  wf_frame df →
  columns df !! "Close" = Some cc →
  positive_closes cc →
  never_falls (as_float cc) = true →
  (∀ w res, backtest df w = Returned res →
     no_infinite_cell res "Daily_Return" = true →
     ∃ cum_market cum_strategy,
       columns res !! "Cum_Market" = Some (FloatCol cum_market)
       ∧ columns res !! "Cum_Strategy" = Some (FloatCol cum_strategy)
       ∧ (∀ t m s, cum_market !! S t = Some m → cum_strategy !! S t = Some s →
            fle (Fin 1%Qc) s = true ∧ fle s m = true)
       ∧ (∀ t m m' s s',
            cum_market !! S t = Some m → cum_market !! S (S t) = Some m' →
            cum_strategy !! S t = Some s → cum_strategy !! S (S t) = Some s' →
            fle m m' = true ∧ fle s s' = true))
  ∧ (∀ m, (2 ≤ length (stamps (index df)))%nat →
          no_infinite_cell (backtested df 20) "Daily_Return" = true →
          metrics_of df = Returned m →
          fle (Fin 0%Qc) (total_return m) = true
          ∧ fle (total_return m) (market_return m) = true
          ∧ fgt (excess_return m) (Fin 0%Qc) = false).
Proof.
  intros Hwf Hc Hpos Hrise.
  set (n := length (stamps (index df))).
  assert (length (as_float cc) = n) as Hlc.
  { rewrite length_as_float. by apply (Hwf "Close"). }
  pose proof (length_pct_change (as_float cc)) as Hld. rewrite Hlc in Hld.
  set (close := as_float cc) in *. set (daily := pct_change close) in *.
  assert (∀ i r, daily !! S i = Some r → ∃ b, r = Fin b ∧ (0 ≤ b)%Qc) as Hdaily.
  { intros i r. by apply daily_return_rising. }
  (* the two curves, for any signal *)
  assert (∀ bs : list bool, length bs = n →
            let strat := zip_with fmul (shift (of_Z <$> astype_int bs)) daily in
            ∀ t m s,
              cumprod (fadd (Fin 1%Qc) <$> daily) !! S t = Some m →
              cumprod (fadd (Fin 1%Qc) <$> strat) !! S t = Some s →
              ∃ es em, s = Fin es ∧ m = Fin em
                       ∧ equity strat (S t) = Fin es ∧ equity daily (S t) = Fin em
                       ∧ (1 ≤ es)%Qc ∧ (es ≤ em)%Qc) as Hcurves.
  { intros bs Hbs strat t m s Hm Hs.
    assert (length strat = length daily) as Hlst.
    { unfold strat. rewrite length_zip_with, length_shift, length_fmap.
      unfold astype_int. rewrite length_fmap, Hbs, Hld. lia. }
    assert (S t < length daily)%nat as Hlt.
    { apply lookup_lt_Some in Hm. by rewrite length_cumprod, length_fmap in Hm. }
    destruct (lookup_lt_is_Some_2 daily (S t)) as [d Hdt]; [lia|].
    destruct (lookup_lt_is_Some_2 strat (S t)) as [g Hst]; [lia|].
    destruct (Hdaily _ _ Hdt) as (b & -> & Hb).
    destruct (gated_return_rising bs daily t g b Hdt Hb Hst) as (a & -> & _ & _).
    rewrite (cumprod_growth _ _ _ Hdt) in Hm. rewrite (cumprod_growth _ _ _ Hst) in Hs.
    cbn [is_nan] in Hm, Hs. injection Hm as <-. injection Hs as <-.
    destruct (equity_rising strat daily (S t)) as (es & em & Hes & Hem & H1 & H2);
      try done.
    - intros r. apply gated_return_row0.
    - intros r. apply pct_change_row0.
    - intros i r b' Hd' Hb' Hr. by apply (gated_return_rising bs daily i r b').
    - by exists es, em. }
  split.
  - intros w res Hres _.
    destruct (backtest_inv _ _ _ Hres) as (cc' & fc & Hc' & Hf & Hfr).
    rewrite Hc in Hc'. injection Hc' as <-.
    destruct (backtest_series df w cc fc res Hc Hf Hfr)
      as (_ & _ & _ & _ & _ & _ & Hcm & Hcs).
    assert (col_length fc = n) as Hlf by by apply (Hwf "Foreign_Investor").
    pose proof (length_signal w _ fc n Hlc Hlf) as Hls.
    unfold astype_int in Hls. rewrite length_fmap in Hls.
    eexists _, _. split; [exact Hcm|]. split; [exact Hcs|]. split.
    + intros t m s Hm Hs.
      destruct (Hcurves _ Hls t m s Hm Hs) as (es & em & -> & -> & _ & _ & H1 & H2).
      cbn. split; by apply bool_decide_eq_true_2.
    + intros t m m' s s' Hm Hm' Hs Hs'.
      destruct (Hcurves _ Hls t m s Hm Hs) as (es & em & -> & -> & Hes & Hem & H1 & H2).
      destruct (Hcurves _ Hls (S t) m' s' Hm' Hs')
        as (es' & em' & -> & -> & Hes' & Hem' & _ & _).
      set (strat := zip_with fmul (shift (of_Z <$> astype_int _)) daily) in *.
      assert (S (S t) < length daily)%nat as Hlt.
      { apply lookup_lt_Some in Hm'. by rewrite length_cumprod, length_fmap in Hm'. }
      destruct (lookup_lt_is_Some_2 daily (S (S t))) as [d Hdt]; [lia|].
      destruct (lookup_lt_is_Some_2 strat (S (S t))) as [g Hst].
      { apply lookup_lt_Some in Hs'. by rewrite length_cumprod, length_fmap in Hs'. }
      destruct (Hdaily _ _ Hdt) as (b & -> & Hb).
      destruct (gated_return_rising _ daily (S t) g b Hdt Hb Hst) as (a & -> & Ha & Hab).
      destruct (equity_rising_step strat daily (S t) es em a b)
        as (es2 & em2 & Hes2 & Hem2 & _ & _ & ? & ?); try done.
      rewrite Hes' in Hes2. rewrite Hem' in Hem2.
      injection Hes2 as <-. injection Hem2 as <-.
      cbn. split; by apply bool_decide_eq_true_2.
  - intros m Hrows _ Hm.
    destruct (metrics_of_inv _ _ Hm)
      as (cc' & fc & ls & lm & Hc' & Hf & Hls' & Hlm & ->).
    rewrite Hc in Hc'. injection Hc' as <-.
    assert (col_length fc = n) as Hlf by by apply (Hwf "Foreign_Investor").
    pose proof (length_signal 20 _ fc n Hlc Hlf) as Hls.
    fold close daily in Hls', Hlm, Hls |- *.
    set (bs := zip_with andb (zip_with fgt close (rolling_mean 20 close)) (gt0 fc)) in *.
    set (strat := zip_with fmul (shift (of_Z <$> astype_int bs)) daily) in *.
    assert (length strat = n) as Hlst.
    { unfold strat. rewrite length_zip_with, length_shift, length_fmap, Hls, Hld. lia. }
    rewrite last_lookup, length_cumprod, length_fmap in Hls', Hlm.
    rewrite Hlst in Hls'. rewrite Hld in Hlm. fold n in Hrows.
    destruct n as [|[|k]]; [lia|lia|]. cbn [pred] in Hls', Hlm.
    unfold astype_int in Hls. rewrite length_fmap in Hls.
    destruct (Hcurves bs Hls k lm ls Hlm Hls')
      as (es & em & -> & -> & _ & _ & H1 & H2).
    destruct (Qc_percent_bounds es em H1 H2) as (Ht & Htm & Hex).
    cbn [total_return market_return excess_return]. unfold hundred, of_Z. cbn.
    split; [by apply bool_decide_eq_true_2|].
    split; [by apply bool_decide_eq_true_2|].
    by apply bool_decide_eq_false_2.
Qed.

Lemma strategy_trails_rising_market_witness :
  ∃ m, metrics_of rising = Returned m
       ∧ fle (Fin 0%Qc) (total_return m) = true
       ∧ fle (total_return m) (market_return m) = true
       ∧ fgt (excess_return m) (Fin 0%Qc) = false.
Proof.
  exists (computed_metrics rising).
  assert (metrics_of rising = Returned (computed_metrics rising)) as Hm
    by (vm_compute; reflexivity).
  split; [exact Hm|].
  apply (proj2 (strategy_trails_rising_market rising
                  (FloatCol (of_Z <$> (Z.of_nat <$> seq 1 22)))
                  ltac:(apply (bool_decide_unpack _); vm_compute; exact I)
                  ltac:(vm_compute; reflexivity)
                  ltac:(apply (bool_decide_unpack _); vm_compute; exact I)
                  ltac:(vm_compute; reflexivity))
           (computed_metrics rising)).
  - vm_compute. lia.
  - vm_compute. reflexivity.
  - exact Hm.
Defined.

(** X5: how the strategy equity moves from one row to the next, from row
    1 on (where it is defined).  After a day without signal it stays where
    it was, whatever the market did (a finite daily return); after a day
    with signal it is multiplied by one plus the day's return. *)
Theorem strategy_equity_step (df : DataFrame) (w : nat) (res : DataFrame) :
  wf_frame df →
  backtest df w = Returned res →
  ∃ signal daily cum_strategy,
    columns res !! "Signal" = Some (IntCol signal)
    ∧ columns res !! "Daily_Return" = Some (FloatCol daily)
    ∧ columns res !! "Cum_Strategy" = Some (FloatCol cum_strategy)
    ∧ ∀ t s r e,
        signal !! t = Some s → daily !! S t = Some r →
        cum_strategy !! t = Some e → e ≠ NaN →
        (s = 0 → finite r → cum_strategy !! S t = Some e)
        ∧ (s = 1 → r ≠ NaN →
           cum_strategy !! S t = Some (fmul e (fadd (Fin 1%Qc) r))).
Proof.
  intros Hwf Hres.
  destruct (backtest_inv _ _ _ Hres) as (cc & fc & Hc & Hf & Hfr).
  destruct (backtest_series df w cc fc res Hc Hf Hfr)
    as (_ & _ & _ & Hd & Hs & _ & _ & Hcs).
  set (n := length (stamps (index df))).
  assert (length (as_float cc) = n) as Hlc.
  { rewrite length_as_float. by apply (Hwf "Close"). }
  assert (col_length fc = n) as Hlf by by apply (Hwf "Foreign_Investor").
  pose proof (length_signal w _ fc n Hlc Hlf) as Hls.
  pose proof (length_pct_change (as_float cc)) as Hld. rewrite Hlc in Hld.
  eexists _, _, _. split; [exact Hs|]. split; [exact Hd|]. split; [exact Hcs|].
  set (signal := astype_int _) in *. set (daily := pct_change _) in *.
  set (strat := zip_with fmul (shift (of_Z <$> signal)) daily).
  intros t s r e Hts Htr Hte Hnan.
  assert (strat !! S t = Some (fmul (of_Z s) r)) as Hstrat.
  { unfold strat.
    rewrite lookup_zip_with, lookup_shift_S, list_lookup_fmap, Hts, Htr; [done|].
    rewrite length_fmap, Hls, <- Hld. by apply lookup_lt_Some in Htr. }
  assert (e = equity strat t) as ->.
  { destruct (lookup_lt_is_Some_2 strat t) as [x Hx].
    { apply lookup_lt_Some in Hte.
      by rewrite length_cumprod, length_fmap in Hte. }
    rewrite (cumprod_growth _ _ _ Hx) in Hte. injection Hte as <-.
    by destruct (is_nan x). }
  split.
  - intros -> [q ->]. rewrite fmul_zero_l in Hstrat.
    rewrite (cumprod_growth _ _ _ Hstrat). cbn [is_nan].
    rewrite equity_step, Hstrat. cbn [default from_option id].
    by rewrite growth_zero, fmul_one_r.
  - intros -> Hr. rewrite fmul_one_l in Hstrat.
    rewrite (cumprod_growth _ _ _ Hstrat).
    destruct r as [| | |q]; try done; cbn [is_nan];
      by rewrite equity_step, Hstrat.
Qed.

Lemma strategy_equity_step_witness :
  ∃ signal daily cum_strategy,
    columns (backtested rising 20) !! "Signal" = Some (IntCol signal)
    ∧ columns (backtested rising 20) !! "Daily_Return" = Some (FloatCol daily)
    ∧ columns (backtested rising 20) !! "Cum_Strategy" = Some (FloatCol cum_strategy)
    ∧ ∀ t s r e,
        signal !! t = Some s → daily !! S t = Some r →
        cum_strategy !! t = Some e → e ≠ NaN →
        (s = 0 → finite r → cum_strategy !! S t = Some e)
        ∧ (s = 1 → r ≠ NaN →
           cum_strategy !! S t = Some (fmul e (fadd (Fin 1%Qc) r))).
Proof.
  apply (strategy_equity_step rising 20 (backtested rising 20)).
  - apply (bool_decide_unpack _). vm_compute. exact I.
  - vm_compute. reflexivity.
Defined.

Lemma equity_of_idle_returns (returns : list float64) t :
  (∀ i r, returns !! i = Some r → r = NaN ∨ r = Fin 0%Qc) →
  equity returns t = Fin 1%Qc.
Proof.
  intros Hidle.
  assert (∀ i, growth (default NaN (returns !! i)) = Fin 1%Qc) as Hone.
  { intros i. destruct (returns !! i) as [r|] eqn:Hi; [|done].
    destruct (Hidle i r Hi) as [->| ->]; [done|]. apply growth_zero. }
  unfold equity. induction t as [|t IH]; cbn [running_product]; [apply Hone|].
  by rewrite IH, Hone, fmul_one_r.
Qed.

Lemma sum_zeros (zs : list Z) : Forall (λ z, z = 0) zs → foldr Z.add 0 zs = 0.
Proof. induction 1 as [|z zs -> _ IH]; [done|]. cbn. by rewrite IH. Qed.

(** X6: a strategy that never gets a signal.  On a table of at least two
    rows with positive closes whose daily returns did not overflow (no
    cell of Daily_Return is infinite), when no row has a positive foreign
    net flow (as when the flow source had no record) or the table is
    shorter than the 20-day window, the signal is 0 on every row, the
    strategy equity is 1 from row 1 on, and the page shows 0 trade-days, a
    win rate of 0, a strategy return of 0 % and an excess return that is
    minus the benchmark return. *)
Theorem no_signal_no_trade (df : DataFrame) (cc fc : column) :
  wf_frame df →
  (2 ≤ length (stamps (index df)))%nat →
  columns df !! "Close" = Some cc →
  positive_closes cc →
  no_infinite_cell (backtested df 20) "Daily_Return" = true →
  columns df !! "Foreign_Investor" = Some fc →
  Forall (λ b, b = false) (gt0 fc) ∨ (length (stamps (index df)) < 20)%nat →
  ∃ res signal cum_strategy m,
    backtest df 20 = Returned res
    ∧ columns res !! "Signal" = Some (IntCol signal)
    ∧ Forall (λ s, s = 0) signal
    ∧ columns res !! "Cum_Strategy" = Some (FloatCol cum_strategy)
    ∧ (∀ t e, cum_strategy !! S t = Some e → e = Fin 1%Qc)
    ∧ metrics_of df = Returned m
    ∧ trade_days m = Fin 0%Qc
    ∧ win_rate m = Fin 0%Qc
    ∧ total_return m = Fin 0%Qc
    ∧ excess_return m = fneg (market_return m).
Proof.
  intros Hwf Hrows Hc Hpos Hnd Hf Hidle.
  set (n := length (stamps (index df))) in *.
  assert (length (as_float cc) = n) as Hlc.
  { rewrite length_as_float. by apply (Hwf "Close"). }
  assert (col_length fc = n) as Hlf by by apply (Hwf "Foreign_Investor").
  pose proof (length_signal 20 _ fc n Hlc Hlf) as Hls.
  pose proof (length_pct_change (as_float cc)) as Hld. rewrite Hlc in Hld.
  destruct (backtest_series df 20 cc fc _ Hc Hf eq_refl)
    as (_ & _ & _ & _ & Hs & _ & _ & Hcs).
  set (close := as_float cc) in *. set (daily := pct_change close) in *.
  set (signal := astype_int (zip_with andb (zip_with fgt close (rolling_mean 20 close)) (gt0 fc))) in *.
  set (strat := zip_with fmul (shift (of_Z <$> signal)) daily) in *.
  assert (Forall (λ s, s = 0) signal) as Hzero.
  { apply Forall_lookup. intros t s. unfold signal.
    rewrite lookup_astype_int, !lookup_zip_with.
    destruct (close !! t) as [c|] eqn:Htc; [|done]. cbn.
    destruct (rolling_mean 20 close !! t) as [ma|] eqn:Htm; [|done]. cbn.
    destruct (gt0 fc !! t) as [b|] eqn:Htb; [|done]. cbn. intros [= <-].
    destruct Hidle as [Hflow|Hshort].
    - rewrite (proj1 (Forall_lookup _ _) Hflow _ _ Htb). by rewrite andb_false_r.
    - rewrite rolling_mean_warm_up in Htm
        by (apply lookup_lt_Some in Htc; unfold close in *; lia).
      injection Htm as <-. by rewrite fgt_nan_r. }
  assert (∀ t r, daily !! S t = Some r → finite r) as Hdaily.
  { intros t r Hr. apply (daily_return_finite close t r Hpos Hr).
    destruct (backtested_series df cc fc Hc Hf) as (Hsd & _ & _).
    exact (no_infinite_cell_lookup _ _ _ _ _ Hnd Hsd Hr). }
  assert (∀ t r, strat !! S t = Some r → r = Fin 0%Qc) as Hstrat.
  { intros t r. unfold strat. rewrite lookup_zip_with.
    destruct (shift (of_Z <$> signal) !! S t) as [s|] eqn:Hsh; [|done].
    destruct (daily !! S t) as [d|] eqn:Hdt; [|done]. cbn. intros [= <-].
    rewrite lookup_shift_S in Hsh
      by (rewrite <- (length_shift (of_Z <$> signal)); by apply lookup_lt_Some in Hsh).
    rewrite list_lookup_fmap in Hsh.
    destruct (signal !! t) as [z|] eqn:Hz; [|done]. injection Hsh as <-.
    rewrite (proj1 (Forall_lookup _ _) Hzero _ _ Hz).
    destruct (Hdaily _ _ Hdt) as [q ->]. apply fmul_zero_l. }
  assert (∀ i r, strat !! i = Some r → r = NaN ∨ r = Fin 0%Qc) as Hidle_returns.
  { intros [|i] r Hi; [left; by apply (gated_return_row0 _ _ _ Hi)|right; by apply (Hstrat i)]. }
  assert (∀ t e, cumprod (fadd (Fin 1%Qc) <$> strat) !! S t = Some e → e = Fin 1%Qc)
    as Hflat.
  { intros t e He.
    destruct (lookup_lt_is_Some_2 strat (S t)) as [r Hr].
    { apply lookup_lt_Some in He. by rewrite length_cumprod, length_fmap in He. }
    rewrite (cumprod_growth _ _ _ Hr), (Hstrat _ _ Hr) in He. cbn [is_nan] in He.
    injection He as <-. by apply equity_of_idle_returns. }
  destruct (last_cumprod_is_Some strat) as [ls Hlast_s].
  { unfold strat. rewrite length_zip_with, length_shift, length_fmap, Hls, Hld. lia. }
  assert (ls = Fin 1%Qc) as ->.
  { rewrite last_lookup, length_cumprod, length_fmap in Hlast_s.
    assert (length strat = n) as Hlen
      by (unfold strat; rewrite length_zip_with, length_shift, length_fmap, Hls, Hld; lia).
    rewrite Hlen in Hlast_s.
    destruct n as [|[|k]]; [lia|lia|]. by apply (Hflat k). }
  destruct (last_cumprod_is_Some daily) as [lm Hlast_m]; [lia|].
  eexists _, signal, _, _.
  split; [by apply backtest_returns|]. split; [exact Hs|]. split; [done|].
  split; [exact Hcs|]. split; [exact Hflat|].
  split; [exact (metrics_of_returns df cc fc _ _ Hc Hf Hlast_s Hlast_m)|].
  cbn [trade_days win_rate total_return excess_return market_return].
  fold close daily signal strat. rewrite (sum_zeros _ Hzero).
  assert (fmul (fsub (Fin 1%Qc) (Fin 1%Qc)) hundred = Fin 0%Qc) as ->
    by (apply (bool_decide_unpack _); by vm_compute).
  split; [done|]. split; [done|]. split; [done|].
  destruct (fmul (fsub lm (Fin 1%Qc)) hundred) as [| | |q]; try done.
  cbn. by rewrite Qcplus_0_l.
Qed.

Lemma no_signal_no_trade_witness :
  ∃ res signal cum_strategy m,
    backtest scenario_A 20 = Returned res
    ∧ columns res !! "Signal" = Some (IntCol signal)
    ∧ Forall (λ s, s = 0) signal
    ∧ columns res !! "Cum_Strategy" = Some (FloatCol cum_strategy)
    ∧ (∀ t e, cum_strategy !! S t = Some e → e = Fin 1%Qc)
    ∧ metrics_of scenario_A = Returned m
    ∧ trade_days m = Fin 0%Qc
    ∧ win_rate m = Fin 0%Qc
    ∧ total_return m = Fin 0%Qc
    ∧ excess_return m = fneg (market_return m).
Proof.
  apply (no_signal_no_trade scenario_A scenario_A_closes (IntCol [0; 0; 0; 0; 0])).
  - apply (bool_decide_unpack _). vm_compute. exact I.
  - vm_compute. lia.
  - vm_compute. reflexivity.
  - apply (bool_decide_unpack _). vm_compute. exact I.
  - vm_compute. reflexivity.
  - vm_compute. reflexivity.
  - left. apply (bool_decide_unpack _). vm_compute. exact I.
Defined.

(** ** The summary metrics: ranges and failures *)

Lemma of_Z_inj a b : of_Z a = of_Z b → a = b.
Proof.
  unfold of_Z. intros [= Heq].
  apply inject_Z_injective. by rewrite <- (Qred_correct (inject_Z a)), Heq, Qred_correct.
Qed.

Lemma count_true_le_length bs : count_true bs ≤ Z.of_nat (length bs).
Proof.
  induction bs as [|b bs IH]; [done|].
  rewrite count_true_cons. cbn [length]. destruct b; cbv iota; lia.
Qed.

Lemma count_true_and_le (as_ bs : list bool) :
  count_true (zip_with andb as_ bs) ≤ count_true as_.
Proof.
  revert bs. induction as_ as [|a as_ IH]; intros [|b bs]; cbn [zip_with];
    rewrite ?count_true_cons; try (pose proof (count_true_nonneg as_)); try done.
  - change (count_true []) with 0. destruct a; cbv iota; lia.
  - specialize (IH bs). destruct a, b; cbn [andb]; cbv iota; lia.
Qed.

Lemma count_true_take_le k (bs : list bool) : count_true (take k bs) ≤ count_true bs.
Proof.
  revert k. induction bs as [|b bs IH]; intros [|k]; cbn [take];
    rewrite ?count_true_cons; try done.
  - change (count_true []) with 0.
    pose proof (count_true_nonneg bs). destruct b; cbv iota; lia.
  - specialize (IH k). lia.
Qed.

(** The rows that follow a held day are at most the held days. *)
Lemma held_rows_le_ones signal : count_true (held_rows signal) ≤ signal_ones signal.
Proof.
  unfold held_rows, shift, eq1. rewrite fmap_take.
  etrans; [apply count_true_take_le|].
  rewrite fmap_cons, count_true_cons. rewrite bool_decide_eq_false_2 by done.
  rewrite <- list_fmap_compose. unfold signal_ones.
  assert (0 + count_true ((λ x, bool_decide (x = Fin 1%Qc)) ∘ of_Z <$> signal)
          = count_true ((λ s, bool_decide (s = 1)) <$> signal)) as ->; [|done].
  rewrite Z.add_0_l. f_equal. apply list_fmap_ext.
  intros i s _. unfold compose. apply bool_decide_ext.
  split; [apply of_Z_inj|by intros ->].
Qed.

Lemma percentage_in_range (won days : Z) :
  0 ≤ won ≤ days → 0 < days →
  ∃ q, fmul (fdiv (of_Z won) (of_Z days)) hundred = Fin q
       ∧ (0 ≤ q)%Qc ∧ (q ≤ Q2Qc (inject_Z 100))%Qc.
Proof.
  intros [Hw Hwd] Hd.
  assert (bool_decide (0 < Q2Qc (inject_Z days))%Qc = true) as Hpos.
  { change (fgt (of_Z days) (Fin 0%Qc) = true).
    rewrite of_Z_pos. by apply bool_decide_eq_true_2. }
  unfold of_Z, hundred, of_Z. rewrite (fdiv_pos _ _ Hpos). cbn [fmul].
  eexists. split; [done|].
  unfold Qcle. cbn [this Qcmult Qcdiv Qcinv Q2Qc]. rewrite !Qred_correct.
  assert (0 < inject_Z days)%Q as Hd'
    by (change 0%Q with (inject_Z 0); by rewrite <- Zlt_Qlt).
  assert (0 <= inject_Z won)%Q as Hw'
    by (change 0%Q with (inject_Z 0); by rewrite <- Zle_Qle).
  assert (inject_Z won <= inject_Z days)%Q as Hwd' by (by rewrite <- Zle_Qle).
  split.
  - apply Qmult_le_0_compat; [|done].
    apply Qle_shift_div_l; [done|]. by rewrite Qmult_0_l.
  - rewrite <- (Qmult_1_l (inject_Z 100)) at 2.
    apply Qmult_le_compat_r; [|done].
    apply Qle_shift_div_r; [done|]. by rewrite Qmult_1_l.
Qed.

(** X7: whenever the metrics are computed, trade-days is a whole number
    between 0 and the number of rows, and the win rate is a number between
    0 and 100: the winning rows all follow a held day, and the rows that
    follow a held day are at most the held days. *)
Theorem metrics_ranges (df : DataFrame) (m : Metrics) :
  wf_frame df →
  metrics_of df = Returned m →
  ∃ days q,
    trade_days m = of_Z days
    ∧ 0 ≤ days ≤ Z.of_nat (length (stamps (index df)))
    ∧ win_rate m = Fin q
    ∧ (0 ≤ q)%Qc ∧ (q ≤ Q2Qc (inject_Z 100))%Qc.
Proof.
  intros Hwf Hm.
  destruct (metrics_of_inv _ _ Hm) as (cc & fc & ls & lm & Hc & Hf & _ & _ & ->).
  set (n := length (stamps (index df))).
  assert (length (as_float cc) = n) as Hlc.
  { rewrite length_as_float. by apply (Hwf "Close"). }
  assert (col_length fc = n) as Hlf by by apply (Hwf "Foreign_Investor").
  pose proof (length_signal 20 _ fc n Hlc Hlf) as Hls.
  cbn [trade_days win_rate].
  set (signal := astype_int _) in *.
  set (strat := zip_with fmul (shift (of_Z <$> signal)) (pct_change (as_float cc))).
  set (won := count_true (zip_with andb (held_rows signal) (gt0 (FloatCol strat)))).
  assert (foldr Z.add 0 signal = signal_ones signal) as Hdays.
  { unfold signal. by rewrite sum_astype_int, signal_ones_astype_int. }
  assert (0 ≤ won ≤ signal_ones signal) as Hwon.
  { split; [apply count_true_nonneg|].
    etrans; [apply count_true_and_le|apply held_rows_le_ones]. }
  assert (0 ≤ signal_ones signal ≤ Z.of_nat n) as Hrange.
  { split; [apply count_true_nonneg|].
    unfold signal_ones. etrans; [apply count_true_le_length|].
    by rewrite length_fmap, Hls. }
  rewrite Hdays, of_Z_pos.
  destruct (decide (0 < signal_ones signal)) as [Hpos|Hzero].
  - rewrite bool_decide_eq_true_2 by done.
    destruct (percentage_in_range won (signal_ones signal) Hwon Hpos)
      as (q & Hq & Hq0 & Hq100).
    exists (signal_ones signal), q. by rewrite Hq.
  - rewrite bool_decide_eq_false_2 by done.
    exists (signal_ones signal), 0%Qc. split; [done|]. split; [done|]. split; [done|].
    split; by apply (bool_decide_unpack _).
Qed.

Lemma metrics_ranges_witness :
  ∃ days q,
    trade_days (computed_metrics rising) = of_Z days
    ∧ 0 ≤ days ≤ Z.of_nat (length (stamps (index rising)))
    ∧ win_rate (computed_metrics rising) = Fin q
    ∧ (0 ≤ q)%Qc ∧ (q ≤ Q2Qc (inject_Z 100))%Qc.
Proof.
  apply (metrics_ranges rising).
  - apply (bool_decide_unpack _). vm_compute. exact I.
  - vm_compute. reflexivity.
Defined.

Lemma metrics_of_raises df e :
  (run_backtest 1%positive 20 {[1%positive := df]}).1 = Raised e →
  metrics_of df = Raised e.
Proof. intros He. unfold metrics_of, summary. by apply bind_run_backtest_raises. Qed.

Lemma metrics_of_no_rows df cc fc :
  columns df !! "Close" = Some cc →
  columns df !! "Foreign_Investor" = Some fc →
  as_float cc = [] →
  metrics_of df = Raised IndexError.
Proof.
  intros Hc Hf Hnil. unfold metrics_of, summary.
  rewrite (bind_run_backtest _ _ _ df cc fc) by (done || apply lookup_singleton_eq).
  unfold backtest_columns. heap_step.
  rewrite bind_iloc_last_empty; [done|].
  cbn [as_float]. by rewrite Hnil.
Qed.

Lemma metrics_of_some_rows df cc fc :
  wf_frame df →
  columns df !! "Close" = Some cc →
  columns df !! "Foreign_Investor" = Some fc →
  stamps (index df) ≠ [] →
  ∃ m, metrics_of df = Returned m.
Proof.
  intros Hwf Hc Hf Hrows.
  set (n := length (stamps (index df))).
  assert (length (as_float cc) = n) as Hlc.
  { rewrite length_as_float. by apply (Hwf "Close"). }
  assert (col_length fc = n) as Hlf by by apply (Hwf "Foreign_Investor").
  pose proof (length_signal 20 _ fc n Hlc Hlf) as Hls.
  pose proof (length_pct_change (as_float cc)) as Hld. rewrite Hlc in Hld.
  assert (0 < n)%nat as Hn.
  { unfold n. destruct (stamps (index df)); [done|cbn; lia]. }
  set (daily := pct_change (as_float cc)) in *.
  set (signal := astype_int _) in *.
  set (strat := zip_with fmul (shift (of_Z <$> signal)) daily).
  destruct (last (cumprod (fadd (Fin 1%Qc) <$> strat))) as [ls|] eqn:Hls'.
  2:{ apply last_None in Hls'. apply (f_equal length) in Hls'.
      rewrite length_cumprod, length_fmap in Hls'.
      unfold strat in Hls'.
      rewrite length_zip_with, length_shift, length_fmap, Hls, Hld in Hls'.
      cbn in Hls'. lia. }
  destruct (last (cumprod (fadd (Fin 1%Qc) <$> daily))) as [lm|] eqn:Hlm'.
  2:{ apply last_None in Hlm'. apply (f_equal length) in Hlm'.
      rewrite length_cumprod, length_fmap, Hld in Hlm'. cbn in Hlm'. lia. }
  eexists. exact (metrics_of_returns df cc fc ls lm Hc Hf Hls' Hlm').
Qed.

(** X8: when the summary fails and when it does not.  Without a Close
    column it raises KeyError 'Close'; with one but without a
    Foreign_Investor column, KeyError 'Foreign_Investor'; on a well-formed
    table with both columns it raises IndexError when there is no row
    (iloc[-1] of an empty series) and returns the metrics when there is at
    least one. *)
Theorem summary_failures (df : DataFrame) :
  (columns df !! "Close" = None → metrics_of df = Raised (KeyError "Close"))
  ∧ (is_Some (columns df !! "Close") →
     columns df !! "Foreign_Investor" = None →
     metrics_of df = Raised (KeyError "Foreign_Investor"))
  ∧ (wf_frame df →
     is_Some (columns df !! "Close") →
     is_Some (columns df !! "Foreign_Investor") →
     (stamps (index df) = [] → metrics_of df = Raised IndexError)
     ∧ (stamps (index df) ≠ [] → ∃ m, metrics_of df = Returned m)).
Proof.
  split; [|split].
  - intros Hc. apply metrics_of_raises.
    by apply (run_backtest_no_close _ _ _ df); [apply lookup_singleton_eq|].
  - intros [cc Hc] Hf. apply metrics_of_raises.
    by apply (run_backtest_no_flow _ _ _ df cc); [apply lookup_singleton_eq| |].
  - intros Hwf [cc Hc] [fc Hf]. split.
    + intros Hnil. apply (metrics_of_no_rows df cc fc Hc Hf).
      apply nil_length_inv. rewrite length_as_float, (Hwf "Close" cc Hc).
      by rewrite Hnil.
    + by apply (metrics_of_some_rows df cc fc).
Qed.

(** A frame with the two columns and no row: the page never summarises
    it (line 92), and the summary would raise. *)
Lemma summary_failures_witness :
  metrics_of (df_set_zero (price_frame []) "Foreign_Investor") = Raised IndexError.
Proof.
  apply (proj2 (proj2 (summary_failures (df_set_zero (price_frame []) "Foreign_Investor")))).
  - apply (bool_decide_unpack _). vm_compute. exact I.
  - vm_compute. eauto.
  - vm_compute. eauto.
  - reflexivity.
Defined.

(** ** The page *)

Section page.
Variables (now_start now_end : Z).
Variable download : string → Z → outcome DataFrame.
Variable investors : string → Z → Z → outcome (list ChipRow).
Variables (stock_id : string) (days : Z).

Lemma get_data_none_inv :
  get_data now_start now_end download investors stock_id days = Returned None →
  ∃ p, download (stock_id +:+ ".TW") (now_start - days) = Returned p
       ∧ df_empty p = true.
Proof.
  intros Hq.
  destruct (download (stock_id +:+ ".TW") (now_start - days)) as [p|e] eqn:Hp;
    [|by rewrite (get_data_price_raises _ _ _ _ _ _ e Hp) in Hq].
  exists p. split; [done|].
  destruct (df_empty p) eqn:He; [done|]. exfalso.
  destruct (investors stock_id (now_start - days) now_end) as [df_chip|e] eqn:Hc;
    [|by rewrite (get_data_flow_raises _ _ _ _ _ _ p e Hp He Hc) in Hq].
  destruct (decide (df_chip = [])) as [->|Hne].
  - by rewrite (get_data_no_flow _ _ _ _ _ _ p Hp He Hc) in Hq.
  - rewrite (get_data_joins _ _ _ _ _ _ p df_chip Hp He Hc Hne) in Hq.
    by case_decide.
Qed.

Lemma get_data_not_empty df :
  get_data now_start now_end download investors stock_id days = Returned (Some df) →
  df_empty df = false.
Proof.
  intros Hq.
  destruct (get_data_inv _ _ _ _ _ _ _ Hq)
    as (p & df_chip & _ & He & _ & [[_ ->]|(_ & _ & ->)]);
    unfold df_empty in *; apply orb_false_iff in He as [He Hcols];
    apply orb_false_iff; (split; [done|]); apply bool_decide_eq_false.
  - cbn. apply insert_non_empty.
  - apply bool_decide_eq_false in Hcols.
    unfold joined. cbn [df_fillna0 columns]. intros Hempty.
    by apply fmap_empty_inv, map_positive_l in Hempty.
Qed.
End page.

Lemma read_column_inv df key c :
  read_column df key = Returned c → columns df !! key = Some c.
Proof. unfold read_column. destruct (columns df !! key); by intros [= <-]. Qed.

(** What [render] does with a table that is not empty. *)
Lemma render_table df :
  df_empty df = false →
  (∀ m, render (Some df) = Returned (Report m) ↔
        Forall (λ k, is_Some (columns df !! k)) ["Open"; "High"; "Low"; "Close"]
        ∧ metrics_of df = Returned m)
  ∧ render (Some df) ≠ Returned NotFound
  ∧ (∀ e, render (Some df) = Raised e →
          (∃ k, e = KeyError k) ∨ metrics_of df = Raised e).
Proof.
  intros He. unfold render. rewrite He. unfold read_column.
  destruct (columns df !! "Open") as [o|] eqn:Ho; cycle 1.
  { cbn. split; [|split]; [|done|intros e [= <-]; left; eauto].
    intros m. split; [done|]. intros [Hall _].
    apply Forall_cons in Hall as [[? ?] _]. congruence. }
  destruct (columns df !! "High") as [hi|] eqn:Hh; cycle 1.
  { cbn. split; [|split]; [|done|intros e [= <-]; left; eauto].
    intros m. split; [done|]. intros [Hall _].
    apply Forall_cons in Hall as [_ Hall]. apply Forall_cons in Hall as [[? ?] _].
    congruence. }
  destruct (columns df !! "Low") as [lo|] eqn:Hl; cycle 1.
  { cbn. split; [|split]; [|done|intros e [= <-]; left; eauto].
    intros m. split; [done|]. intros [Hall _].
    do 2 apply Forall_cons in Hall as [_ Hall]. apply Forall_cons in Hall as [[? ?] _].
    congruence. }
  destruct (columns df !! "Close") as [cl|] eqn:Hc; cycle 1.
  { cbn. split; [|split]; [|done|intros e [= <-]; left; eauto].
    intros m. split; [done|]. intros [Hall _].
    do 3 apply Forall_cons in Hall as [_ Hall]. apply Forall_cons in Hall as [[? ?] _].
    congruence. }
  cbn. destruct (metrics_of df) as [m'|e'] eqn:Hm; cbn.
  - split; [|split]; [|done|done].
    intros m. split.
    + intros [= <-]. split; [|done]. repeat constructor; eauto.
    + by intros [_ [= <-]].
  - split; [|split]; [|done|intros e [= <-]; by right].
    intros m. split; [done|]. by intros [_ ?].
Qed.

(** X9: what one run of the script shows.  With an empty stock code
    nothing is fetched or shown.  Otherwise the not-found message appears
    exactly when the price source returns an empty series; a metric panel
    is that of the table get_data returned, which then has the four price
    columns and the Foreign_Investor column; an exception of get_data
    leaves the script as it is; and when the price source returns
    well-formed frames, the only other exception the script can end in is a
    KeyError for a missing column (never IndexError: a table get_data
    returns has a row). *)
Theorem page_outcomes
    (now_start now_end : Z) (download : string → Z → outcome DataFrame)
    (investors : string → Z → Z → outcome (list ChipRow))
    (stock_id : string) (days : Z) :
  app now_start now_end download investors "" days = Returned Blank
  ∧ (stock_id ≠ "" →
     (app now_start now_end download investors stock_id days = Returned (Shown NotFound)
      ↔ ∃ p, download (stock_id +:+ ".TW") (now_start - days) = Returned p
             ∧ df_empty p = true)
     ∧ (∀ m, app now_start now_end download investors stock_id days
             = Returned (Shown (Report m)) →
             ∃ df, get_data now_start now_end download investors stock_id days
                   = Returned (Some df)
                   ∧ metrics_of df = Returned m
                   ∧ Forall (λ k, is_Some (columns df !! k))
                       ["Open"; "High"; "Low"; "Close"; "Foreign_Investor"])
     ∧ (∀ e, get_data now_start now_end download investors stock_id days = Raised e →
             app now_start now_end download investors stock_id days = Raised e)
     ∧ ((∀ p, download (stock_id +:+ ".TW") (now_start - days) = Returned p →
              wf_frame p) →
        ∀ e, app now_start now_end download investors stock_id days = Raised e →
             get_data now_start now_end download investors stock_id days = Raised e
             ∨ ∃ k, e = KeyError k)).
Proof.
  split; [done|]. intros Hid. unfold app. rewrite decide_False by done.
  destruct (get_data now_start now_end download investors stock_id days)
    as [[df|]|e0] eqn:Hq; cbn [mbind outcome_bind].
  - (* a table *)
    pose proof (get_data_not_empty _ _ _ _ _ _ _ Hq) as He.
    destruct (render_table df He) as (Hreport & Hfound & Hraise).
    destruct (render (Some df)) as [[|m0]|e1] eqn:Hr; cbn; [done|..].
    + split; [|split; [|split]]; [|intros m [= <-]|done|done].
      * split; [done|]. intros (p & Hp & Hpe).
        by rewrite (get_data_no_data _ _ _ _ _ _ p Hp Hpe) in Hq.
      * destruct (proj1 (Hreport m0) eq_refl) as [Hcols Hm].
        exists df. split; [done|]. split; [done|].
        destruct (metrics_of_inv _ _ Hm) as (cc & fc & _ & _ & _ & Hf & _).
        apply Forall_app with (l1 := ["Open"; "High"; "Low"; "Close"]).
        split; [done|]. repeat constructor. by rewrite Hf.
    + split; [|split; [|split]]; [|done|done|].
      * split; [done|]. intros (p & Hp & Hpe).
        by rewrite (get_data_no_data _ _ _ _ _ _ p Hp Hpe) in Hq.
      * intros Hwf e [= <-]. right.
        destruct (Hraise e1 eq_refl) as [?|Hm]; [done|].
        destruct (get_data_wf _ _ _ _ _ _ _ Hwf Hq) as [Hwf' _].
        destruct (columns df !! "Close") as [cc|] eqn:Hc; cycle 1.
        { rewrite (metrics_of_raises df (KeyError "Close")) in Hm.
          - injection Hm as <-. eauto.
          - by apply (run_backtest_no_close _ _ _ df); [apply lookup_singleton_eq|]. }
        destruct (columns df !! "Foreign_Investor") as [fc|] eqn:Hf; cycle 1.
        { rewrite (metrics_of_raises df (KeyError "Foreign_Investor")) in Hm.
          - injection Hm as <-. eauto.
          - by apply (run_backtest_no_flow _ _ _ df cc); [apply lookup_singleton_eq| |]. }
        destruct (metrics_of_some_rows df cc fc Hwf' Hc Hf) as [m Hm'].
        { unfold df_empty in He. apply orb_false_iff in He as [He _].
          by apply bool_decide_eq_false in He. }
        by rewrite Hm' in Hm.
  - (* no data *)
    cbn. split; [|split; [|split]]; [|done|done|done].
    split; [intros _; exact (get_data_none_inv _ _ _ _ _ _ Hq)|done].
  - (* get_data raised *)
    split; [|split; [|split]]; [|done|by intros e [= <-]|intros _ e [= <-]; by left].
    split; [done|]. intros (p & Hp & Hpe).
    by rewrite (get_data_no_data _ _ _ _ _ _ p Hp Hpe) in Hq.
Qed.

Lemma page_outcomes_witness :
  app 20000 20000 (serve_prices []) (serve_flows (foreign_buys 3)) "2330" 730
  = Returned (Shown NotFound).
Proof.
  apply (proj2 (proj1 (proj2 (page_outcomes 20000 20000 (serve_prices [])
                                (serve_flows (foreign_buys 3)) "2330" 730)
                         ltac:(done)))).
  exists (price_frame []). split; [reflexivity|]. vm_compute. reflexivity.
Defined.

(** X10: the bars of the foreign-investor chart.  There is a chart exactly
    when the table has the column; it has one bar per row, red exactly
    where the net flow is positive (green for 0, a net sale or a missing
    value); and every row on which the strategy's signal is 1 has a red
    bar. *)
Theorem bar_colors_follow_flow (df : DataFrame) :
  (bar_colors df = None ↔ columns df !! "Foreign_Investor" = None)
  ∧ (∀ fc colors,
       columns df !! "Foreign_Investor" = Some fc → bar_colors df = Some colors →
       length colors = col_length fc
       ∧ ∀ t f c, as_float fc !! t = Some f → colors !! t = Some c →
                  (c = Red ↔ fgt f (Fin 0%Qc) = true))
  ∧ (∀ w res signal colors,
       backtest df w = Returned res →
       columns res !! "Signal" = Some (IntCol signal) →
       bar_colors df = Some colors →
       ∀ t, signal !! t = Some 1 → colors !! t = Some Red).
Proof.
  unfold bar_colors. split; [|split].
  - by destruct (columns df !! "Foreign_Investor").
  - intros fc colors -> [= <-]. split; [by rewrite length_fmap, length_gt0|].
    intros t f c Hf. rewrite gt0_as_float, !list_lookup_fmap, Hf. cbn.
    intros [= <-]. by destruct (fgt f (Fin 0%Qc)).
  - intros w res signal colors Hres Hsig Hcol t Ht.
    destruct (backtest_inv _ _ _ Hres) as (cc & fc & Hc & Hf & Hfr).
    destruct (backtest_series df w cc fc res Hc Hf Hfr)
      as (_ & _ & _ & _ & Hs & _).
    rewrite Hs in Hsig. injection Hsig as <-.
    rewrite Hf in Hcol. injection Hcol as <-.
    rewrite lookup_astype_int, lookup_zip_with in Ht.
    rewrite list_lookup_fmap.
    destruct (zip_with fgt _ _ !! t) as [a|]; [|done]. cbn in Ht.
    destruct (gt0 fc !! t) as [b|]; [|done]. cbn in Ht |- *.
    by destruct a, b.
Qed.

Lemma bar_colors_follow_flow_witness :
  bar_colors rising = Some (replicate 22 Red)
  ∧ ∀ t, [0; 0; 0; 0; 0; 0; 0; 0; 0; 0; 0; 0; 0; 0; 0; 0; 0; 0; 0; 1; 1; 1] !! t = Some 1 →
         replicate 22 Red !! t = Some Red.
Proof.
  split; [vm_compute; reflexivity|].
  apply (proj2 (proj2 (bar_colors_follow_flow rising)) 20%nat (backtested rising 20)).
  - vm_compute. reflexivity.
  - vm_compute. reflexivity.
  - vm_compute. reflexivity.
Defined.

(** ** The table of daily results *)

#[global] Instance later_first_total : Total later_first.
Proof. intros a b. unfold later_first. lia. Qed.

#[global] Instance later_first_trans : Transitive later_first.
Proof. intros a b c. unfold later_first. lia. Qed.

Lemma as_float_take_rows rows c :
  as_float (take_rows rows c) = omap (as_float c !!.) rows.
Proof.
  destruct c as [xs|zs]; cbn; [done|].
  induction rows as [|i rows IH]; [done|]. cbn.
  rewrite list_lookup_fmap. destruct (zs !! i); cbn; by rewrite IH.
Qed.

Lemma omap_reverse {A B} (f : A → option B) l :
  omap f (reverse l) = reverse (omap f l).
Proof.
  induction l as [|x l IH]; [done|].
  rewrite reverse_cons, omap_app, IH. cbn [omap list_omap].
  destruct (f x); [by rewrite reverse_cons|by rewrite app_nil_r].
Qed.

Lemma omap_lookup_seq {A} (xs : list A) k m :
  (k + m ≤ length xs)%nat → omap (xs !!.) (seq k m) = take m (drop k xs).
Proof.
  revert k. induction m as [|m IH]; intros k Hk; [done|]. cbn [seq omap list_omap].
  destruct (lookup_lt_is_Some_2 xs k) as [x Hx]; [lia|].
  rewrite Hx, (drop_S _ _ _ Hx). cbn [take]. by rewrite IH by lia.
Qed.

Lemma omap_lookup_all {A} (xs : list A) : omap (xs !!.) (seq 0 (length xs)) = xs.
Proof. rewrite omap_lookup_seq by lia. by rewrite drop_0, firstn_all. Qed.

Lemma zip_positions_sorted (stamps : list Z) k :
  Sorted Z.lt stamps →
  Sorted (λ a b : Z * nat, a.1 < b.1) (zip stamps (seq k (length stamps))).
Proof.
  intros Hs. revert k. induction Hs as [|x xs _ IH Hhd]; intros k; [constructor|].
  cbn. constructor; [apply IH|].
  destruct Hhd as [|y ys Hxy]; cbn; by constructor.
Qed.

Lemma ascending_NoDup (stamps : list Z) : Sorted Z.lt stamps → NoDup stamps.
Proof.
  intros Hs. apply (Sorted_StronglySorted _) in Hs.
  induction Hs as [|x xs _ IH Hall]; constructor; [|done].
  intros Hx. apply (proj1 (Forall_forall _ _) Hall) in Hx. lia.
Qed.

Lemma zip_positions_inj (stamps : list Z) (a b : Z * nat) :
  NoDup stamps →
  a ∈ zip stamps (seq 0 (length stamps)) →
  b ∈ zip stamps (seq 0 (length stamps)) →
  a.1 = b.1 → a = b.
Proof.
  intros Hnd Ha Hb Hab.
  apply list_elem_of_lookup in Ha as [i Hi]. apply list_elem_of_lookup in Hb as [j Hj].
  apply lookup_zip_with_Some in Hi as (s & p & -> & Hs & Hp).
  apply lookup_zip_with_Some in Hj as (s' & p' & -> & Hs' & Hp').
  cbn in Hab. subst s'.
  apply lookup_seq in Hp as [-> _]. apply lookup_seq in Hp' as [-> _].
  by rewrite (NoDup_lookup _ _ _ _ Hnd Hs Hs').
Qed.

(** Rows with ascending, distinct dates come out in reverse. *)
Lemma sort_index_desc_ascending (stamps : list Z) :
  Sorted Z.lt stamps →
  merge_sort later_first (zip stamps (seq 0 (length stamps)))
  = reverse (zip stamps (seq 0 (length stamps))).
Proof.
  intros Hs. apply (Sorted_unique_strong later_first).
  - intros a b Ha Hb Hab Hba.
    apply (zip_positions_inj stamps); [by apply ascending_NoDup| | |].
    + by rewrite merge_sort_Permutation in Ha.
    + by rewrite reverse_Permutation in Hb.
    + unfold later_first in *. lia.
  - apply (Sorted_merge_sort _).
  - rewrite <- (list_fmap_id (reverse _)).
    apply (Sorted_fmap id (flip (λ a b : Z * nat, a.1 < b.1))).
    + intros a b. unfold flip, later_first. cbn. lia.
    + apply Sorted_reverse. by apply zip_positions_sorted.
  - by rewrite merge_sort_Permutation, reverse_Permutation.
Qed.

Lemma sort_index_desc_stamps df :
  stamps (index (sort_index_desc df)) ≡ₚ stamps (index df)
  ∧ Sorted (flip Z.le) (stamps (index (sort_index_desc df))).
Proof.
  cbn. split.
  - rewrite merge_sort_Permutation. by rewrite fst_zip by (by rewrite length_seq).
  - apply (Sorted_fmap fst later_first); [done|]. apply (Sorted_merge_sort _).
Qed.

Lemma sort_index_desc_reverse df :
  wf_frame df →
  Sorted Z.lt (stamps (index df)) →
  stamps (index (sort_index_desc df)) = reverse (stamps (index df))
  ∧ ∀ k c, columns (sort_index_desc df) !! k = Some c →
           ∃ c', columns df !! k = Some c' ∧ as_float c = reverse (as_float c').
Proof.
  intros Hwf Hs. cbn. rewrite (sort_index_desc_ascending _ Hs).
  rewrite !fmap_reverse, fst_zip, snd_zip by (by rewrite length_seq).
  split; [done|]. intros k c. rewrite lookup_fmap.
  destruct (columns df !! k) as [c'|] eqn:Hk; [|done]. cbn. intros [= <-].
  exists c'. split; [done|].
  rewrite as_float_take_rows, omap_reverse.
  rewrite <- (Hwf k c' Hk), <- length_as_float. by rewrite omap_lookup_all.
Qed.

Lemma select_detail_columns res c1 c2 c3 c4 c5 :
  columns res !! "Close" = Some c1 →
  columns res !! "Foreign_Investor" = Some c2 →
  columns res !! "Signal" = Some c3 →
  columns res !! "Strategy_Return" = Some c4 →
  columns res !! "Cum_Strategy" = Some c5 →
  select res detail_columns
  = Returned (mkFrame (index res)
                (<["Close" := c1]>
                   (<["Foreign_Investor" := c2]>
                      (<["Signal" := c3]>
                         (<["Strategy_Return" := c4]>
                            (<["Cum_Strategy" := c5]> ∅)))))).
Proof.
  intros H1 H2 H3 H4 H5. unfold select, detail_columns, read_column. cbn [mapM].
  by rewrite H1, H2, H3, H4, H5.
Qed.

(** X11: the table of daily results.  For a table run_backtest returned on
    a well-formed input, the selection of the five columns never raises;
    the table shown has exactly those columns and the same dates, latest
    first; and when the dates of the input are ascending and distinct (as
    a price history is) it is the back-test table upside down: the dates
    and every column are reversed, each row kept together. *)
Theorem detail_table_latest_first (df : DataFrame) (w : nat) (res : DataFrame) :
  wf_frame df →
  backtest df w = Returned res →
  ∃ shown,
    detail_table res = Returned shown
    ∧ (∀ k, is_Some (columns shown !! k) ↔ k ∈ detail_columns)
    ∧ stamps (index shown) ≡ₚ stamps (index df)
    ∧ Sorted (flip Z.le) (stamps (index shown))
    ∧ (Sorted Z.lt (stamps (index df)) →
       stamps (index shown) = reverse (stamps (index df))
       ∧ ∀ k c, columns shown !! k = Some c →
                ∃ c', columns res !! k = Some c'
                      ∧ as_float c = reverse (as_float c')).
Proof.
  intros Hwf Hres.
  destruct (backtest_inv _ _ _ Hres) as (cc & fc & Hc & Hf & Hfr).
  destruct (backtest_series df w cc fc res Hc Hf Hfr)
    as (H1 & H2 & _ & _ & H3 & H4 & _ & H5).
  pose proof (backtest_columns_wf df w cc fc Hc Hf Hwf) as Hwf_res.
  rewrite <- Hfr in Hwf_res.
  assert (index res = index df) as Hidx by (by rewrite Hfr).
  match type of H3 with _ = Some ?c3 =>
  match type of H4 with _ = Some ?c4 =>
  match type of H5 with _ = Some ?c5 =>
    set (picked := mkFrame (index res)
                     (<["Close" := cc]>
                        (<["Foreign_Investor" := fc]>
                           (<["Signal" := c3]>
                              (<["Strategy_Return" := c4]>
                                 (<["Cum_Strategy" := c5]> ∅))))))
  end end end.
  assert (∀ k c, columns picked !! k = Some c → columns res !! k = Some c) as Hsub.
  { intros k c. unfold picked. cbn [columns].
    repeat (rewrite lookup_insert; case_decide; [subst k; by intros [= <-]|]).
    by rewrite lookup_empty. }
  assert (wf_frame picked) as Hwf_picked.
  { intros k c Hk. cbn [index picked]. by apply (Hwf_res k), Hsub. }
  exists (sort_index_desc picked). split.
  { unfold detail_table.
    by rewrite (select_detail_columns res _ _ _ _ _ H1 H2 H3 H4 H5). }
  split.
  { intros k. cbn [sort_index_desc columns picked]. rewrite lookup_fmap, fmap_is_Some.
    unfold detail_columns. split.
    - repeat (rewrite lookup_insert; case_decide;
              [subst k; intros _; rewrite !elem_of_cons; auto 10|]).
      rewrite lookup_empty. by intros [? ?].
    - intros Hk.
      repeat (apply elem_of_cons in Hk as [->|Hk]); [..|by apply elem_of_nil in Hk];
        repeat (rewrite lookup_insert_ne by done); rewrite lookup_insert_eq; eauto. }
  destruct (sort_index_desc_stamps picked) as [Hperm Hsorted].
  cbn [index picked] in Hperm. rewrite Hidx in Hperm.
  split; [done|]. split; [done|].
  intros Hasc.
  destruct (sort_index_desc_reverse picked Hwf_picked) as [Hrev Hcols].
  { cbn [index picked]. by rewrite Hidx. }
  cbn [index picked] in Hrev. rewrite Hidx in Hrev.
  split; [done|]. intros k c Hk.
  destruct (Hcols k c Hk) as (c' & Hk' & Hval). exists c'. split; [by apply Hsub|done].
Qed.

Lemma detail_table_latest_first_witness :
  ∃ shown,
    detail_table (backtested rising 20) = Returned shown
    ∧ (∀ k, is_Some (columns shown !! k) ↔ k ∈ detail_columns)
    ∧ stamps (index shown) ≡ₚ stamps (index rising)
    ∧ Sorted (flip Z.le) (stamps (index shown))
    ∧ (Sorted Z.lt (stamps (index rising)) →
       stamps (index shown) = reverse (stamps (index rising))
       ∧ ∀ k c, columns shown !! k = Some c →
                ∃ c', columns (backtested rising 20) !! k = Some c'
                      ∧ as_float c = reverse (as_float c')).
Proof.
  apply (detail_table_latest_first rising 20 (backtested rising 20)).
  - apply (bool_decide_unpack _). vm_compute. exact I.
  - vm_compute. reflexivity.
Defined.

(** ** More on the data merger *)

Lemma wrap64_add_r a b : wrap64 (a + wrap64 b) = wrap64 (a + b).
Proof.
  unfold wrap64. f_equal.
  replace (a + ((b + 9223372036854775808) mod 18446744073709551616
                - 9223372036854775808) + 9223372036854775808)
    with (a + (b + 9223372036854775808) mod 18446744073709551616) by lia.
  rewrite Zplus_mod_idemp_r. f_equal. lia.
Qed.

Lemma add64_swap a b c : add64 a (add64 b c) = add64 b (add64 a c).
Proof.
  unfold add64. rewrite !wrap64_add_r. f_equal. lia.
Qed.

Lemma net_flow_on_Permutation df_chip df_chip' d n :
  df_chip ≡ₚ df_chip' → net_flow_on df_chip d n = net_flow_on df_chip' d n.
Proof.
  intros Hperm. unfold net_flow_on.
  apply (foldr_permutation_proper (=) add64 0); [intros; apply add64_swap|].
  by rewrite Hperm.
Qed.

Lemma pivot_cell_net_flow df_chip d n :
  pivot_cell df_chip d n
  = if decide (filter (λ r, date r = d ∧ name r = n) df_chip = []) then None
    else Some (net_flow_on df_chip d n).
Proof.
  unfold pivot_cell, net_flow_on.
  by destruct (filter (λ r, date r = d ∧ name r = n) df_chip).
Qed.

Lemma pivot_cell_Permutation df_chip df_chip' d n :
  df_chip ≡ₚ df_chip' → pivot_cell df_chip d n = pivot_cell df_chip' d n.
Proof.
  intros Hperm. rewrite !pivot_cell_net_flow.
  rewrite (net_flow_on_Permutation _ _ d n Hperm).
  assert (filter (λ r, date r = d ∧ name r = n) df_chip
          ≡ₚ filter (λ r, date r = d ∧ name r = n) df_chip') as Hf by by rewrite Hperm.
  destruct (decide (filter _ df_chip = [])) as [Hnil|Hsome];
    destruct (decide (filter _ df_chip' = [])) as [Hnil'|Hsome']; try done.
  - rewrite Hnil in Hf. by apply Permutation_nil_l in Hf.
  - rewrite Hnil' in Hf. by apply Permutation_nil_r in Hf.
Qed.

Lemma pivot_table_Permutation df_chip df_chip' :
  df_chip ≡ₚ df_chip' → pivot_table df_chip = pivot_table df_chip'.
Proof.
  intros Hperm. unfold pivot_table.
  assert (merge_sort Z.le (remove_dups (date <$> df_chip))
          = merge_sort Z.le (remove_dups (date <$> df_chip'))) as <-.
  { apply (Sorted_unique Z.le); try apply (Sorted_merge_sort _).
    rewrite !merge_sort_Permutation.
    apply NoDup_Permutation; try apply NoDup_remove_dups.
    intros d. by rewrite !elem_of_remove_dups, Hperm. }
  f_equal. apply list_to_map_proper.
  - rewrite <- list_fmap_compose. cbn. rewrite list_fmap_id. apply NoDup_remove_dups.
  - transitivity
      ((λ n, (n, col_of_cells
                   ((λ d, pivot_cell df_chip d n)
                      <$> merge_sort Z.le (remove_dups (date <$> df_chip)))))
         <$> remove_dups (name <$> df_chip')).
    + apply fmap_Permutation, NoDup_Permutation; try apply NoDup_remove_dups.
      intros n. by rewrite !elem_of_remove_dups, Hperm.
    + match goal with |- ?a ≡ₚ ?b => assert (a = b) as ->; [|done] end.
      apply list_fmap_ext. intros i n _. do 2 f_equal.
      apply list_fmap_ext. intros j d _. by apply pivot_cell_Permutation.
Qed.

(** X12: the order in which the flow source lists its records does not
    matter: two answers that hold the same records in a different order
    give the same outcome of get_data, whatever the price source does. *)
Theorem flow_record_order_irrelevant
    (now_start now_end : Z) (download : string → Z → outcome DataFrame)
    (investors investors' : string → Z → Z → outcome (list ChipRow))
    (symbol : string) (days : Z) (df_chip df_chip' : list ChipRow) :
  investors symbol (now_start - days) now_end = Returned df_chip →
  investors' symbol (now_start - days) now_end = Returned df_chip' →
  df_chip ≡ₚ df_chip' →
  get_data now_start now_end download investors symbol days
  = get_data now_start now_end download investors' symbol days.
Proof.
  intros Hc Hc' Hperm. unfold get_data.
  destruct (download (symbol +:+ ".TW") (now_start - days)) as [p|e]; [|done].
  cbn [mbind outcome_bind]. destruct (df_empty p); [done|]. rewrite Hc, Hc'.
  cbn [mbind outcome_bind].
  rewrite (pivot_table_Permutation _ _ Hperm).
  assert (chip_empty df_chip = chip_empty df_chip') as ->; [|done].
  destruct df_chip as [|r rows], df_chip' as [|r' rows']; try done.
  - by apply Permutation_nil_l in Hperm.
  - by apply Permutation_nil_r in Hperm.
Qed.

Lemma flow_record_order_irrelevant_witness :
  get_data 20000 20000 (serve_prices [100; 101; 102]) (serve_flows mixed_rows) "2330" 730
  = get_data 20000 20000 (serve_prices [100; 101; 102])
      (serve_flows (reverse mixed_rows)) "2330" 730.
Proof.
  apply (flow_record_order_irrelevant 20000 20000 (serve_prices [100; 101; 102])
           (serve_flows mixed_rows) (serve_flows (reverse mixed_rows)) "2330" 730
           mixed_rows (reverse mixed_rows)).
  - reflexivity.
  - reflexivity.
  - symmetry. apply reverse_Permutation.
Defined.

Lemma pivot_disjoint p df_chip :
  columns p ##ₘ columns (df_fillna0 (pivot_table df_chip))
  ↔ ∀ n, n ∈ name <$> df_chip → columns p !! n = None.
Proof.
  rewrite map_disjoint_alt. split.
  - intros Hd n Hn. destruct (Hd n) as [?|Hnone]; [done|].
    cbn [df_fillna0 columns] in Hnone.
    by rewrite lookup_fmap, (pivot_column df_chip n Hn) in Hnone.
  - intros Hd n. destruct (decide (n ∈ name <$> df_chip)) as [Hn|Hn].
    + left. by apply Hd.
    + right. cbn [df_fillna0 columns].
      by rewrite lookup_fmap, (pivot_no_column df_chip n Hn).
Qed.

(** X13: the ways get_data fails.  Every exception of get_data is the
    exception of the price source, or that of the flow source once the
    prices are there (both reach the caller unchanged), or the ValueError
    of the join, raised when some flow record is named like a column of
    the price frame; the join never fails on the time zone, which is
    stripped first.  Conversely, once both sources answer and the prices
    are not empty, a record named like a price column makes get_data
    raise a ValueError, and without such a record get_data returns a
    table. *)
Theorem get_data_failures
    (now_start now_end : Z) (download : string → Z → outcome DataFrame)
    (investors : string → Z → Z → outcome (list ChipRow))
    (symbol : string) (days : Z) :
  (∀ e, get_data now_start now_end download investors symbol days = Raised e →
     download (symbol +:+ ".TW") (now_start - days) = Raised e
     ∨ ∃ p, download (symbol +:+ ".TW") (now_start - days) = Returned p
            ∧ df_empty p = false
            ∧ (investors symbol (now_start - days) now_end = Raised e
               ∨ ∃ df_chip n msg,
                   investors symbol (now_start - days) now_end = Returned df_chip
                   ∧ n ∈ name <$> df_chip
                   ∧ is_Some (columns p !! n)
                   ∧ e = ValueError msg))
  ∧ (∀ p df_chip,
       download (symbol +:+ ".TW") (now_start - days) = Returned p →
       df_empty p = false →
       investors symbol (now_start - days) now_end = Returned df_chip →
       ((∃ n, n ∈ name <$> df_chip ∧ is_Some (columns p !! n)) →
        ∃ msg, get_data now_start now_end download investors symbol days
               = Raised (ValueError msg))
       ∧ ((∀ n, n ∈ name <$> df_chip → columns p !! n = None) →
          ∃ df, get_data now_start now_end download investors symbol days
                = Returned (Some df))).
Proof.
  split.
  - intros e Hq.
    destruct (download (symbol +:+ ".TW") (now_start - days)) as [p|e0] eqn:Hp; cycle 1.
    { rewrite (get_data_price_raises _ _ _ _ _ _ e0 Hp) in Hq. left. congruence. }
    right. exists p. split; [done|].
    destruct (df_empty p) eqn:He;
      [by rewrite (get_data_no_data _ _ _ _ _ _ p Hp He) in Hq|].
    split; [done|].
    destruct (investors symbol (now_start - days) now_end) as [df_chip|e0] eqn:Hc;
      cycle 1.
    { rewrite (get_data_flow_raises _ _ _ _ _ _ p e0 Hp He Hc) in Hq. left. congruence. }
    right. exists df_chip.
    destruct (decide (df_chip = [])) as [->|Hne];
      [by rewrite (get_data_no_flow _ _ _ _ _ _ p Hp He Hc) in Hq|].
    rewrite (get_data_joins _ _ _ _ _ _ p df_chip Hp He Hc Hne) in Hq.
    case_decide as Hdisj; [done|]. injection Hq as <-.
    destruct (decide (Exists (λ n, is_Some (columns p !! n)) (name <$> df_chip)))
      as [Hex|Hall].
    + apply Exists_exists in Hex as (n & Hn & Hsome). exists n. eauto.
    + exfalso. apply Hdisj, pivot_disjoint. intros n Hn.
      apply not_Exists_Forall in Hall; [|apply _].
      rewrite Forall_forall in Hall. specialize (Hall n Hn). cbn in Hall.
      by apply eq_None_not_Some.
  - intros p df_chip Hp He Hc. split.
    + intros (n & Hn & Hsome).
      assert (df_chip ≠ []) as Hne by (intros ->; by apply elem_of_nil in Hn).
      rewrite (get_data_joins _ _ _ _ _ _ p df_chip Hp He Hc Hne).
      case_decide as Hdisj; [|eauto].
      rewrite (proj1 (pivot_disjoint p df_chip) Hdisj n Hn) in Hsome.
      by destruct Hsome.
    + intros Hnone. destruct (decide (df_chip = [])) as [->|Hne].
      * rewrite (get_data_no_flow _ _ _ _ _ _ p Hp He Hc). eauto.
      * rewrite (get_data_joins _ _ _ _ _ _ p df_chip Hp He Hc Hne).
        rewrite decide_True by by apply pivot_disjoint. eauto.
Qed.

Lemma get_data_failures_witness :
  ∃ msg, get_data 20000 20000 (serve_prices [100; 101; 102]) (serve_flows volume_rows)
           "2330" 730
         = Raised (ValueError msg).
Proof.
  apply (proj1 (proj2 (get_data_failures 20000 20000 (serve_prices [100; 101; 102])
                         (serve_flows volume_rows) "2330" 730)
                  (price_frame [100; 101; 102]) volume_rows
                  eq_refl ltac:(vm_compute; reflexivity) eq_refl)).
  exists "Volume". split.
  - apply (bool_decide_unpack _). vm_compute. exact I.
  - vm_compute. eauto.
Defined.

(** X14: the columns of a merged table when flow records exist.  The
    table has exactly the columns of the price frame and one column per
    flow category, and no category is named like a price column.  Every
    price column is kept under its name, cell for cell, except that a
    missing cell (NaN) is replaced by the number 0: a day without a close
    enters the back-test with the close 0.  No cell of the merged table is
    missing. *)
Theorem merge_fills_price_columns
    (now_start now_end : Z) (download : string → Z → outcome DataFrame)
    (investors : string → Z → Z → outcome (list ChipRow))
    (symbol : string) (days : Z) (p : DataFrame) (df_chip : list ChipRow)
    (df : DataFrame) :
  download (symbol +:+ ".TW") (now_start - days) = Returned p →
  investors symbol (now_start - days) now_end = Returned df_chip →
  df_chip ≠ [] →
  get_data now_start now_end download investors symbol days = Returned (Some df) →
  (∀ n, is_Some (columns df !! n)
        ↔ is_Some (columns p !! n) ∨ n ∈ name <$> df_chip)
  ∧ (∀ n c, columns p !! n = Some c →
       (n ∉ name <$> df_chip)
       ∧ ∃ c', columns df !! n = Some c'
               ∧ length (as_float c') = length (as_float c)
               ∧ ∀ t x, as_float c !! t = Some x →
                        as_float c' !! t = Some (if is_nan x then Fin 0%Qc else x))
  ∧ (∀ n c, columns df !! n = Some c → col_no_nan c).
Proof.
  intros Hp Hc Hne Hq.
  destruct (get_data_inv _ _ _ _ _ _ _ Hq)
    as (p' & df_chip' & Hp' & He & Hc' & Hcases).
  rewrite Hp in Hp'. injection Hp' as <-.
  rewrite Hc in Hc'. injection Hc' as <-.
  destruct Hcases as [[-> _]|(_ & Hdisj & ->)]; [done|].
  pose proof (proj1 (pivot_disjoint p df_chip) Hdisj) as Hnone.
  split; [|split].
  - intros n. split.
    + intros Hn. destruct (columns p !! n) as [c|] eqn:Hpn; [left; eauto|].
      right. destruct (decide (n ∈ name <$> df_chip)) as [?|Hnn]; [done|].
      rewrite (joined_no_column p df_chip n Hpn Hnn) in Hn. by destruct Hn.
    + intros [[c Hpn]|Hn].
      * rewrite (joined_column_of_price p df_chip n c Hpn). eauto.
      * destruct (joined_column_of_flow p df_chip n Hdisj Hn) as (c & -> & _). eauto.
  - intros n c Hpn. split.
    + intros Hn. by rewrite (Hnone n Hn) in Hpn.
    + exists (col_fillna0 c). split; [by apply joined_column_of_price|].
      rewrite as_float_fillna0. unfold fillna0. split; [by rewrite length_fmap|].
      intros t x Hx. by rewrite list_lookup_fmap, Hx.
  - intros n c. apply joined_no_nan.
Qed.

Lemma merge_fills_price_columns_witness :
  ("Close" ∉ name <$> mixed_rows)
  ∧ ∃ c', columns (joined gapped_prices mixed_rows) !! "Close" = Some c'
          ∧ length (as_float c') = length [of_Z 100; NaN; of_Z 102]
          ∧ ∀ t x, [of_Z 100; NaN; of_Z 102] !! t = Some x →
                   as_float c' !! t = Some (if is_nan x then Fin 0%Qc else x).
Proof.
  apply (proj1 (proj2 (merge_fills_price_columns 20000 20000
                         (λ _ _, Returned gapped_prices) (serve_flows mixed_rows)
                         "2330" 730 gapped_prices mixed_rows
                         (joined gapped_prices mixed_rows)
                         eq_refl eq_refl ltac:(done) ltac:(vm_compute; reflexivity)))
           "Close" (FloatCol [of_Z 100; NaN; of_Z 102])).
  vm_compute. reflexivity.
Defined.

(** ** From the two sources to the page *)

Lemma merged_price_column p df_chip df n :
  (df_chip = [] ∧ df = df_set_zero p "Foreign_Investor"
   ∨ df_chip ≠ [] ∧ df = joined p df_chip) →
  n ≠ "Foreign_Investor" →
  is_Some (columns p !! n) → is_Some (columns df !! n).
Proof.
  intros [[_ ->]|[_ ->]] Hn [c Hc].
  - cbn. rewrite lookup_insert_ne by done. eauto.
  - rewrite (joined_column_of_price p df_chip n c Hc). eauto.
Qed.

Lemma render_reads_prices df :
  df_empty df = false →
  Forall (λ k, is_Some (columns df !! k)) ["Open"; "High"; "Low"; "Close"] →
  render (Some df) = (m ← metrics_of df; mret (Report m)).
Proof.
  intros He Hall. unfold render, read_column. rewrite He.
  apply Forall_cons in Hall as [[o ->] Hall].
  apply Forall_cons in Hall as [[hi ->] Hall].
  apply Forall_cons in Hall as [[lo ->] Hall].
  apply Forall_cons in Hall as [[cl ->] _]. done.
Qed.

(** X15: when one run of the script ends in the metric panel.  Take a
    stock code that is not empty, a price source returning a well-formed
    frame with at least one row and the four price columns, and a flow
    source returning records none of which is named like a price column.
    If there is no record at all, or some record is of the category
    Foreign_Investor, the script shows the metric panel.  If there are
    records but none of the category Foreign_Investor (and the price frame
    has no such column) the script ends in KeyError 'Foreign_Investor'
    instead: the page is not drawn. *)
Theorem page_needs_foreign_records
    (now_start now_end : Z) (download : string → Z → outcome DataFrame)
    (investors : string → Z → Z → outcome (list ChipRow))
    (stock_id : string) (days : Z) (p : DataFrame) (df_chip : list ChipRow) :
  stock_id ≠ "" →
  download (stock_id +:+ ".TW") (now_start - days) = Returned p →
  wf_frame p →
  stamps (index p) ≠ [] →
  Forall (λ k, is_Some (columns p !! k)) ["Open"; "High"; "Low"; "Close"] →
  investors stock_id (now_start - days) now_end = Returned df_chip →
  (∀ n, n ∈ name <$> df_chip → columns p !! n = None) →
  (df_chip = [] ∨ "Foreign_Investor" ∈ name <$> df_chip →
   ∃ m, app now_start now_end download investors stock_id days
        = Returned (Shown (Report m)))
  ∧ (df_chip ≠ [] → "Foreign_Investor" ∉ name <$> df_chip →
     columns p !! "Foreign_Investor" = None →
     app now_start now_end download investors stock_id days
     = Raised (KeyError "Foreign_Investor")).
Proof.
  intros Hid Hp Hwf Hrows Hprices Hc Hnone.
  assert (df_empty p = false) as He.
  { unfold df_empty. apply orb_false_iff.
    split; apply bool_decide_eq_false; [done|].
    apply Forall_cons in Hprices as [[o Ho] _]. intros Hempty.
    by rewrite Hempty, lookup_empty in Ho. }
  assert (∃ df, get_data now_start now_end download investors stock_id days
                = Returned (Some df)
                ∧ (df_chip = [] ∧ df = df_set_zero p "Foreign_Investor"
                   ∨ df_chip ≠ [] ∧ df = joined p df_chip)) as (df & Hq & Hdf).
  { destruct (decide (df_chip = [])) as [->|Hne].
    - eexists. split; [by apply (get_data_no_flow _ _ _ _ _ _ p)|]. by left.
    - eexists. split; [|by right].
      rewrite (get_data_joins _ _ _ _ _ _ p df_chip Hp He Hc Hne).
      by rewrite decide_True by by apply pivot_disjoint. }
  pose proof (get_data_not_empty _ _ _ _ _ _ _ Hq) as Hne.
  assert (wf_frame df) as Hwf'.
  { apply (get_data_wf now_start now_end download investors stock_id days); [|done].
    intros p' Hp'. rewrite Hp in Hp'. by injection Hp' as <-. }
  assert (Forall (λ k, is_Some (columns df !! k)) ["Open"; "High"; "Low"; "Close"])
    as Hcols.
  { eapply Forall_impl; [|intros k Hk; exact Hk].
    apply Forall_forall. intros k Hk.
    apply (merged_price_column p df_chip df k Hdf).
    - intros ->. revert Hk. apply (bool_decide_unpack _). vm_compute. exact I.
    - by apply (proj1 (Forall_forall _ _) Hprices). }
  assert (app now_start now_end download investors stock_id days
          = (m ← metrics_of df; mret (Shown (Report m)))) as ->.
  { unfold app. rewrite decide_False by done. rewrite Hq. cbn [mbind outcome_bind].
    rewrite (render_reads_prices df Hne Hcols). by destruct (metrics_of df). }
  assert (∃ cc, columns df !! "Close" = Some cc) as [cc Hclose].
  { do 3 apply Forall_cons in Hcols as [_ Hcols].
    by apply Forall_cons in Hcols as [[cc ?] _]; eauto. }
  split.
  - intros Hforeign.
    assert (∃ fc, columns df !! "Foreign_Investor" = Some fc) as [fc Hflow].
    { destruct Hdf as [[-> ->]|[Hsome ->]].
      - cbn. rewrite lookup_insert_eq. eauto.
      - destruct Hforeign as [?|Hin]; [done|].
        destruct (joined_column_of_flow p df_chip "Foreign_Investor")
          as (c & ? & _); [by apply pivot_disjoint|done|eauto]. }
    destruct (metrics_of_some_rows df cc fc Hwf' Hclose Hflow) as [m ->].
    + unfold df_empty in Hne. apply orb_false_iff in Hne as [Hne _].
      by apply bool_decide_eq_false in Hne.
    + by exists m.
  - intros Hsome Hnot Hpf.
    destruct Hdf as [[? _]|[_ ->]]; [done|].
    rewrite (metrics_of_raises _ (KeyError "Foreign_Investor")); [done|].
    apply (run_backtest_no_flow _ _ _ (joined p df_chip) cc);
      [apply lookup_singleton_eq|done|].
    by apply joined_no_column.
Qed.

Lemma page_needs_foreign_records_witness :
  (∃ m, app 20000 20000 (serve_prices [100; 101; 102]) (serve_flows mixed_rows)
          "2330" 730
        = Returned (Shown (Report m)))
  ∧ app 20000 20000 (serve_prices [100; 101; 102]) (serve_flows dealer_rows)
      "2330" 730
    = Raised (KeyError "Foreign_Investor").
Proof.
  split.
  - apply (proj1 (page_needs_foreign_records 20000 20000
                    (serve_prices [100; 101; 102]) (serve_flows mixed_rows)
                    "2330" 730 (price_frame [100; 101; 102]) mixed_rows
                    ltac:(done) eq_refl
                    ltac:(apply (bool_decide_unpack _); vm_compute; exact I)
                    ltac:(done)
                    ltac:(apply (bool_decide_unpack _); vm_compute; exact I)
                    eq_refl
                    ltac:(apply (proj1 (Forall_forall _ _));
                          apply (bool_decide_unpack _); vm_compute; exact I))).
    right. apply (bool_decide_unpack _). vm_compute. exact I.
  - apply (proj2 (page_needs_foreign_records 20000 20000
                    (serve_prices [100; 101; 102]) (serve_flows dealer_rows)
                    "2330" 730 (price_frame [100; 101; 102]) dealer_rows
                    ltac:(done) eq_refl
                    ltac:(apply (bool_decide_unpack _); vm_compute; exact I)
                    ltac:(done)
                    ltac:(apply (bool_decide_unpack _); vm_compute; exact I)
                    eq_refl
                    ltac:(apply (proj1 (Forall_forall _ _));
                          apply (bool_decide_unpack _); vm_compute; exact I))).
    + done.
    + apply (bool_decide_unpack _). vm_compute. exact I.
    + vm_compute. reflexivity.
Defined.
